(** * Serverless Stripe handlers: a shallow embedding

    The repository holds four Vercel functions written in JavaScript:
    [api/status.js], [api/stripe/webhook.js],
    [api/stripe/create-payment-intent.js] and
    [api/stripe/customer-portal.js].  This development embeds the four
    handlers as programs of a small state-and-exception monad over
    JavaScript values, and proves facts about the responses they send and
    the calls they make.

    What is not code of the repository stays a parameter: the Stripe SDK
    ([constructEvent], [customers.list], [customers.create],
    [customers.retrieve], [paymentIntents.create],
    [billingPortal.sessions.create]), micro's [buffer], and the conversions of the
    JavaScript runtime that depend on floating point or Unicode.  The Date
    built-ins that [calculateEndDate] uses are modelled after ECMAScript.

    Layout: the model (JavaScript values, the Date built-ins, the monad, the
    handlers), then the vocabulary of the statements and the scenarios,
    then the lemmas and theorems. *)

From stdpp Require Import base option list gmap strings.
From Stdlib Require Import ZArith Lia.

Local Open Scope string_scope.
Local Open Scope Z_scope.
Local Open Scope list_scope.

(* ===================================================================== *)
(** * JavaScript values *)
(* ===================================================================== *)

Module JS.

(** Values as they come out of [JSON.parse], plus [undefined].  Numbers are
    the integral ones; objects are finite maps from property names. *)
#[warnings="-register-all"]
Inductive value : Type :=
| VUndefined
| VNull
| VBool (b : bool)
| VNum (n : Z)
| VStr (s : string)
| VArr (items : list value)
| VObj (fields : gmap string value).

(** An object literal [{ k1: v1, k2: v2 }]. *)
Definition obj (l : list (string * value)) : value := VObj (list_to_map l).

(** A thrown JavaScript error, with the properties the handlers read. *)
Record exn : Type := Exn {
  exn_name : string;      (* TypeError, RangeError, Error *)
  exn_message : string;   (* error.message *)
  exn_type : value;       (* error.type, set by the Stripe SDK *)
  exn_code : value        (* error.code, set by the Stripe SDK *)
}.

Definition TypeError (msg : string) : exn := Exn "TypeError" msg VUndefined VUndefined.
Definition RangeError (msg : string) : exn := Exn "RangeError" msg VUndefined VUndefined.

(** How an error shows up as a logged argument. *)
Definition exn_value (e : exn) : value :=
  obj [("name", VStr (exn_name e)); ("message", VStr (exn_message e));
       ("type", exn_type e); ("code", exn_code e)].

(** Completion of an evaluation: a value or a thrown error. *)
Inductive outcome (A : Type) : Type :=
| Ret (a : A)
| Throw (e : exn).
Arguments Ret {A} a.
Arguments Throw {A} e.

(** [!v] is [negb (truthy v)]. *)
Definition truthy (v : value) : bool :=
  match v with
  | VUndefined | VNull => false
  | VBool b => b
  | VNum n => negb (n =? 0)
  | VStr s => negb (String.eqb s "")
  | VArr _ | VObj _ => true
  end.

(** [a || b] *)
Definition or_else (a b : value) : value := if truthy a then a else b.

(** [v === 'lit'] *)
Definition is_str (v : value) (lit : string) : bool :=
  match v with VStr s => String.eqb s lit | _ => false end.

Definition nullish (v : value) : bool :=
  match v with VUndefined | VNull => true | _ => false end.

Definition type_name (v : value) : string :=
  match v with VNull => "null" | _ => "undefined" end.

(** [v.k] for the property names the handlers read; none of them is defined
    on a built-in prototype, so only own properties of a parsed object
    answer, every other non-nullish value gives [undefined], and reading
    from [undefined] or [null] throws. *)
Definition get_prop (v : value) (k : string) : outcome value :=
  match v with
  | VUndefined | VNull =>
      Throw (TypeError ("Cannot read properties of " +:+ type_name v +:+
                        " (reading '" +:+ k +:+ "')"))
  | VObj m => Ret (default VUndefined (m !! k))
  | _ => Ret VUndefined
  end.

(** [v?.k] *)
Definition get_opt (v : value) (k : string) : outcome value :=
  if nullish v then Ret VUndefined else get_prop v k.

End JS.

(* ===================================================================== *)
(** * The Date built-ins (ECMAScript, section "Date Objects") *)
(* ===================================================================== *)

Module JSDate.

(** A time value: milliseconds since the epoch, or NaN ([None]). *)
Abbreviation time := (option Z).

Definition msPerDay : Z := 86400000.
Definition msPerHour : Z := 3600000.
Definition msPerMinute : Z := 60000.
Definition msPerSecond : Z := 1000.
Definition maxTime : Z := 8640000000000000.

Definition Day (t : Z) : Z := t / msPerDay.
Definition TimeWithinDay (t : Z) : Z := t mod msPerDay.

Definition DaysInYear (y : Z) : Z :=
  if negb (y mod 4 =? 0) then 365
  else if negb (y mod 100 =? 0) then 366
  else if negb (y mod 400 =? 0) then 365
  else 366.

Definition DayFromYear (y : Z) : Z :=
  365 * (y - 1970) + (y - 1969) / 4 - (y - 1901) / 100 + (y - 1601) / 400.

Definition TimeFromYear (y : Z) : Z := msPerDay * DayFromYear y.

(** The largest [y] with [TimeFromYear y <= t]: the mean year of 365.2425
    days gives an estimate that is off by at most one. *)
Definition YearFromTime (t : Z) : Z :=
  let d := Day t in
  let y := 1970 + d * 400 / 146097 in
  if d <? DayFromYear y then y - 1
  else if DayFromYear (y + 1) <=? d then y + 1
  else y.

Definition InLeapYear (t : Z) : Z :=
  if DaysInYear (YearFromTime t) =? 366 then 1 else 0.

Definition DayWithinYear (t : Z) : Z := Day t - DayFromYear (YearFromTime t).

Definition MonthFromTime (t : Z) : Z :=
  let d := DayWithinYear t in
  let l := InLeapYear t in
  if d <? 31 then 0
  else if d <? 59 + l then 1
  else if d <? 90 + l then 2
  else if d <? 120 + l then 3
  else if d <? 151 + l then 4
  else if d <? 181 + l then 5
  else if d <? 212 + l then 6
  else if d <? 243 + l then 7
  else if d <? 273 + l then 8
  else if d <? 304 + l then 9
  else if d <? 334 + l then 10
  else 11.

Definition DateFromTime (t : Z) : Z :=
  let d := DayWithinYear t in
  let l := InLeapYear t in
  match MonthFromTime t with
  | 0 => d + 1
  | 1 => d - 30
  | 2 => d - 58 - l
  | 3 => d - 89 - l
  | 4 => d - 119 - l
  | 5 => d - 150 - l
  | 6 => d - 180 - l
  | 7 => d - 211 - l
  | 8 => d - 242 - l
  | 9 => d - 272 - l
  | 10 => d - 303 - l
  | _ => d - 333 - l
  end.

Definition HourFromTime (t : Z) : Z := (t / msPerHour) mod 24.
Definition MinFromTime (t : Z) : Z := (t / msPerMinute) mod 60.
Definition SecFromTime (t : Z) : Z := (t / msPerSecond) mod 60.
Definition msFromTime (t : Z) : Z := t mod msPerSecond.

(** Day number, within its year, of the first day of month [m] (0-based);
    [l] is 1 in a leap year. *)
Definition monthStart (m l : Z) : Z :=
  match m with
  | 0 => 0
  | 1 => 31
  | 2 => 59 + l
  | 3 => 90 + l
  | 4 => 120 + l
  | 5 => 151 + l
  | 6 => 181 + l
  | 7 => 212 + l
  | 8 => 243 + l
  | 9 => 273 + l
  | 10 => 304 + l
  | _ => 334 + l
  end.

(** [MakeDay(year, month, date)]: the day number of the first of the month
    plus [date - 1]; months outside 0..11 carry into the year. *)
Definition MakeDay (year month date : Z) : Z :=
  let ym := year + month / 12 in
  let mn := month mod 12 in
  let l := if DaysInYear ym =? 366 then 1 else 0 in
  DayFromYear ym + monthStart mn l + date - 1.

Definition MakeDate (day tm : Z) : Z := day * msPerDay + tm.

Definition TimeClip (t : Z) : time :=
  if maxTime <? Z.abs t then None else Some t.

Definition valid_time (t : Z) : Prop := Z.abs t <= maxTime.

(** Decimal digits, zero-padded on the left to [width]. *)
Definition digit (n : Z) : Ascii.ascii :=
  Ascii.ascii_of_nat (48 + Z.to_nat (n mod 10)).

Fixpoint pad (width : nat) (n : Z) : string :=
  match width with
  | O => ""
  | S w => pad w (n / 10) +:+ String (digit n) ""
  end.

Definition year_string (y : Z) : string :=
  if (0 <=? y) && (y <=? 9999) then pad 4 y
  else if y <? 0 then "-" +:+ pad 6 (- y)
  else "+" +:+ pad 6 y.

(** The text [Date.prototype.toISOString] produces for a finite time value. *)
Definition iso_string (t : Z) : string :=
  year_string (YearFromTime t) +:+ "-" +:+ pad 2 (MonthFromTime t + 1) +:+ "-" +:+
  pad 2 (DateFromTime t) +:+ "T" +:+ pad 2 (HourFromTime t) +:+ ":" +:+
  pad 2 (MinFromTime t) +:+ ":" +:+ pad 2 (SecFromTime t) +:+ "." +:+
  pad 3 (msFromTime t) +:+ "Z".

Definition toISOString (tv : time) : JS.outcome string :=
  match tv with
  | None => JS.Throw (JS.RangeError "Invalid time value")
  | Some t => JS.Ret (iso_string t)
  end.

Section LocalTime.

(** The local time zone adjustment of the host, [LocalTZA(t, isUTC)].
    Vercel functions run with a zero offset. *)
Variable LocalTZA : Z -> bool -> Z.

Definition LocalTime (t : Z) : Z := t + LocalTZA t true.
Definition UTC (t : Z) : Z := t - LocalTZA t false.

(** [Date.prototype.getDate] *)
Definition getDate (tv : time) : option Z :=
  match tv with
  | None => None
  | Some t => Some (DateFromTime (LocalTime t))
  end.

(** [Date.prototype.setDate(dt)]: the new time value of the object. *)
Definition setDate (tv : time) (dt : option Z) : time :=
  match tv, dt with
  | Some tv, Some dt =>
      let t := LocalTime tv in
      let newDate :=
        MakeDate (MakeDay (YearFromTime t) (MonthFromTime t) dt) (TimeWithinDay t) in
      TimeClip (UTC newDate)
  | _, _ => None
  end.

End LocalTime.

Definition utc_zone : Z -> bool -> Z := fun _ _ => 0.

End JSDate.

(* ===================================================================== *)
(** * The handlers' monad: a trace of calls, the response, errors *)
(* ===================================================================== *)

Module Run.
Import JS.

Inductive level : Type := LogInfo | LogError.   (* console.log, console.error *)

(** The per-event-type functions of [webhook.js]. *)
Inductive event_handler : Type :=
| HPaymentSuccess
| HPaymentFailed
| HSubscriptionCreated
| HSubscriptionUpdated
| HSubscriptionCancelled
| HInvoicePayment
| HInvoicePaymentFailed.

(** What a handler does to the outside, in the order it does it.  The last
    three constructors are the processed-event store and the persistence
    sink ([recordSubscriptionEvent]) of the specification; they have
    constructors of their own so that their absence from a trace is a
    statement about the handler. *)
Inductive effect : Type :=
| Console (lvl : level) (msg : string) (args : list value)
| Buffer                                              (* micro's buffer(req) *)
| ConstructEvent (buf : string) (sig secret : value)  (* stripe.webhooks.constructEvent *)
| Enter (h : event_handler) (payload : value)         (* call of a per-type function *)
| CustomersList (params : value)                      (* stripe.customers.list *)
| CustomersCreate (params : value)                    (* stripe.customers.create *)
| PaymentIntentsCreate (params : value)               (* stripe.paymentIntents.create *)
| ProcessedLookup (eventId : string)
| ProcessedRecord (eventId : string)
| RecordSubscriptionEvent (eventId eventType : string).

Inductive body : Type :=
| Unsent
| BodyEmpty                 (* res.end() *)
| BodyText (text : string)  (* res.send(text) *)
| BodyJson (json : value).  (* res.json(value) *)

(** The [res] object: Node starts it with status 200. *)
Record response : Type := Response {
  statusCode : Z;
  headers : list (string * string);
  sent : body
}.

Definition fresh_response : response := Response 200 [] Unsent.

(** Date objects live on a heap: [setDate] mutates them in place. *)
Abbreviation ref := positive.

Record state : Type := State {
  trace : list effect;
  res : response;
  heap : gmap ref JSDate.time;
  ticks : nat                  (* how many times the clock was read *)
}.

Definition initial : state := State [] fresh_response ∅ 0.

Definition M (A : Type) : Type := state -> state * outcome A.

Definition ret {A} (a : A) : M A := fun s => (s, Ret a).

Definition bind {A B} (m : M A) (k : A -> M B) : M B :=
  fun s =>
    match m s with
    | (s', Ret a) => k a s'
    | (s', Throw e) => (s', Throw e)
    end.

Definition lift {A} (o : outcome A) : M A := fun s => (s, o).

(** [try { m } catch (e) { h e }]: what [m] did before it threw stays done. *)
Definition try_catch {A} (m : M A) (h : exn -> M A) : M A :=
  fun s =>
    match m s with
    | (s', Throw e) => h e s'
    | r => r
    end.

Declare Scope js_scope.
Delimit Scope js_scope with js.
Notation "'let*' x ':=' c 'in' k" := (bind c (fun x => k))
  (at level 10, x name, c at level 100, k at level 200) : js_scope.
Notation "c ;; k" := (bind c (fun _ => k))
  (at level 100, k at level 200, right associativity) : js_scope.

Definition emit (e : effect) : M unit :=
  fun s => (State (trace s ++ [e]) (res s) (heap s) (ticks s), Ret tt).

Definition console_log (msg : string) (args : list value) : M unit :=
  emit (Console LogInfo msg args).
Definition console_error (msg : string) (args : list value) : M unit :=
  emit (Console LogError msg args).

Definition update_res (f : response -> response) : M unit :=
  fun s => (State (trace s) (f (res s)) (heap s) (ticks s), Ret tt).

Definition res_setHeader (k v : string) : M unit :=
  update_res (fun r => Response (statusCode r) (headers r ++ [(k, v)]) (sent r)).
Definition res_status (code : Z) : M unit :=
  update_res (fun r => Response code (headers r) (sent r)).
Definition res_end : M unit :=
  update_res (fun r => Response (statusCode r) (headers r) BodyEmpty).
Definition res_send (text : string) : M unit :=
  update_res (fun r => Response (statusCode r) (headers r) (BodyText text)).
Definition res_json (v : value) : M unit :=
  update_res (fun r => Response (statusCode r) (headers r) (BodyJson v)).

(** Running a handler on a fresh [res]. *)
Definition run {A} (m : M A) : state * outcome A := m initial.
Definition response_of {A} (m : M A) : response := res (fst (run m)).
Definition trace_of {A} (m : M A) : list effect := trace (fst (run m)).

(** The parts of the JavaScript runtime that the model leaves open: string
    conversion of numbers and objects, JSON printing, number parsing, case
    mapping, time zone and clock. *)
Record runtime : Type := Runtime {
  ToString_other : value -> outcome string;
  JSON_stringify : value -> value;
  seconds_iso_other : value -> outcome string;
  parseInt : value -> outcome value;
  toLowerCase : string -> string;
  LocalTZA : Z -> bool -> Z;
  Date_now : nat -> Z
}.

(** [`${v}`] *)
Definition ToString (rt : runtime) (v : value) : outcome string :=
  match v with
  | VStr s => Ret s
  | VUndefined => Ret "undefined"
  | VNull => Ret "null"
  | VBool true => Ret "true"
  | VBool false => Ret "false"
  | _ => ToString_other rt v
  end.

(** [new Date(v * 1000).toISOString()] *)
Definition seconds_iso (rt : runtime) (v : value) : outcome string :=
  match v with
  | VUndefined => JSDate.toISOString None
  | VNull => JSDate.toISOString (JSDate.TimeClip 0)
  | VBool b => JSDate.toISOString (JSDate.TimeClip (if b then 1000 else 0))
  | VNum n => JSDate.toISOString (JSDate.TimeClip (n * 1000))
  | _ => seconds_iso_other rt v
  end.

End Run.

(* ===================================================================== *)
(** * api/stripe/webhook.js *)
(* ===================================================================== *)

Module Webhook.
Import JS Run.
Local Open Scope js_scope.

(** An inbound request: body parsing is disabled for this route, so the
    body is what micro's [buffer(req)] resolves to, or the error it rejects
    with (a body over the size limit, a broken stream). *)
Record request : Type := Request {
  method : string;
  req_headers : gmap string string;
  raw_body : outcome string
}.

(** Module-level bindings of the file: the signing secret read from
    [process.env.STRIPE_WEBHOOK_SECRET] and the Stripe SDK's verifier. *)
Record deps : Type := Deps {
  webhookSecret : option string;
  constructEvent : string -> value -> value -> outcome value;
  rt : runtime
}.

Definition of_option (o : option string) : value :=
  match o with Some s => VStr s | None => VUndefined end.

(** [req.headers[name]] *)
Definition header (req : request) (name : string) : value :=
  of_option (req_headers req !! name).

Definition buffer (req : request) : M string :=
  emit Buffer ;; lift (raw_body req).

Definition stripe_webhooks_constructEvent (d : deps) (buf : string) (sig secret : value)
  : M value :=
  emit (ConstructEvent buf sig secret) ;; lift (constructEvent d buf sig secret).

Definition handlePaymentSuccess (paymentIntent : value) : M unit :=
  emit (Enter HPaymentSuccess paymentIntent) ;;
  console_log "🎯 Processing successful payment..." [] ;;
  try_catch
    (let* metadata1 := lift (get_prop paymentIntent "metadata") in
     let* plan_type := lift (get_opt metadata1 "plan_type") in
     let planType := or_else plan_type (VStr "monthly") in
     let* metadata2 := lift (get_prop paymentIntent "metadata") in
     let* customer_name := lift (get_opt metadata2 "customer_name") in
     let customerName := or_else customer_name (VStr "IELTS Student") in
     let* metadata3 := lift (get_prop paymentIntent "metadata") in
     let* user_country := lift (get_opt metadata3 "user_country") in
     let userCountry := or_else user_country (VStr "Unknown") in
     let* id := lift (get_prop paymentIntent "id") in
     let* customer := lift (get_prop paymentIntent "customer") in
     let* amount := lift (get_prop paymentIntent "amount") in
     let* currency := lift (get_prop paymentIntent "currency") in
     console_log "📊 Payment success details:"
       [obj [("paymentIntentId", id); ("customerId", customer); ("amount", amount);
             ("currency", currency); ("planType", planType);
             ("customerName", customerName); ("userCountry", userCountry)]])
    (fun error => console_error "❌ Error handling payment success:" [exn_value error]).

Definition handlePaymentFailed (paymentIntent : value) : M unit :=
  emit (Enter HPaymentFailed paymentIntent) ;;
  console_log "⚠️ Processing failed payment..." [] ;;
  try_catch
    (let* id := lift (get_prop paymentIntent "id") in
     let* customer := lift (get_prop paymentIntent "customer") in
     let* error1 := lift (get_prop paymentIntent "last_payment_error") in
     let* message := lift (get_opt error1 "message") in
     let* error2 := lift (get_prop paymentIntent "last_payment_error") in
     let* code := lift (get_opt error2 "code") in
     console_log "📊 Payment failure details:"
       [obj [("paymentIntentId", id); ("customerId", customer);
             ("error", message); ("code", code)]])
    (fun error => console_error "❌ Error handling payment failure:" [exn_value error]).

Definition handleSubscriptionCreated (rt : runtime) (subscription : value) : M unit :=
  emit (Enter HSubscriptionCreated subscription) ;;
  console_log "📋 Processing subscription creation..." [] ;;
  try_catch
    (let* id := lift (get_prop subscription "id") in
     let* customer := lift (get_prop subscription "customer") in
     let* status := lift (get_prop subscription "status") in
     let* current_period_start := lift (get_prop subscription "current_period_start") in
     let* currentPeriodStart := lift (seconds_iso rt current_period_start) in
     let* current_period_end := lift (get_prop subscription "current_period_end") in
     let* currentPeriodEnd := lift (seconds_iso rt current_period_end) in
     console_log "📊 Subscription creation details:"
       [obj [("subscriptionId", id); ("customerId", customer); ("status", status);
             ("currentPeriodStart", VStr currentPeriodStart);
             ("currentPeriodEnd", VStr currentPeriodEnd)]])
    (fun error => console_error "❌ Error handling subscription creation:" [exn_value error]).

Definition handleSubscriptionUpdated (subscription : value) : M unit :=
  emit (Enter HSubscriptionUpdated subscription) ;;
  console_log "🔄 Processing subscription update..." [] ;;
  try_catch
    (let* id := lift (get_prop subscription "id") in
     let* customer := lift (get_prop subscription "customer") in
     let* status := lift (get_prop subscription "status") in
     let* cancel_at_period_end := lift (get_prop subscription "cancel_at_period_end") in
     console_log "📊 Subscription update details:"
       [obj [("subscriptionId", id); ("customerId", customer); ("status", status);
             ("cancelAtPeriodEnd", cancel_at_period_end)]])
    (fun error => console_error "❌ Error handling subscription update:" [exn_value error]).

Definition handleSubscriptionCancelled (rt : runtime) (subscription : value) : M unit :=
  emit (Enter HSubscriptionCancelled subscription) ;;
  console_log "🗑️ Processing subscription cancellation..." [] ;;
  try_catch
    (let* id := lift (get_prop subscription "id") in
     let* customer := lift (get_prop subscription "customer") in
     let* canceled_at := lift (get_prop subscription "canceled_at") in
     let* cancelledAt := lift (seconds_iso rt canceled_at) in
     let* ended_at := lift (get_prop subscription "ended_at") in
     let* endedAt :=
       if truthy ended_at
       then (let* ended_at' := lift (get_prop subscription "ended_at") in
             let* iso := lift (seconds_iso rt ended_at') in
             ret (VStr iso))
       else ret VNull in
     console_log "📊 Subscription cancellation details:"
       [obj [("subscriptionId", id); ("customerId", customer);
             ("cancelledAt", VStr cancelledAt); ("endedAt", endedAt)]])
    (fun error =>
       console_error "❌ Error handling subscription cancellation:" [exn_value error]).

Definition handleInvoicePayment (invoice : value) : M unit :=
  emit (Enter HInvoicePayment invoice) ;;
  console_log "💰 Processing invoice payment..." [] ;;
  try_catch
    (let* id := lift (get_prop invoice "id") in
     let* customer := lift (get_prop invoice "customer") in
     let* subscription := lift (get_prop invoice "subscription") in
     let* amount_paid := lift (get_prop invoice "amount_paid") in
     let* currency := lift (get_prop invoice "currency") in
     console_log "📊 Invoice payment details:"
       [obj [("invoiceId", id); ("customerId", customer);
             ("subscriptionId", subscription); ("amountPaid", amount_paid);
             ("currency", currency)]])
    (fun error => console_error "❌ Error handling invoice payment:" [exn_value error]).

Definition handleInvoicePaymentFailed (invoice : value) : M unit :=
  emit (Enter HInvoicePaymentFailed invoice) ;;
  console_log "❌ Processing invoice payment failure..." [] ;;
  try_catch
    (let* id := lift (get_prop invoice "id") in
     let* customer := lift (get_prop invoice "customer") in
     let* subscription := lift (get_prop invoice "subscription") in
     let* attempt_count := lift (get_prop invoice "attempt_count") in
     console_log "📊 Invoice payment failure details:"
       [obj [("invoiceId", id); ("customerId", customer);
             ("subscriptionId", subscription); ("attemptCount", attempt_count)]])
    (fun error =>
       console_error "❌ Error handling invoice payment failure:" [exn_value error]).

(** [event.data.object] *)
Definition data_object (event : value) : M value :=
  let* data := lift (get_prop event "data") in
  lift (get_prop data "object").

(** The [switch (event.type)] of the handler. *)
Definition dispatch (d : deps) (event type : value) : M unit :=
  if is_str type "payment_intent.succeeded" then
    let* paymentIntent := data_object event in
    let* id := lift (get_prop paymentIntent "id") in
    console_log "🎉 Payment succeeded:" [id] ;;
    let* customer := lift (get_prop paymentIntent "customer") in
    console_log "Customer:" [customer] ;;
    let* amount := lift (get_prop paymentIntent "amount") in
    let* currency := lift (get_prop paymentIntent "currency") in
    console_log "Amount:" [amount; currency] ;;
    handlePaymentSuccess paymentIntent
  else if is_str type "payment_intent.payment_failed" then
    let* failedPayment := data_object event in
    let* id := lift (get_prop failedPayment "id") in
    console_log "❌ Payment failed:" [id] ;;
    let* last_payment_error := lift (get_prop failedPayment "last_payment_error") in
    let* message := lift (get_opt last_payment_error "message") in
    console_log "Error:" [message] ;;
    handlePaymentFailed failedPayment
  else if is_str type "customer.subscription.created" then
    let* subscription := data_object event in
    let* id := lift (get_prop subscription "id") in
    console_log "📋 Subscription created:" [id] ;;
    let* customer := lift (get_prop subscription "customer") in
    console_log "Customer:" [customer] ;;
    let* status := lift (get_prop subscription "status") in
    console_log "Status:" [status] ;;
    handleSubscriptionCreated (rt d) subscription
  else if is_str type "customer.subscription.updated" then
    let* updatedSubscription := data_object event in
    let* id := lift (get_prop updatedSubscription "id") in
    console_log "🔄 Subscription updated:" [id] ;;
    let* status := lift (get_prop updatedSubscription "status") in
    console_log "Status:" [status] ;;
    handleSubscriptionUpdated updatedSubscription
  else if is_str type "customer.subscription.deleted" then
    let* deletedSubscription := data_object event in
    let* id := lift (get_prop deletedSubscription "id") in
    console_log "🗑️ Subscription cancelled:" [id] ;;
    let* customer := lift (get_prop deletedSubscription "customer") in
    console_log "Customer:" [customer] ;;
    handleSubscriptionCancelled (rt d) deletedSubscription
  else if is_str type "invoice.payment_succeeded" then
    let* invoice := data_object event in
    let* id := lift (get_prop invoice "id") in
    console_log "💰 Invoice paid:" [id] ;;
    let* customer := lift (get_prop invoice "customer") in
    console_log "Customer:" [customer] ;;
    let* amount_paid := lift (get_prop invoice "amount_paid") in
    let* currency := lift (get_prop invoice "currency") in
    console_log "Amount:" [amount_paid; currency] ;;
    handleInvoicePayment invoice
  else if is_str type "invoice.payment_failed" then
    let* failedInvoice := data_object event in
    let* id := lift (get_prop failedInvoice "id") in
    console_log "❌ Invoice payment failed:" [id] ;;
    let* customer := lift (get_prop failedInvoice "customer") in
    console_log "Customer:" [customer] ;;
    handleInvoicePaymentFailed failedInvoice
  else
    let* type' := lift (get_prop event "type") in
    let* shown := lift (ToString (rt d) type') in
    console_log ("ℹ️ Unhandled event type: " +:+ shown) [].

(** The inner [try]/[catch] around the signature check: [Some event] goes
    on, [None] means the catch block has answered and returned. *)
Definition verify (d : deps) (buf : string) (sig secret : value) : M (option value) :=
  try_catch
    (let* event := stripe_webhooks_constructEvent d buf sig secret in
     let* type := lift (get_prop event "type") in
     console_log "✅ Webhook signature verified:" [type] ;;
     ret (Some event))
    (fun err =>
       console_log "❌ Webhook signature verification failed:" [VStr (exn_message err)] ;;
       res_status 400 ;;
       res_send ("Webhook Error: " +:+ exn_message err) ;;
       ret None).

(** What the handler does with a verified event: log it, run the [switch],
    acknowledge. *)
Definition process (d : deps) (event : value) : M unit :=
  let* type1 := lift (get_prop event "type") in
  console_log "📨 Processing webhook event:" [type1] ;;
  let* data := lift (get_prop event "data") in
  console_log "Event data:" [JSON_stringify (rt d) data] ;;
  let* type2 := lift (get_prop event "type") in
  dispatch d event type2 ;;
  (* Always respond with 200 to acknowledge receipt *)
  let* type3 := lift (get_prop event "type") in
  res_json (obj [("received", VBool true); ("event_type", type3)]).

(** [export default async function handler(req, res)] *)
Definition handler (d : deps) (req : request) : M unit :=
  console_log "🔗 Stripe Webhook called:" [VStr (method req)] ;;
  if negb (String.eqb (method req) "POST") then
    console_log "❌ Method not allowed for webhook:" [VStr (method req)] ;;
    res_status 405 ;;
    res_end
  else
    try_catch
      (let* buf := buffer req in
       let sig := header req "stripe-signature" in
       if negb (truthy sig) then
         console_log "❌ Missing Stripe signature" [] ;;
         res_status 400 ;;
         res_send "Missing Stripe signature"
       else if negb (truthy (of_option (webhookSecret d))) then
         console_log "❌ Missing webhook secret in environment variables" [] ;;
         res_status 500 ;;
         res_send "Webhook secret not configured"
       else
         let* verified := verify d buf sig (of_option (webhookSecret d)) in
         match verified with
         | None => ret tt
         | Some event => process d event
         end)
      (fun error =>
         console_error "❌ Webhook processing error:" [exn_value error] ;;
         res_status 500 ;;
         res_send "Webhook processing failed").

End Webhook.

(* ===================================================================== *)
(** * api/stripe/create-payment-intent.js *)
(* ===================================================================== *)

Module PaymentIntent.
Import JS Run.
Local Open Scope js_scope.

(** An inbound request; Vercel has parsed the body into [req.body]. *)
Record request : Type := Request {
  method : string;
  req_headers : gmap string string;
  req_body : value
}.

(** What the Stripe SDK hands back. *)
Record customer : Type := Customer {
  cust_id : string;
  cust_email : value;
  cust_name : value
}.

Record payment_intent : Type := PaymentIntentObj {
  pi_id : string;
  pi_status : string;
  pi_amount : value;
  pi_currency : value;
  pi_client_secret : value;
  pi_last_payment_error : value
}.

(** The module-level [stripe] client: each call resolves or rejects. *)
Record deps : Type := Deps {
  customers_list : value -> outcome (list customer);
  customers_create : value -> outcome customer;
  paymentIntents_create : value -> outcome payment_intent;
  rt : runtime
}.

Definition header (req : request) (name : string) : value :=
  match req_headers req !! name with Some s => VStr s | None => VUndefined end.

Definition stripe_customers_list (d : deps) (params : value) : M (list customer) :=
  emit (CustomersList params) ;; lift (customers_list d params).
Definition stripe_customers_create (d : deps) (params : value) : M customer :=
  emit (CustomersCreate params) ;; lift (customers_create d params).
Definition stripe_paymentIntents_create (d : deps) (params : value) : M payment_intent :=
  emit (PaymentIntentsCreate params) ;; lift (paymentIntents_create d params).

(** ** Date objects on the heap *)

(** [new Date(value)] for a number [value]: clipped, then stored in a new
    object. *)
Definition new_Date (value : JSDate.time) : M ref :=
  fun s =>
    let r := fresh (dom (heap s)) in
    (State (trace s) (res s) (<[r := value ≫= JSDate.TimeClip]> (heap s)) (ticks s), Ret r).

(** [new Date()] reads the clock. *)
Definition new_Date_now (rt : runtime) : M ref :=
  fun s =>
    new_Date (Some (Date_now rt (ticks s)))
             (State (trace s) (res s) (heap s) (S (ticks s))).

(** [date.getTime()] *)
Definition getTime (date : ref) : M JSDate.time :=
  fun s =>
    match heap s !! date with
    | Some tv => (s, Ret tv)
    | None => (s, Throw (TypeError "this is not a Date object."))
    end.

Definition setTimeValue (date : ref) (tv : JSDate.time) : M unit :=
  fun s => (State (trace s) (res s) (<[date := tv]> (heap s)) (ticks s), Ret tt).

(** [date.getDate()] *)
Definition Date_getDate (rt : runtime) (date : ref) : M (option Z) :=
  let* tv := getTime date in
  ret (JSDate.getDate (LocalTZA rt) tv).

(** [date.setDate(dt)] *)
Definition Date_setDate (rt : runtime) (date : ref) (dt : option Z) : M unit :=
  let* tv := getTime date in
  setTimeValue date (JSDate.setDate (LocalTZA rt) tv dt).

(** [date.toISOString()] *)
Definition Date_toISOString (date : ref) : M string :=
  let* tv := getTime date in
  lift (JSDate.toISOString tv).

Definition plus (a : option Z) (n : Z) : option Z := (fun x => x + n) <$> a.

(** [function calculateEndDate(startDate, planType)] *)
Definition calculateEndDate (rt : runtime) (startDate : ref) (planType : value) : M ref :=
  let* tv := getTime startDate in
  let* endDate := new_Date tv in
  (if is_str planType "weekly" then
     let* date := Date_getDate rt endDate in
     Date_setDate rt endDate (plus date 7) ;;
     console_log "📅 Weekly plan: +7 days" []
   else if is_str planType "monthly" then
     let* date := Date_getDate rt endDate in
     Date_setDate rt endDate (plus date 30) ;;
     console_log "📅 Monthly plan: +30 days" []
   else if is_str planType "quarterly" then
     let* date := Date_getDate rt endDate in
     Date_setDate rt endDate (plus date 90) ;;
     console_log "📅 Quarterly plan: +90 days" []
   else
     let* date := Date_getDate rt endDate in
     Date_setDate rt endDate (plus date 30) ;;      (* Default to monthly *)
     console_log "📅 Default plan: +30 days" []) ;;
  ret endDate.

(** ** The handler *)

Definition allowedOrigins : list string :=
  ["https://www.gammapace.com"; "https://gurukullam.github.io"; "null"].

(** [allowedOrigins.includes(origin)] *)
Definition includes (l : list string) (v : value) : bool :=
  match v with
  | VStr s => existsb (String.eqb s) l
  | _ => false
  end.

(** [const { amount, ... } = req.body] for one property. *)
Definition destructure (v : value) (k : string) : outcome value :=
  if nullish v
  then Throw (TypeError ("Cannot destructure property '" +:+ k +:+ "' of 'req.body' as it is "
                         +:+ type_name v +:+ "."))
  else get_prop v k.

(** [currency.toLowerCase()] *)
Definition call_toLowerCase (rt : runtime) (v : value) : outcome value :=
  match v with
  | VStr s => Ret (VStr (toLowerCase rt s))
  | VUndefined | VNull => get_prop v "toLowerCase"
  | _ => Throw (TypeError "currency.toLowerCase is not a function")
  end.

Definition cors (req : request) : M unit :=
  let origin := header req "origin" in
  (if includes allowedOrigins origin then
     res_setHeader "Access-Control-Allow-Origin"
       (match origin with VStr s => s | _ => "" end)
   else if negb (truthy origin) then
     res_setHeader "Access-Control-Allow-Origin" "*"
   else ret tt) ;;
  res_setHeader "Access-Control-Allow-Methods" "POST, OPTIONS" ;;
  res_setHeader "Access-Control-Allow-Headers" "Content-Type, Authorization".

Definition pi_metadata (plan_type user_country customer_name : value) : value :=
  obj [("plan_type", or_else plan_type (VStr "monthly"));
       ("user_country", or_else user_country (VStr "Unknown"));
       ("customer_name", or_else customer_name (VStr "IELTS Student"));
       ("app_source", VStr "IELTS_Practice")].

(** The [catch (error)] block at the end of the handler. *)
Definition on_error (error : exn) : M unit :=
  console_error "❌ Payment processing error:" [exn_value error] ;;
  if is_str (exn_type error) "StripeCardError" then
    res_status 400 ;;
    res_json (obj [("success", VBool false); ("error", VStr (exn_message error));
                   ("type", VStr "card_error")])
  else if is_str (exn_type error) "StripeInvalidRequestError" then
    res_status 400 ;;
    res_json (obj [("success", VBool false); ("error", VStr "Invalid payment request");
                   ("type", VStr "invalid_request")])
  else
    res_status 500 ;;
    res_json (obj [("success", VBool false); ("error", VStr "Payment processing failed");
                   ("type", VStr "server_error")]).

(** What follows the creation of the payment intent. *)
Definition respond (d : deps) (plan_type : value) (customer : customer)
    (paymentIntent : payment_intent) : M unit :=
  let status := pi_status paymentIntent in
  if String.eqb status "requires_action" || String.eqb status "requires_source_action" then
    (* 3D Secure authentication required *)
    console_log "🔐 Payment requires 3D Secure authentication" [] ;;
    res_status 200 ;;
    res_json (obj [("success", VBool false);
                   ("requires_action", VBool true);
                   ("payment_intent",
                     obj [("id", VStr (pi_id paymentIntent));
                          ("client_secret", pi_client_secret paymentIntent);
                          ("status", VStr status)]);
                   ("message", VStr "3D Secure authentication required")])
  else if String.eqb status "succeeded" then
    console_log "🎉 Payment succeeded!" [] ;;
    let* now1 := new_Date_now (rt d) in
    let* start_date := Date_toISOString now1 in
    let* now2 := new_Date_now (rt d) in
    let* endDate := calculateEndDate (rt d) now2 (or_else plan_type (VStr "monthly")) in
    let* end_date := Date_toISOString endDate in
    let subscriptionData :=
      obj [("plan_type", or_else plan_type (VStr "monthly"));
           ("start_date", VStr start_date);
           ("end_date", VStr end_date)] in
    res_status 200 ;;
    res_json (obj [("success", VBool true);
                   ("payment_intent",
                     obj [("id", VStr (pi_id paymentIntent));
                          ("amount", pi_amount paymentIntent);
                          ("currency", pi_currency paymentIntent);
                          ("status", VStr status)]);
                   ("customer",
                     obj [("id", VStr (cust_id customer));
                          ("email", cust_email customer);
                          ("name", cust_name customer)]);
                   ("subscription_data", subscriptionData)])
  else
    console_log "❌ Payment failed:" [VStr status] ;;
    res_status 400 ;;
    res_json (obj [("success", VBool false);
                   ("error", VStr "Payment failed");
                   ("payment_intent",
                     obj [("id", VStr (pi_id paymentIntent));
                          ("status", VStr status);
                          ("last_payment_error", pi_last_payment_error paymentIntent)])]).

(** The body of the [try] block. *)
Definition process (d : deps) (req : request) : M unit :=
  console_log "📋 Processing payment request..." [] ;;
  console_log "Request body:" [JSON_stringify (rt d) (req_body req)] ;;
  let* amount := lift (destructure (req_body req) "amount") in
  let* currency := lift (destructure (req_body req) "currency") in
  let* payment_method_id := lift (destructure (req_body req) "payment_method_id") in
  let* customer_name := lift (destructure (req_body req) "customer_name") in
  let* customer_email := lift (destructure (req_body req) "customer_email") in
  let* plan_type := lift (destructure (req_body req) "plan_type") in
  let* user_country := lift (destructure (req_body req) "user_country") in
  (* Validate required fields *)
  if negb (truthy amount) || negb (truthy currency) || negb (truthy payment_method_id)
     || negb (truthy customer_email) then
    console_log "❌ Missing required fields" [] ;;
    res_status 400 ;;
    res_json (obj [("success", VBool false);
                   ("error", VStr "Missing required fields: amount, currency, payment_method_id, customer_email")])
  else
    console_log "💳 Creating/retrieving Stripe customer..." [] ;;
    let* existingCustomers :=
      stripe_customers_list d (obj [("email", customer_email); ("limit", VNum 1)]) in
    let* customer :=
      match existingCustomers with
      | found :: _ =>
          console_log "✅ Found existing customer:" [VStr (cust_id found)] ;;
          ret found
      | [] =>
          let* created :=
            stripe_customers_create d
              (obj [("email", customer_email);
                    ("name", or_else customer_name (VStr "IELTS Student"));
                    ("metadata",
                      obj [("user_country", or_else user_country (VStr "Unknown"));
                           ("plan_type", or_else plan_type (VStr "monthly"));
                           ("source", VStr "IELTS_Practice_App")])]) in
          console_log "✅ Created new customer:" [VStr (cust_id created)] ;;
          ret created
      end in
    console_log "💰 Creating payment intent..." [] ;;
    let* amount' := lift (parseInt (rt d) amount) in
    let* currency' := lift (call_toLowerCase (rt d) currency) in
    let* paymentIntent :=
      stripe_paymentIntents_create d
        (obj [("amount", amount');
              ("currency", currency');
              ("customer", VStr (cust_id customer));
              ("payment_method", payment_method_id);
              ("confirmation_method", VStr "manual");
              ("confirm", VBool true);
              ("return_url", VStr "https://www.gammapace.com");
              ("metadata", pi_metadata plan_type user_country customer_name)]) in
    console_log "📊 Payment Intent created:"
      [obj [("id", VStr (pi_id paymentIntent));
            ("status", VStr (pi_status paymentIntent));
            ("amount", pi_amount paymentIntent);
            ("currency", pi_currency paymentIntent)]] ;;
    respond d plan_type customer paymentIntent.

(** [export default async function handler(req, res)] *)
Definition handler (d : deps) (req : request) : M unit :=
  console_log "🚀 Payment Intent API called:" [VStr (method req)] ;;
  cors req ;;
  if String.eqb (method req) "OPTIONS" then
    console_log "✅ Handling OPTIONS preflight request" [] ;;
    res_status 200 ;;
    res_end
  else if negb (String.eqb (method req) "POST") then
    console_log "❌ Method not allowed:" [VStr (method req)] ;;
    res_status 405 ;;
    res_json (obj [("error", VStr "Method not allowed")])
  else
    try_catch (process d req) on_error.

End PaymentIntent.

(* ===================================================================== *)
(** * api/stripe/customer-portal.js *)
(* ===================================================================== *)

Module Portal.
Import JS.

(** What the portal handler does to the outside: it logs and it makes
    three kinds of calls to Stripe. *)
Inductive effect : Type :=
| Console (lvl : Run.level) (msg : string) (args : list value)
| CustomersList (params : value)         (* stripe.customers.list *)
| CustomersRetrieve (id : value)         (* stripe.customers.retrieve *)
| SessionsCreate (params : value).       (* stripe.billingPortal.sessions.create *)

Record state : Type := State {
  trace : list effect;
  res : Run.response
}.

Definition initial : state := State [] Run.fresh_response.

Definition M (A : Type) : Type := state -> state * outcome A.

Definition ret {A} (a : A) : M A := fun s => (s, Ret a).

Definition bind {A B} (m : M A) (k : A -> M B) : M B :=
  fun s =>
    match m s with
    | (s', Ret a) => k a s'
    | (s', Throw e) => (s', Throw e)
    end.

Definition lift {A} (o : outcome A) : M A := fun s => (s, o).

Definition try_catch {A} (m : M A) (h : exn -> M A) : M A :=
  fun s =>
    match m s with
    | (s', Throw e) => h e s'
    | r => r
    end.

Declare Scope portal_scope.
Delimit Scope portal_scope with portal.
Notation "'let*' x ':=' c 'in' k" := (bind c (fun x => k))
  (at level 10, x name, c at level 100, k at level 200) : portal_scope.
Notation "c ;; k" := (bind c (fun _ => k))
  (at level 100, k at level 200, right associativity) : portal_scope.
Local Open Scope portal_scope.

Definition emit (e : effect) : M unit :=
  fun s => (State (trace s ++ [e]) (res s), Ret tt).

Definition console_log (msg : string) (args : list value) : M unit :=
  emit (Console Run.LogInfo msg args).
Definition console_error (msg : string) (args : list value) : M unit :=
  emit (Console Run.LogError msg args).

Definition update_res (f : Run.response -> Run.response) : M unit :=
  fun s => (State (trace s) (f (res s)), Ret tt).

Definition res_setHeader (k v : string) : M unit :=
  update_res (fun r => Run.Response (Run.statusCode r) (Run.headers r ++ [(k, v)]) (Run.sent r)).
Definition res_status (code : Z) : M unit :=
  update_res (fun r => Run.Response code (Run.headers r) (Run.sent r)).
Definition res_end : M unit :=
  update_res (fun r => Run.Response (Run.statusCode r) (Run.headers r) Run.BodyEmpty).
Definition res_json (v : value) : M unit :=
  update_res (fun r => Run.Response (Run.statusCode r) (Run.headers r) (Run.BodyJson v)).

Definition run {A} (m : M A) : state * outcome A := m initial.
Definition response_of {A} (m : M A) : Run.response := res (fst (run m)).
Definition trace_of {A} (m : M A) : list effect := trace (fst (run m)).

(** An inbound request; Vercel has parsed the body into [req.body]. *)
Record request : Type := Request {
  method : string;
  req_headers : gmap string string;
  req_body : value
}.

(** What [stripe.billingPortal.sessions.create] resolves to. *)
Record portal_session : Type := PortalSession {
  session_id : string;
  session_url : string
}.

(** The module-level [stripe] client. *)
Record deps : Type := Deps {
  customers_list : value -> outcome (list PaymentIntent.customer);
  customers_retrieve : value -> outcome PaymentIntent.customer;
  sessions_create : value -> outcome portal_session;
  rt : Run.runtime
}.

Definition header (req : request) (name : string) : value :=
  match req_headers req !! name with Some s => VStr s | None => VUndefined end.

Definition stripe_customers_list (d : deps) (params : value)
  : M (list PaymentIntent.customer) :=
  emit (CustomersList params) ;; lift (customers_list d params).
Definition stripe_customers_retrieve (d : deps) (id : value) : M PaymentIntent.customer :=
  emit (CustomersRetrieve id) ;; lift (customers_retrieve d id).
Definition stripe_billingPortal_sessions_create (d : deps) (params : value)
  : M portal_session :=
  emit (SessionsCreate params) ;; lift (sessions_create d params).

Definition allowedOrigins : list string :=
  ["https://www.gammapace.com"; "https://gurukullam.github.io"; "null"].

Definition cors (req : request) : M unit :=
  let origin := header req "origin" in
  (if PaymentIntent.includes allowedOrigins origin then
     res_setHeader "Access-Control-Allow-Origin"
       (match origin with VStr s => s | _ => "" end)
   else if negb (truthy origin) then
     res_setHeader "Access-Control-Allow-Origin" "*"
   else ret tt) ;;
  res_setHeader "Access-Control-Allow-Methods" "POST, OPTIONS" ;;
  res_setHeader "Access-Control-Allow-Headers" "Content-Type, Authorization".

(** The [catch (error)] block at the end of the handler. *)
Definition on_error (error : exn) : M unit :=
  console_error "❌ Customer portal error:" [exn_value error] ;;
  if is_str (exn_type error) "StripeInvalidRequestError" then
    res_status 400 ;;
    res_json (obj [("success", VBool false); ("error", VStr "Invalid customer information");
                   ("type", VStr "invalid_request")])
  else if is_str (exn_code error) "customer_portal_inactive" then
    res_status 400 ;;
    res_json (obj [("success", VBool false);
                   ("error", VStr "Customer portal is not activated. Please contact support.");
                   ("type", VStr "portal_inactive")])
  else
    res_status 500 ;;
    res_json (obj [("success", VBool false);
                   ("error", VStr "Unable to create customer portal session");
                   ("type", VStr "server_error")]).

(** The inner [try]/[catch] around [stripe.customers.retrieve]: [true]
    goes on, [false] means the catch block has answered and returned. *)
Definition validate_customer (d : deps) (customerId : value) : M bool :=
  try_catch
    (let* customer := stripe_customers_retrieve d customerId in
     console_log "✅ Customer validated:"
       [obj [("id", VStr (PaymentIntent.cust_id customer));
             ("email", PaymentIntent.cust_email customer);
             ("name", PaymentIntent.cust_name customer)]] ;;
     ret true)
    (fun error =>
       console_log "❌ Invalid customer ID:" [customerId] ;;
       res_status 404 ;;
       res_json (obj [("success", VBool false);
                      ("error", VStr "Customer not found. Please contact support.")]) ;;
       ret false).

(** From the validation of the customer to the answer. *)
Definition open_session (d : deps) (customerId return_url : value) : M unit :=
  let* valid := validate_customer d customerId in
  if valid then
    console_log "🏢 Creating customer portal session..." [] ;;
    let* portalSession :=
      stripe_billingPortal_sessions_create d
        (obj [("customer", customerId);
              ("return_url", or_else return_url (VStr "https://www.gammapace.com"))]) in
    console_log "✅ Customer portal session created:"
      [obj [("id", VStr (session_id portalSession));
            ("customer", customerId);
            ("url", VStr (session_url portalSession))]] ;;
    res_status 200 ;;
    res_json (obj [("success", VBool true);
                   ("url", VStr (session_url portalSession));
                   ("customer_id", customerId);
                   ("session_id", VStr (session_id portalSession))])
  else ret tt.

(** The body of the [try] block. *)
Definition process (d : deps) (req : request) : M unit :=
  console_log "📋 Processing customer portal request..." [] ;;
  console_log "Request body:" [Run.JSON_stringify (rt d) (req_body req)] ;;
  let* customer_id := lift (PaymentIntent.destructure (req_body req) "customer_id") in
  let* customer_email := lift (PaymentIntent.destructure (req_body req) "customer_email") in
  let* return_url := lift (PaymentIntent.destructure (req_body req) "return_url") in
  (* Validate required fields - need either customer_id or customer_email *)
  if negb (truthy customer_id) && negb (truthy customer_email) then
    console_log "❌ Missing required fields" [] ;;
    res_status 400 ;;
    res_json (obj [("success", VBool false);
                   ("error", VStr "Either customer_id or customer_email is required")])
  else if negb (truthy customer_id) && truthy customer_email then
    (* If email provided instead of ID, find the customer *)
    console_log "🔍 Finding customer by email:" [customer_email] ;;
    let* customers :=
      stripe_customers_list d (obj [("email", customer_email); ("limit", VNum 1)]) in
    match customers with
    | [] =>
        console_log "❌ Customer not found:" [customer_email] ;;
        res_status 404 ;;
        res_json (obj [("success", VBool false);
                       ("error", VStr "Customer not found. Please ensure you have an active subscription.")])
    | found :: _ =>
        console_log "✅ Found customer:" [VStr (PaymentIntent.cust_id found)] ;;
        open_session d (VStr (PaymentIntent.cust_id found)) return_url
    end
  else
    open_session d customer_id return_url.

(** [export default async function handler(req, res)] *)
Definition handler (d : deps) (req : request) : M unit :=
  console_log "🏢 Customer Portal API called:" [VStr (method req)] ;;
  cors req ;;
  if String.eqb (method req) "OPTIONS" then
    console_log "✅ Handling OPTIONS preflight request" [] ;;
    res_status 200 ;;
    res_end
  else if negb (String.eqb (method req) "POST") then
    console_log "❌ Method not allowed:" [VStr (method req)] ;;
    res_status 405 ;;
    res_json (obj [("error", VStr "Method not allowed")])
  else
    try_catch (process d req) on_error.

End Portal.

(* ===================================================================== *)
(** * api/status.js *)
(* ===================================================================== *)

Module Status.
Import JS Run.
Local Open Scope js_scope.

(** The handler reads the method only. *)
Record request : Type := Request {
  method : string
}.

(** What the handler reads from [process]: the two secrets in the
    environment and the version of Node. *)
Record deps : Type := Deps {
  STRIPE_SECRET_KEY : option string;
  STRIPE_WEBHOOK_SECRET : option string;
  node_version : string;
  rt : runtime
}.

(** [process.env.NAME] *)
Definition env (o : option string) : value :=
  match o with Some s => VStr s | None => VUndefined end.

(** [export default async function handler(req, res)] *)
Definition handler (d : deps) (req : request) : M unit :=
  res_setHeader "Access-Control-Allow-Origin" "*" ;;
  res_setHeader "Access-Control-Allow-Methods" "GET, OPTIONS" ;;
  res_setHeader "Access-Control-Allow-Headers" "Content-Type" ;;
  if String.eqb (method req) "OPTIONS" then
    res_status 200 ;;
    res_end
  else
    let* now := PaymentIntent.new_Date_now (rt d) in
    let* timestamp := PaymentIntent.Date_toISOString now in
    let status :=
      obj [("status", VStr "OK");
           ("message", VStr "IELTS Stripe Backend API is running");
           ("timestamp", VStr timestamp);
           ("version", VStr "1.0.0");
           ("endpoints",
             obj [("payment", VStr "/api/stripe/create-payment-intent");
                  ("webhook", VStr "/api/stripe/webhook");
                  ("portal", VStr "/api/stripe/customer-portal")]);
           ("environment",
             obj [("node_version", VStr (node_version d));
                  ("stripe_configured", VBool (truthy (env (STRIPE_SECRET_KEY d))));
                  ("webhook_configured",
                    VBool (truthy (env (STRIPE_WEBHOOK_SECRET d))))])] in
    res_status 200 ;;
    res_json status.

End Status.

(* ===================================================================== *)
(** * Vocabulary of the statements *)
(* ===================================================================== *)

Module Trace.
Import JS Run.

(** [m] only appends to the trace, and what it appends satisfies [P]. *)
Definition appends (P : effect -> Prop) {A} (m : M A) : Prop :=
  forall s, exists t', trace (fst (m s)) = trace s ++ t' /\ Forall P t'.

Definition with_trace (s : state) (t : list effect) : state :=
  State (trace s ++ t) (res s) (heap s) (ticks s).

Definition add (s : state) (e : effect) : state := with_trace s [e].

Fixpoint count (p : effect -> bool) (t : list effect) : nat :=
  match t with
  | [] => 0
  | e :: t => (if p e then 1 else 0) + count p t
  end.

Definition is_sink (e : effect) : bool :=
  match e with RecordSubscriptionEvent _ _ => true | _ => false end.
Definition is_lookup (e : effect) : bool :=
  match e with ProcessedLookup _ => true | _ => false end.
Definition is_verification (e : effect) : bool :=
  match e with ConstructEvent _ _ _ => true | _ => false end.
Definition is_vendor_call (e : effect) : bool :=
  match e with
  | CustomersList _ | CustomersCreate _ | PaymentIntentsCreate _ => true
  | _ => false
  end.
Definition is_error_log (e : effect) : bool :=
  match e with Console LogError _ _ => true | _ => false end.

(** Calls of the persistence sink, lookups in the processed-event store,
    signature verifications, calls of the Stripe API. *)
Definition sink_calls : list effect -> nat := count is_sink.
Definition store_lookups : list effect -> nat := count is_lookup.
Definition verifications : list effect -> nat := count is_verification.
Definition vendor_calls : list effect -> nat := count is_vendor_call.

(** The per-type functions called, in order. *)
Definition entered (t : list effect) : list event_handler :=
  omap (fun e => match e with Enter h _ => Some h | _ => None end) t.

(** The part of a trace before the first call of a per-type function. *)
Fixpoint before_enter (t : list effect) : list effect :=
  match t with
  | [] => []
  | Enter _ _ :: _ => []
  | e :: t => e :: before_enter t
  end.

Definition is_log (e : effect) : Prop :=
  match e with Console _ _ _ => True | _ => False end.
Definition is_info (e : effect) : Prop :=
  match e with Console LogInfo _ _ => True | _ => False end.

(** What the webhook handler can do at all. *)
Definition webhook_effect (e : effect) : Prop :=
  match e with
  | Console _ _ _ | Buffer | ConstructEvent _ _ _ | Enter _ _ => True
  | _ => False
  end.

(** Two deliveries running concurrently: the handler reads nothing that
    another delivery writes, so what they do together is a merge of what
    each does alone. *)
Inductive interleave {A} : list A -> list A -> list A -> Prop :=
| interleave_nil : interleave [] [] []
| interleave_left x l1 l2 l : interleave l1 l2 l -> interleave (x :: l1) l2 (x :: l)
| interleave_right x l1 l2 l : interleave l1 l2 l -> interleave l1 (x :: l2) (x :: l).

End Trace.

Module WebhookSpec.
Import JS Run Trace Webhook.

Definition run_handler (d : deps) (h : event_handler) : value -> M unit :=
  match h with
  | HPaymentSuccess => handlePaymentSuccess
  | HPaymentFailed => handlePaymentFailed
  | HSubscriptionCreated => handleSubscriptionCreated (rt d)
  | HSubscriptionUpdated => handleSubscriptionUpdated
  | HSubscriptionCancelled => handleSubscriptionCancelled (rt d)
  | HInvoicePayment => handleInvoicePayment
  | HInvoicePaymentFailed => handleInvoicePaymentFailed
  end.

(** The three lines a per-type function can log: on entry, at the end of
    its [try] block, in its [catch] block. *)
Definition intro_line (h : event_handler) : string :=
  match h with
  | HPaymentSuccess => "🎯 Processing successful payment..."
  | HPaymentFailed => "⚠️ Processing failed payment..."
  | HSubscriptionCreated => "📋 Processing subscription creation..."
  | HSubscriptionUpdated => "🔄 Processing subscription update..."
  | HSubscriptionCancelled => "🗑️ Processing subscription cancellation..."
  | HInvoicePayment => "💰 Processing invoice payment..."
  | HInvoicePaymentFailed => "❌ Processing invoice payment failure..."
  end.

Definition details_line (h : event_handler) : string :=
  match h with
  | HPaymentSuccess => "📊 Payment success details:"
  | HPaymentFailed => "📊 Payment failure details:"
  | HSubscriptionCreated => "📊 Subscription creation details:"
  | HSubscriptionUpdated => "📊 Subscription update details:"
  | HSubscriptionCancelled => "📊 Subscription cancellation details:"
  | HInvoicePayment => "📊 Invoice payment details:"
  | HInvoicePaymentFailed => "📊 Invoice payment failure details:"
  end.

Definition failure_line (h : event_handler) : string :=
  match h with
  | HPaymentSuccess => "❌ Error handling payment success:"
  | HPaymentFailed => "❌ Error handling payment failure:"
  | HSubscriptionCreated => "❌ Error handling subscription creation:"
  | HSubscriptionUpdated => "❌ Error handling subscription update:"
  | HSubscriptionCancelled => "❌ Error handling subscription cancellation:"
  | HInvoicePayment => "❌ Error handling invoice payment:"
  | HInvoicePaymentFailed => "❌ Error handling invoice payment failure:"
  end.

(** How a per-type function ends: with its details line, or with the
    caught error on [console.error]. *)
Definition closing (h : event_handler) (e : effect) : Prop :=
  (exists details, e = Console LogInfo (details_line h) [details]) \/
  (exists error, e = Console LogError (failure_line h) [exn_value error]).

(** The recognized set of event types and the function each one goes to. *)
Definition classify (type : string) : option event_handler :=
  if String.eqb type "payment_intent.succeeded" then Some HPaymentSuccess
  else if String.eqb type "payment_intent.payment_failed" then Some HPaymentFailed
  else if String.eqb type "customer.subscription.created" then Some HSubscriptionCreated
  else if String.eqb type "customer.subscription.updated" then Some HSubscriptionUpdated
  else if String.eqb type "customer.subscription.deleted" then Some HSubscriptionCancelled
  else if String.eqb type "invoice.payment_succeeded" then Some HInvoicePayment
  else if String.eqb type "invoice.payment_failed" then Some HInvoicePaymentFailed
  else None.

(** A Stripe event envelope: a string [type] and an object under
    [data.object]. *)
Definition envelope (event : value) (type : string) (object : gmap string value) : Prop :=
  get_prop event "type" = Ret (VStr type) /\
  exists data, get_prop event "data" = Ret data /\ get_prop data "object" = Ret (VObj object).

(** Signature verification of [req] succeeded and produced [event]: the
    request is a POST whose body arrived, it carries a signature header, a
    signing secret is configured, and the SDK's [constructEvent] returned. *)
Definition verified (d : deps) (req : request) (event : value) : Prop :=
  method req = "POST" /\
  exists buf,
    raw_body req = Ret buf /\
    truthy (header req "stripe-signature") = true /\
    truthy (of_option (webhookSecret d)) = true /\
    constructEvent d buf (header req "stripe-signature") (of_option (webhookSecret d))
    = Ret event.

(** The acknowledgement: status 200 and the body [{ received: true,
    event_type }]. *)
Definition ack (type : value) : value :=
  obj [("received", VBool true); ("event_type", type)].

Definition acknowledged (r : response) (type : value) : Prop :=
  statusCode r = 200 /\ sent r = BodyJson (ack type).

(** Claim C1 as the specification words it: two deliveries of one event
    cause at most one sink call, both are answered 200, and no per-type
    function is entered before the processed-event store was consulted. *)
Definition consults_store_first (t : list effect) : Prop :=
  forall i h payload,
    t !! i = Some (Enter h payload) ->
    exists j eventId, (j < i)%nat /\ t !! j = Some (ProcessedLookup eventId).

Definition idempotent_delivery (d : deps) (req1 req2 : request) : Prop :=
  let t1 := trace_of (handler d req1) in
  let t2 := trace_of (handler d req2) in
  (sink_calls (t1 ++ t2) <= 1)%nat /\
  statusCode (response_of (handler d req1)) = 200 /\
  statusCode (response_of (handler d req2)) = 200 /\
  consults_store_first t1 /\ consults_store_first t2.


(** Claim C3 as the specification words it: a status of the 400 class and
    a plain-text message. *)
Definition authentication_failure (r : response) : Prop :=
  400 <= statusCode r < 500 /\ exists text, sent r = BodyText text.

End WebhookSpec.

Module PaymentIntentSpec.
Import JS Run Trace PaymentIntent.

(** Headers the handler sets before it looks at the method. *)
Definition cors_headers (req : request) : list (string * string) :=
  (match header req "origin" with
   | VStr s =>
       if existsb (String.eqb s) allowedOrigins
       then [("Access-Control-Allow-Origin", s)]
       else if String.eqb s "" then [("Access-Control-Allow-Origin", "*")] else []
   | _ => [("Access-Control-Allow-Origin", "*")]
   end) ++
  [("Access-Control-Allow-Methods", "POST, OPTIONS");
   ("Access-Control-Allow-Headers", "Content-Type, Authorization")].

(** The state in which the handler looks at the method. *)
Definition entry (req : request) : state :=
  State [Console LogInfo "🚀 Payment Intent API called:" [VStr (method req)]]
        (Response 200 (cors_headers req) Unsent) ∅ 0.

(** The answer of the [catch] block, by the error's [type]. *)
Definition error_status (e : exn) : Z :=
  if is_str (exn_type e) "StripeCardError" then 400
  else if is_str (exn_type e) "StripeInvalidRequestError" then 400
  else 500.

Definition error_body (e : exn) : value :=
  if is_str (exn_type e) "StripeCardError" then
    obj [("success", VBool false); ("error", VStr (exn_message e));
         ("type", VStr "card_error")]
  else if is_str (exn_type e) "StripeInvalidRequestError" then
    obj [("success", VBool false); ("error", VStr "Invalid payment request");
         ("type", VStr "invalid_request")]
  else
    obj [("success", VBool false); ("error", VStr "Payment processing failed");
         ("type", VStr "server_error")].

Definition required_fields : list string :=
  ["amount"; "currency"; "payment_method_id"; "customer_email"].

Definition validation_error : value :=
  obj [("success", VBool false);
       ("error", VStr "Missing required fields: amount, currency, payment_method_id, customer_email")].

(** Claim C7's "missing": the request has no usable value for field [k].
    There is no body to read it from, or the body has no such property, or
    the value is one that [!v] takes for absent. *)
Definition lacks (req : request) (k : string) : Prop :=
  match get_prop (req_body req) k with
  | Ret v => truthy v = false
  | Throw _ => True
  end.

(** The error with which Stripe answered the call [c], if it rejected it. *)
Definition rejected_by (d : deps) (c : effect) : option exn :=
  match c with
  | CustomersList p => match customers_list d p with Throw e => Some e | Ret _ => None end
  | CustomersCreate p => match customers_create d p with Throw e => Some e | Ret _ => None end
  | PaymentIntentsCreate p =>
      match paymentIntents_create d p with Throw e => Some e | Ret _ => None end
  | _ => None
  end.

(** Claim C8 as the specification words it: the vendor's message reaches
    the caller unchanged. *)
Definition surfaced_verbatim (e : exn) (r : response) : Prop :=
  exists fields,
    sent r = BodyJson (VObj fields) /\ fields !! "error" = Some (VStr (exn_message e)).

(** Claim C9 in the specification's words: days added per plan type. *)
Definition plan_days (planType : value) : Z :=
  if is_str planType "weekly" then 7
  else if is_str planType "monthly" then 30
  else if is_str planType "quarterly" then 90
  else 30.

End PaymentIntentSpec.

(* ===================================================================== *)
(** * Scenarios *)
(* ===================================================================== *)

Module Scenario.
Import JS Run.

Definition ascii_lower (c : Ascii.ascii) : Ascii.ascii :=
  let n := Ascii.nat_of_ascii c in
  if ((65 <=? n) && (n <=? 90))%nat then Ascii.ascii_of_nat (n + 32) else c.

Fixpoint lower (s : string) : string :=
  match s with
  | EmptyString => EmptyString
  | String c s => String (ascii_lower c) (lower s)
  end.

(** 2024-01-31T10:00:00.000Z *)
Definition jan31 : Z := 1706695200000.

(** ** A runtime for the scenarios

    The theorems about the handlers hold for every [runtime]; the scenarios
    need one to compute with.  Its conversions follow ECMAScript on the
    values described at each definition, and say where they stop. *)

(** The digits of a natural number below [10 ^ fuel]. *)
Fixpoint decimal (fuel : nat) (n : Z) : string :=
  match fuel with
  | O => ""
  | S fuel =>
      (if n <? 10 then "" else decimal fuel (n / 10)) +:+ String (JSDate.digit n) ""
  end.

(** [String(n)] for an integral number below [10 ^ 21] in absolute value;
    from there on JavaScript writes an exponent. *)
Definition number_string (n : Z) : string :=
  if n <? 0 then "-" +:+ decimal 21 (- n) else decimal 21 n.

(** [String(v)]: an array joins its elements with commas and shows
    nothing for null and undefined; an object that came out of
    [JSON.parse] has [Object.prototype.toString]. *)
Fixpoint to_string (v : value) : string :=
  match v with
  | VUndefined => "undefined"
  | VNull => "null"
  | VBool b => if b then "true" else "false"
  | VNum n => number_string n
  | VStr s => s
  | VArr items =>
      (fix join (l : list value) : string :=
         match l with
         | [] => ""
         | x :: rest =>
             (if nullish x then "" else to_string x) +:+
             match rest with [] => "" | _ => "," +:+ join rest end
         end) items
  | VObj _ => "[object Object]"
  end.

(** White space of the ASCII range: tab, line feed, vertical tab, form
    feed, carriage return, space. *)
Definition is_space (c : Ascii.ascii) : bool :=
  let n := Ascii.nat_of_ascii c in
  ((9 <=? n) && (n <=? 13) || (n =? 32))%nat.

Fixpoint skip_spaces (s : string) : string :=
  match s with
  | String c s' => if is_space c then skip_spaces s' else s
  | EmptyString => s
  end.

Definition digit_value (c : Ascii.ascii) : option Z :=
  let n := Z.of_nat (Ascii.nat_of_ascii c) in
  if (48 <=? n) && (n <=? 57) then Some (n - 48)
  else if (97 <=? n) && (n <=? 122) then Some (n - 87)
  else if (65 <=? n) && (n <=? 90) then Some (n - 55)
  else None.

(** The longest run of digits of [radix] at the start of [s], read as a
    number, and what follows it; [acc] is what was read so far. *)
Fixpoint digits (radix : Z) (s : string) (acc : option Z) : option Z * string :=
  match s with
  | String c s' =>
      match digit_value c with
      | Some dv =>
          if dv <? radix then digits radix s' (Some (default 0 acc * radix + dv))
          else (acc, s)
      | None => (acc, s)
      end
  | EmptyString => (acc, s)
  end.

Definition signed (s : string) : bool * string :=
  if String.prefix "-" s then (true, String.substring 1 (String.length s - 1) s)
  else if String.prefix "+" s then (false, String.substring 1 (String.length s - 1) s)
  else (false, s).

Definition negate_if (negative : bool) (n : Z) : Z := if negative then - n else n.

(** [parseInt(s)]: leading white space, a sign, [0x] for radix 16, then
    the longest run of digits.  [None] stands for NaN. *)
Definition parse_int (s : string) : option Z :=
  let (negative, s1) := signed (skip_spaces s) in
  let (radix, s2) :=
    if String.prefix "0x" s1 || String.prefix "0X" s1
    then (16, String.substring 2 (String.length s1 - 2) s1)
    else (10, s1) in
  negate_if negative <$> fst (digits radix s2 None).

(** [Number(s)] for a string that spells a whole number in decimal, white
    space around it allowed; the empty string is 0.  [None] for every other
    string: JavaScript also reads fractions, exponents and the radixes 2, 8
    and 16 there, which no scenario uses, and gives NaN for the rest. *)
Definition whole_number (s : string) : option Z :=
  if String.eqb (skip_spaces s) "" then Some 0
  else
    let (negative, s1) := signed (skip_spaces s) in
    match digits 10 s1 None with
    | (Some n, rest) =>
        if String.eqb (skip_spaces rest) "" then Some (negate_if negative n) else None
    | (None, _) => None
    end.

(** The runtime of the scenarios: UTC, and a clock that stands at [jan31].
    - [ToString] and [parseInt] are computed as above.  Where [parseInt]
      gives NaN, for which [value] has no constructor, the answer is
      [VNull], which is how NaN prints in JSON.
    - [new Date(v * 1000)] is computed for strings and arrays that spell a
      whole number; every other string, array and object counts as NaN
      there, an invalid date.
    - [toLowerCase] maps the letters A to Z and leaves the rest alone.
    - [JSON.stringify] is not computed: objects of the model do not keep
      the order of their keys, so the text cannot be told.  A log line
      shows [{...}] in its place. *)
Definition demo_runtime : runtime :=
  Runtime
    (fun v => Ret (to_string v))
    (fun _ => VStr "{...}")
    (fun v =>
       match whole_number (to_string v) with
       | Some n => JSDate.toISOString (JSDate.TimeClip (n * 1000))
       | None => Throw (RangeError "Invalid time value")
       end)
    (fun v => Ret (match parse_int (to_string v) with Some n => VNum n | None => VNull end))
    lower JSDate.utc_zone (fun _ => jan31).

(** ** Webhook deliveries *)

Definition pi_1 : gmap string value :=
  list_to_map [("id", VStr "pi_1"); ("customer", VStr "cus_1");
               ("amount", VNum 999); ("currency", VStr "usd")].

Definition evt_1 : value :=
  obj [("id", VStr "evt_1"); ("type", VStr "payment_intent.succeeded");
       ("data", obj [("object", VObj pi_1)])].



Definition evt_3 : value :=
  obj [("id", VStr "evt_3"); ("type", VStr "charge.refunded");
       ("data", obj [("object", obj [("id", VStr "ch_1")])])].

(** Signed with the endpoint's secret, but no event: [data] has no
    [object]. *)
Definition evt_malformed : value :=
  obj [("type", VStr "payment_intent.succeeded"); ("data", obj [])].

(** An SDK that accepts the delivery and parses it to [event]. *)
Definition accepting (event : value) : Webhook.deps :=
  Webhook.Deps (Some "whsec_test") (fun _ _ _ => Ret event) demo_runtime.

Definition signature_mismatch : exn :=
  Exn "StripeSignatureVerificationError"
      "No signatures found matching the expected signature for payload."
      (VStr "StripeSignatureVerificationError") VUndefined.

Definition refusing : Webhook.deps :=
  Webhook.Deps (Some "whsec_test") (fun _ _ _ => Throw signature_mismatch) demo_runtime.

Definition unconfigured : Webhook.deps :=
  Webhook.Deps None (fun _ _ _ => Ret evt_1) demo_runtime.

Definition signed_delivery : Webhook.request :=
  Webhook.Request "POST" {[ "stripe-signature" := "t=1706695200,v1=5257a869" ]} (Ret "{}").

Definition unsigned_delivery : Webhook.request :=
  Webhook.Request "POST" ∅ (Ret "{}").

(** ** Payment requests *)

Definition checkout : value :=
  obj [("amount", VNum 999); ("currency", VStr "USD"); ("payment_method_id", VStr "pm_1");
       ("customer_email", VStr "student@example.com"); ("plan_type", VStr "weekly")].

Definition checkout_without_email : value :=
  obj [("amount", VNum 999); ("currency", VStr "USD"); ("payment_method_id", VStr "pm_1")].

Definition post (body : value) : PaymentIntent.request :=
  PaymentIntent.Request "POST" ∅ body.

Definition cus_1 : PaymentIntent.customer :=
  PaymentIntent.Customer "cus_1" (VStr "student@example.com") VNull.

(** A Stripe account that knows the customer and answers the creation of
    a payment intent with [answer]. *)
Definition stripe_answering (answer : outcome PaymentIntent.payment_intent)
  : PaymentIntent.deps :=
  PaymentIntent.Deps (fun _ => Ret [cus_1]) (fun _ => Ret cus_1) (fun _ => answer)
    demo_runtime.

Definition pending_3ds : PaymentIntent.payment_intent :=
  PaymentIntent.PaymentIntentObj "pi_1" "requires_action" (VNum 999) (VStr "usd")
    (VStr "pi_1_secret_x") VNull.

Definition paid : PaymentIntent.payment_intent :=
  PaymentIntent.PaymentIntentObj "pi_1" "succeeded" (VNum 999) (VStr "usd")
    (VStr "pi_1_secret_x") VNull.

Definition card_declined : exn :=
  Exn "Error" "Your card was declined." (VStr "StripeCardError") (VStr "card_declined").

Definition no_such_method : exn :=
  Exn "Error" "No such PaymentMethod: 'pm_1'" (VStr "StripeInvalidRequestError")
      (VStr "resource_missing").

(** What the handler sends to [stripe.paymentIntents.create] for
    [checkout]. *)
Definition checkout_params : value :=
  obj [("amount", VNum 999);
       ("currency", VStr "usd");
       ("customer", VStr "cus_1");
       ("payment_method", VStr "pm_1");
       ("confirmation_method", VStr "manual");
       ("confirm", VBool true);
       ("return_url", VStr "https://www.gammapace.com");
       ("metadata",
         obj [("plan_type", VStr "weekly"); ("user_country", VStr "Unknown");
              ("customer_name", VStr "IELTS Student");
              ("app_source", VStr "IELTS_Practice")])].

(** A heap with one Date object. *)
Definition one_date : state :=
  State [] fresh_response {[ 1%positive := Some jan31 ]} 0.

End Scenario.

(* ===================================================================== *)
(** * The paths through the handlers *)
(* ===================================================================== *)

Module WebhookPaths.
Import JS Run Trace Webhook WebhookSpec.

(** Nothing to read under [event.data.object]: [data] is missing, or
    [object] is missing or null. *)
Definition without_object (event : value) : Prop :=
  forall data payload,
    get_prop event "data" = Ret data -> get_prop data "object" = Ret payload ->
    nullish payload = true.

(** Why the [switch] throws: the type is a recognized one and there is
    nothing under [event.data.object], or the type is none of the
    recognized ones and has no string form for the log line. *)
Definition unprocessable (d : deps) (event ty : value) : Prop :=
  (exists type h, ty = VStr type /\ classify type = Some h /\ without_object event) \/
  ((forall type, ty = VStr type -> classify type = None) /\
   forall ty', get_prop event "type" = Ret ty' -> exists e, ToString (rt d) ty' = Throw e).

(** How [dispatch] can end on an event whose [type] reads as [ty]. *)
Inductive dispatched (d : deps) (event ty : value) (s : state)
  : state * outcome unit -> Prop :=
| dispatched_failed t e :
    Forall is_info t ->
    unprocessable d event ty ->
    dispatched d event ty s (with_trace s t, Throw e)
| dispatched_unhandled t :
    Forall is_info t ->
    (forall type, ty = VStr type -> classify type = None) ->
    dispatched d event ty s (with_trace s t, Ret tt)
| dispatched_handled type h data payload pre last :
    ty = VStr type ->
    classify type = Some h ->
    get_prop event "data" = Ret data ->
    get_prop data "object" = Ret payload ->
    nullish payload = false ->
    Forall is_info pre ->
    closing h last ->
    dispatched d event ty s
      (with_trace s (pre ++ [Enter h payload; Console LogInfo (intro_line h) []; last]),
       Ret tt).


(** The first log line of every run. *)
Definition called (req : request) : effect :=
  Console LogInfo "🔗 Stripe Webhook called:" [VStr (method req)].

(** What a run has in its trace once [constructEvent] has returned an
    event whose [type] reads as [ty]. *)
Definition verified_prefix (d : deps) (req : request) (buf : string) (ty : value)
  : list effect :=
  [called req; Buffer;
   ConstructEvent buf (header req "stripe-signature") (of_option (webhookSecret d));
   Console LogInfo "✅ Webhook signature verified:" [ty]].

Definition processing_error (e : exn) : effect :=
  Console LogError "❌ Webhook processing error:" [exn_value e].

Definition answer (t : list effect) (status : Z) (b : body) : state :=
  State t (Response status [] b) ∅ 0.

(** The ways through the handler, each with the state it ends in. *)
Inductive path (d : deps) (req : request) : state -> Prop :=
| path_method :
    method req <> "POST" ->
    path d req
      (answer [called req;
               Console LogInfo "❌ Method not allowed for webhook:" [VStr (method req)]]
              405 BodyEmpty)
| path_unreadable e :
    method req = "POST" ->
    raw_body req = Throw e ->
    path d req
      (answer [called req; Buffer; processing_error e]
              500 (BodyText "Webhook processing failed"))
| path_unsigned buf :
    method req = "POST" ->
    raw_body req = Ret buf ->
    truthy (header req "stripe-signature") = false ->
    path d req
      (answer [called req; Buffer; Console LogInfo "❌ Missing Stripe signature" []]
              400 (BodyText "Missing Stripe signature"))
| path_unconfigured buf :
    method req = "POST" ->
    raw_body req = Ret buf ->
    truthy (header req "stripe-signature") = true ->
    truthy (of_option (webhookSecret d)) = false ->
    path d req
      (answer [called req; Buffer;
               Console LogInfo "❌ Missing webhook secret in environment variables" []]
              500 (BodyText "Webhook secret not configured"))
| path_refused buf err :
    method req = "POST" ->
    raw_body req = Ret buf ->
    truthy (header req "stripe-signature") = true ->
    truthy (of_option (webhookSecret d)) = true ->
    constructEvent d buf (header req "stripe-signature") (of_option (webhookSecret d))
    = Throw err ->
    path d req
      (answer [called req; Buffer;
               ConstructEvent buf (header req "stripe-signature")
                 (of_option (webhookSecret d));
               Console LogInfo "❌ Webhook signature verification failed:"
                 [VStr (exn_message err)]]
              400 (BodyText ("Webhook Error: " +:+ exn_message err)))
| path_untyped buf event err :
    verified d req event ->
    raw_body req = Ret buf ->
    get_prop event "type" = Throw err ->
    path d req
      (answer [called req; Buffer;
               ConstructEvent buf (header req "stripe-signature")
                 (of_option (webhookSecret d));
               Console LogInfo "❌ Webhook signature verification failed:"
                 [VStr (exn_message err)]]
              400 (BodyText ("Webhook Error: " +:+ exn_message err)))
| path_failed buf event ty t e :
    verified d req event ->
    raw_body req = Ret buf ->
    get_prop event "type" = Ret ty ->
    Forall is_info t ->
    unprocessable d event ty ->
    path d req
      (answer (verified_prefix d req buf ty ++ t ++ [processing_error e])
              500 (BodyText "Webhook processing failed"))
| path_unhandled buf event ty t :
    verified d req event ->
    raw_body req = Ret buf ->
    get_prop event "type" = Ret ty ->
    (forall type, ty = VStr type -> classify type = None) ->
    Forall is_info t ->
    path d req
      (answer (verified_prefix d req buf ty ++ t) 200 (BodyJson (ack ty)))
| path_handled buf event type h data payload pre last :
    verified d req event ->
    raw_body req = Ret buf ->
    get_prop event "type" = Ret (VStr type) ->
    classify type = Some h ->
    get_prop event "data" = Ret data ->
    get_prop data "object" = Ret payload ->
    nullish payload = false ->
    Forall is_info pre ->
    closing h last ->
    path d req
      (answer (verified_prefix d req buf (VStr type) ++ pre
               ++ [Enter h payload; Console LogInfo (intro_line h) []; last])
              200 (BodyJson (ack (VStr type)))).

End WebhookPaths.

Module Deliveries.
Import JS Run Webhook Scenario.

(** A browser or a health check asking with GET. *)
Definition probe : request :=
  Request "GET" {[ "stripe-signature" := "t=1706695200,v1=5257a869" ]} (Ret "{}").

Definition payload_too_large : exn :=
  Exn "Error" "Body exceeded 1mb limit" (VStr "entity.too.large") VUndefined.

(** A signed delivery whose body micro's [buffer] refuses. *)
Definition oversized_delivery : request :=
  Request "POST" {[ "stripe-signature" := "t=1706695200,v1=5257a869" ]}
    (Throw payload_too_large).

(** A cancelled subscription that carries no [canceled_at]. *)
Definition sub_2 : value :=
  obj [("id", VStr "sub_2"); ("customer", VStr "cus_1"); ("ended_at", VNum 1706695200)].

End Deliveries.

Module PaymentIntentPaths.
Import JS Run Trace PaymentIntent PaymentIntentSpec.

(** A field of [req.body] as the destructuring binds it. *)
Definition field (req : request) (k : string) : value :=
  match get_prop (req_body req) k with Ret v => v | Throw _ => VUndefined end.

(** What the destructuring throws when [req.body] is undefined or null:
    the first property of the pattern is the one it names. *)
Definition no_body (req : request) : exn :=
  TypeError ("Cannot destructure property 'amount' of 'req.body' as it is "
             +:+ type_name (req_body req) +:+ ".").

(** The condition of the validation [if]. *)
Definition incomplete (req : request) : bool :=
  negb (truthy (field req "amount")) || negb (truthy (field req "currency"))
  || negb (truthy (field req "payment_method_id"))
  || negb (truthy (field req "customer_email")).

(** The arguments of the three Stripe calls. *)
Definition list_params (req : request) : value :=
  obj [("email", field req "customer_email"); ("limit", VNum 1)].

Definition create_params (req : request) : value :=
  obj [("email", field req "customer_email");
       ("name", or_else (field req "customer_name") (VStr "IELTS Student"));
       ("metadata",
         obj [("user_country", or_else (field req "user_country") (VStr "Unknown"));
              ("plan_type", or_else (field req "plan_type") (VStr "monthly"));
              ("source", VStr "IELTS_Practice_App")])].

Definition intent_params (req : request) (amount' currency' : value) (c : customer) : value :=
  obj [("amount", amount');
       ("currency", currency');
       ("customer", VStr (cust_id c));
       ("payment_method", field req "payment_method_id");
       ("confirmation_method", VStr "manual");
       ("confirm", VBool true);
       ("return_url", VStr "https://www.gammapace.com");
       ("metadata",
         pi_metadata (field req "plan_type") (field req "user_country")
           (field req "customer_name"))].

(** The state in which the [try] block has logged the request and found
    its fields complete. *)
Definition validated (d : deps) (req : request) : state :=
  with_trace (entry req)
    [Console LogInfo "📋 Processing payment request..." [];
     Console LogInfo "Request body:" [JSON_stringify (rt d) (req_body req)];
     Console LogInfo "💳 Creating/retrieving Stripe customer..." []].

(** Finding or creating the customer: what it leaves in the trace and how
    it ends. *)
Definition customer_step (d : deps) (req : request) : list effect * outcome customer :=
  match customers_list d (list_params req) with
  | Throw e => ([CustomersList (list_params req)], Throw e)
  | Ret (found :: _) =>
      ([CustomersList (list_params req);
        Console LogInfo "✅ Found existing customer:" [VStr (cust_id found)]], Ret found)
  | Ret [] =>
      match customers_create d (create_params req) with
      | Throw e => ([CustomersList (list_params req); CustomersCreate (create_params req)],
                    Throw e)
      | Ret created =>
          ([CustomersList (list_params req); CustomersCreate (create_params req);
            Console LogInfo "✅ Created new customer:" [VStr (cust_id created)]],
           Ret created)
      end
  end.

(** Creating the payment intent for customer [c]. *)
Definition intent_step (d : deps) (req : request) (c : customer)
  : list effect * outcome payment_intent :=
  match parseInt (rt d) (field req "amount") with
  | Throw e => ([Console LogInfo "💰 Creating payment intent..." []], Throw e)
  | Ret amount' =>
      match call_toLowerCase (rt d) (field req "currency") with
      | Throw e => ([Console LogInfo "💰 Creating payment intent..." []], Throw e)
      | Ret currency' =>
          ([Console LogInfo "💰 Creating payment intent..." [];
            PaymentIntentsCreate (intent_params req amount' currency' c)],
           paymentIntents_create d (intent_params req amount' currency' c))
      end
  end.

(** The time value [calculateEndDate] stores in the Date it returns, for
    a start date holding [tv]. *)
Definition end_time (rt : runtime) (tv : JSDate.time) (planType : value) : JSDate.time :=
  match tv ≫= JSDate.TimeClip with
  | Some t =>
      JSDate.TimeClip
        (JSDate.UTC (LocalTZA rt)
           (JSDate.LocalTime (LocalTZA rt) t + plan_days planType * JSDate.msPerDay))
  | None => None
  end.

(** The body of the 200 answer to a payment that succeeded. *)
Definition success_body (plan_type : value) (c : customer) (pi : payment_intent)
    (start_date end_date : string) : value :=
  obj [("success", VBool true);
       ("payment_intent",
         obj [("id", VStr (pi_id pi)); ("amount", pi_amount pi);
              ("currency", pi_currency pi); ("status", VStr (pi_status pi))]);
       ("customer",
         obj [("id", VStr (cust_id c)); ("email", cust_email c); ("name", cust_name c)]);
       ("subscription_data",
         obj [("plan_type", or_else plan_type (VStr "monthly"));
              ("start_date", VStr start_date);
              ("end_date", VStr end_date)])].

(** The body of the 400 answer to a payment intent in any other status. *)
Definition failure_body (pi : payment_intent) : value :=
  obj [("success", VBool false);
       ("error", VStr "Payment failed");
       ("payment_intent",
         obj [("id", VStr (pi_id pi)); ("status", VStr (pi_status pi));
              ("last_payment_error", pi_last_payment_error pi)])].

Definition created_line (pi : payment_intent) : effect :=
  Console LogInfo "📊 Payment Intent created:"
    [obj [("id", VStr (pi_id pi)); ("status", VStr (pi_status pi));
          ("amount", pi_amount pi); ("currency", pi_currency pi)]].

(** The calls to Stripe and the lines logged between them. *)
Definition stripe_trace (d : deps) (req : request) : list effect :=
  match customer_step d req with
  | (t, Throw _) => t
  | (t, Ret c) => t ++ fst (intent_step d req c)
  end.

Definition is_intent_call (e : effect) : bool :=
  match e with PaymentIntentsCreate _ => true | _ => false end.

(** The handler's run, stage by stage. *)
Definition staged (d : deps) (req : request) : state * outcome unit :=
  if String.eqb (method req) "OPTIONS" then
    (State (trace (entry req) ++ [Console LogInfo "✅ Handling OPTIONS preflight request" []])
       (Response 200 (cors_headers req) BodyEmpty) ∅ 0, Ret tt)
  else if negb (String.eqb (method req) "POST") then
    (State (trace (entry req) ++ [Console LogInfo "❌ Method not allowed:" [VStr (method req)]])
       (Response 405 (cors_headers req) (BodyJson (obj [("error", VStr "Method not allowed")])))
       ∅ 0, Ret tt)
  else if nullish (req_body req) then
    on_error (no_body req)
      (with_trace (entry req)
         [Console LogInfo "📋 Processing payment request..." [];
          Console LogInfo "Request body:" [JSON_stringify (rt d) (req_body req)]])
  else if incomplete req then
    (State (trace (entry req) ++
            [Console LogInfo "📋 Processing payment request..." [];
             Console LogInfo "Request body:" [JSON_stringify (rt d) (req_body req)];
             Console LogInfo "❌ Missing required fields" []])
       (Response 400 (cors_headers req) (BodyJson validation_error)) ∅ 0, Ret tt)
  else
    match customer_step d req with
    | (t, Throw e) => on_error e (with_trace (validated d req) t)
    | (t, Ret c) =>
        match intent_step d req c with
        | (t', Throw e) => on_error e (with_trace (validated d req) (t ++ t'))
        | (t', Ret pi) =>
            try_catch (respond d (field req "plan_type") c pi) on_error
              (with_trace (validated d req) (t ++ t' ++ [created_line pi]))
        end
    end.

(** The clock readings that the branch of a succeeded payment makes, the
    [k]-th and the next, and the end date computed from the second are
    within the range of Date. *)
Definition clock_in_range (rt : runtime) (k : nat) (planType : value) : Prop :=
  JSDate.valid_time (Date_now rt k) /\
  JSDate.valid_time (Date_now rt (S k)) /\
  JSDate.valid_time
    (JSDate.UTC (LocalTZA rt)
       (JSDate.LocalTime (LocalTZA rt) (Date_now rt (S k))
        + plan_days planType * JSDate.msPerDay)).

(** [m] leaves the response alone. *)
Definition keeps_res {A} (m : M A) : Prop := forall s, res (fst (m s)) = res s.

End PaymentIntentPaths.

Module Checkouts.
Import JS Run PaymentIntent Scenario.

(** The browser's preflight for a cross-origin POST. *)
Definition preflight : request :=
  Request "OPTIONS" {[ "origin" := "https://www.gammapace.com" ]} VUndefined.

(** A Stripe account that does not know the customer yet. *)
Definition stripe_without_customer (answer : outcome payment_intent) : deps :=
  Deps (fun _ => Ret []) (fun _ => Ret cus_1) (fun _ => answer) demo_runtime.

(** A payment by bank debit that Stripe has accepted and not yet
    settled. *)
Definition processing : payment_intent :=
  PaymentIntentObj "pi_1" "processing" (VNum 999) (VStr "usd") (VStr "pi_1_secret_x") VNull.

(** A checkout whose currency is the ISO 4217 number instead of the
    code. *)
Definition checkout_numeric_currency : value :=
  obj [("amount", VNum 999); ("currency", VNum 840); ("payment_method_id", VStr "pm_1");
       ("customer_email", VStr "student@example.com"); ("plan_type", VStr "weekly")].

(** A heap with one invalid Date. *)
Definition invalid_date : state :=
  State [] fresh_response {[ 1%positive := None ]} 0.

End Checkouts.

Module PortalSpec.
Import JS Portal.

Definition extend (s : state) (t : list effect) : state :=
  State (trace s ++ t) (res s).

(** Headers the handler sets before it looks at the method. *)
Definition portal_cors_headers (req : request) : list (string * string) :=
  (match header req "origin" with
   | VStr s =>
       if existsb (String.eqb s) allowedOrigins
       then [("Access-Control-Allow-Origin", s)]
       else if String.eqb s "" then [("Access-Control-Allow-Origin", "*")] else []
   | _ => [("Access-Control-Allow-Origin", "*")]
   end) ++
  [("Access-Control-Allow-Methods", "POST, OPTIONS");
   ("Access-Control-Allow-Headers", "Content-Type, Authorization")].

(** The state in which the handler looks at the method. *)
Definition opening (req : request) : state :=
  State [Console Run.LogInfo "🏢 Customer Portal API called:" [VStr (method req)]]
        (Run.Response 200 (portal_cors_headers req) Run.Unsent).

(** A field of [req.body] as the destructuring binds it. *)
Definition body_field (req : request) (k : string) : value :=
  match get_prop (req_body req) k with Ret v => v | Throw _ => VUndefined end.

(** The state in which the [try] block has logged the request. *)
Definition logged (d : deps) (req : request) : state :=
  extend (opening req)
    [Console Run.LogInfo "📋 Processing customer portal request..." [];
     Console Run.LogInfo "Request body:" [Run.JSON_stringify (rt d) (req_body req)]].

(** The arguments of the calls to Stripe. *)
Definition lookup_params (req : request) : value :=
  obj [("email", body_field req "customer_email"); ("limit", VNum 1)].

Definition session_params (req : request) (customerId : value) : value :=
  obj [("customer", customerId);
       ("return_url", or_else (body_field req "return_url") (VStr "https://www.gammapace.com"))].

(** The bodies of the answers. *)
Definition needs_customer : value :=
  obj [("success", VBool false);
       ("error", VStr "Either customer_id or customer_email is required")].

Definition no_subscription : value :=
  obj [("success", VBool false);
       ("error", VStr "Customer not found. Please ensure you have an active subscription.")].

Definition unknown_customer : value :=
  obj [("success", VBool false);
       ("error", VStr "Customer not found. Please contact support.")].

Definition session_body (customerId : value) (session : portal_session) : value :=
  obj [("success", VBool true);
       ("url", VStr (session_url session));
       ("customer_id", customerId);
       ("session_id", VStr (session_id session))].

(** The answer of the outer [catch] block. *)
Definition portal_error_status (e : exn) : Z :=
  if is_str (exn_type e) "StripeInvalidRequestError" then 400
  else if is_str (exn_code e) "customer_portal_inactive" then 400
  else 500.

Definition portal_error_body (e : exn) : value :=
  if is_str (exn_type e) "StripeInvalidRequestError" then
    obj [("success", VBool false); ("error", VStr "Invalid customer information");
         ("type", VStr "invalid_request")]
  else if is_str (exn_code e) "customer_portal_inactive" then
    obj [("success", VBool false);
         ("error", VStr "Customer portal is not activated. Please contact support.");
         ("type", VStr "portal_inactive")]
  else
    obj [("success", VBool false);
         ("error", VStr "Unable to create customer portal session");
         ("type", VStr "server_error")].

Definition failed (e : exn) (s : state) : state * outcome unit :=
  (State (trace s ++ [Console Run.LogError "❌ Customer portal error:" [exn_value e]])
     (Run.Response (portal_error_status e) (Run.headers (res s)) (Run.BodyJson (portal_error_body e))),
   Ret tt).

Definition answered (s : state) (t : list effect) (status : Z) (json : value)
  : state * outcome unit :=
  (State (trace s ++ t) (Run.Response status (Run.headers (res s)) (Run.BodyJson json)),
   Ret tt).

(** From the validation of customer [customerId] on. *)
Definition session_stage (d : deps) (req : request) (customerId : value) (s : state)
  : state * outcome unit :=
  match customers_retrieve d customerId with
  | Throw _ =>
      answered s
        [CustomersRetrieve customerId;
         Console Run.LogInfo "❌ Invalid customer ID:" [customerId]]
        404 unknown_customer
  | Ret customer =>
      let validated :=
        [CustomersRetrieve customerId;
         Console Run.LogInfo "✅ Customer validated:"
           [obj [("id", VStr (PaymentIntent.cust_id customer));
                 ("email", PaymentIntent.cust_email customer);
                 ("name", PaymentIntent.cust_name customer)]];
         Console Run.LogInfo "🏢 Creating customer portal session..." [];
         SessionsCreate (session_params req customerId)] in
      match sessions_create d (session_params req customerId) with
      | Throw e => failed e (extend s validated)
      | Ret session =>
          answered s
            (validated ++
             [Console Run.LogInfo "✅ Customer portal session created:"
                [obj [("id", VStr (session_id session));
                      ("customer", customerId);
                      ("url", VStr (session_url session))]]])
            200 (session_body customerId session)
      end
  end.

(** The handler's run, stage by stage. *)
Definition portal_staged (d : deps) (req : request) : state * outcome unit :=
  if String.eqb (method req) "OPTIONS" then
    (State (trace (opening req)
            ++ [Console Run.LogInfo "✅ Handling OPTIONS preflight request" []])
       (Run.Response 200 (portal_cors_headers req) Run.BodyEmpty), Ret tt)
  else if negb (String.eqb (method req) "POST") then
    answered (opening req)
      [Console Run.LogInfo "❌ Method not allowed:" [VStr (method req)]]
      405 (obj [("error", VStr "Method not allowed")])
  else
    match PaymentIntent.destructure (req_body req) "customer_id" with
    | Throw e => failed e (logged d req)
    | Ret _ =>
        if negb (truthy (body_field req "customer_id"))
           && negb (truthy (body_field req "customer_email")) then
          answered (logged d req) [Console Run.LogInfo "❌ Missing required fields" []]
            400 needs_customer
        else if negb (truthy (body_field req "customer_id")) then
          let finding :=
            [Console Run.LogInfo "🔍 Finding customer by email:"
               [body_field req "customer_email"];
             CustomersList (lookup_params req)] in
          match customers_list d (lookup_params req) with
          | Throw e => failed e (extend (logged d req) finding)
          | Ret [] =>
              answered (logged d req)
                (finding ++ [Console Run.LogInfo "❌ Customer not found:"
                               [body_field req "customer_email"]])
                404 no_subscription
          | Ret (found :: _) =>
              session_stage d req (VStr (PaymentIntent.cust_id found))
                (extend (logged d req)
                   (finding ++ [Console Run.LogInfo "✅ Found customer:"
                                  [VStr (PaymentIntent.cust_id found)]]))
          end
        else
          session_stage d req (body_field req "customer_id") (logged d req)
    end.

(** How the handler comes to the customer id it goes on with, and what it
    has logged and called on the way: the id of the request, or else the
    id of the first customer that Stripe lists for the email. *)
Definition resolved (d : deps) (req : request) (customerId : value) (pre : list effect)
  : Prop :=
  method req = "POST" /\ nullish (req_body req) = false /\
  ((truthy (body_field req "customer_id") = true /\
    customerId = body_field req "customer_id" /\ pre = []) \/
   (truthy (body_field req "customer_id") = false /\
    truthy (body_field req "customer_email") = true /\
    exists found rest,
      customers_list d (lookup_params req) = Ret (found :: rest) /\
      customerId = VStr (PaymentIntent.cust_id found) /\
      pre = [Console Run.LogInfo "🔍 Finding customer by email:"
               [body_field req "customer_email"];
             CustomersList (lookup_params req);
             Console Run.LogInfo "✅ Found customer:"
               [VStr (PaymentIntent.cust_id found)]])).

Definition validated_line (customer : PaymentIntent.customer) : effect :=
  Console Run.LogInfo "✅ Customer validated:"
    [obj [("id", VStr (PaymentIntent.cust_id customer));
          ("email", PaymentIntent.cust_email customer);
          ("name", PaymentIntent.cust_name customer)]].

Definition session_line (customerId : value) (session : portal_session) : effect :=
  Console Run.LogInfo "✅ Customer portal session created:"
    [obj [("id", VStr (session_id session));
          ("customer", customerId);
          ("url", VStr (session_url session))]].

Definition error_line (e : exn) : effect :=
  Console Run.LogError "❌ Customer portal error:" [exn_value e].

(** The end of a run whose [try] block logged [t]. *)
Definition ending (d : deps) (req : request) (t : list effect) (status : Z) (json : value)
  : state :=
  State (trace (logged d req) ++ t)
    (Run.Response status (portal_cors_headers req) (Run.BodyJson json)).

(** The ways through the handler, each with the state it ends in. *)
Inductive ended (d : deps) (req : request) : state -> Prop :=
| ended_preflight :
    method req = "OPTIONS" ->
    ended d req
      (State (trace (opening req)
              ++ [Console Run.LogInfo "✅ Handling OPTIONS preflight request" []])
         (Run.Response 200 (portal_cors_headers req) Run.BodyEmpty))
| ended_method :
    method req <> "OPTIONS" -> method req <> "POST" ->
    ended d req
      (State (trace (opening req)
              ++ [Console Run.LogInfo "❌ Method not allowed:" [VStr (method req)]])
         (Run.Response 405 (portal_cors_headers req)
            (Run.BodyJson (obj [("error", VStr "Method not allowed")]))))
| ended_bodyless e :
    method req = "POST" -> nullish (req_body req) = true ->
    exn_type e = VUndefined -> exn_code e = VUndefined ->
    ended d req (ending d req [error_line e] (portal_error_status e) (portal_error_body e))
| ended_unnamed :
    method req = "POST" -> nullish (req_body req) = false ->
    truthy (body_field req "customer_id") = false ->
    truthy (body_field req "customer_email") = false ->
    ended d req
      (ending d req [Console Run.LogInfo "❌ Missing required fields" []] 400 needs_customer)
| ended_lookup_failed e :
    method req = "POST" -> nullish (req_body req) = false ->
    truthy (body_field req "customer_id") = false ->
    truthy (body_field req "customer_email") = true ->
    customers_list d (lookup_params req) = Throw e ->
    ended d req
      (ending d req
         [Console Run.LogInfo "🔍 Finding customer by email:" [body_field req "customer_email"];
          CustomersList (lookup_params req); error_line e]
         (portal_error_status e) (portal_error_body e))
| ended_unknown_email :
    method req = "POST" -> nullish (req_body req) = false ->
    truthy (body_field req "customer_id") = false ->
    truthy (body_field req "customer_email") = true ->
    customers_list d (lookup_params req) = Ret [] ->
    ended d req
      (ending d req
         [Console Run.LogInfo "🔍 Finding customer by email:" [body_field req "customer_email"];
          CustomersList (lookup_params req);
          Console Run.LogInfo "❌ Customer not found:" [body_field req "customer_email"]]
         404 no_subscription)
| ended_unretrievable customerId pre e :
    resolved d req customerId pre ->
    customers_retrieve d customerId = Throw e ->
    ended d req
      (ending d req
         (pre ++ [CustomersRetrieve customerId;
                  Console Run.LogInfo "❌ Invalid customer ID:" [customerId]])
         404 unknown_customer)
| ended_session_failed customerId pre customer e :
    resolved d req customerId pre ->
    customers_retrieve d customerId = Ret customer ->
    sessions_create d (session_params req customerId) = Throw e ->
    ended d req
      (ending d req
         (pre ++ [CustomersRetrieve customerId; validated_line customer;
                  Console Run.LogInfo "🏢 Creating customer portal session..." [];
                  SessionsCreate (session_params req customerId); error_line e])
         (portal_error_status e) (portal_error_body e))
| ended_session customerId pre customer session :
    resolved d req customerId pre ->
    customers_retrieve d customerId = Ret customer ->
    sessions_create d (session_params req customerId) = Ret session ->
    ended d req
      (ending d req
         (pre ++ [CustomersRetrieve customerId; validated_line customer;
                  Console Run.LogInfo "🏢 Creating customer portal session..." [];
                  SessionsCreate (session_params req customerId);
                  session_line customerId session])
         200 (session_body customerId session)).

Fixpoint tally (p : effect -> bool) (t : list effect) : nat :=
  match t with
  | [] => 0
  | e :: t => (if p e then 1 else 0) + tally p t
  end.

Definition is_stripe_call (e : effect) : bool :=
  match e with Console _ _ _ => false | _ => true end.

(** Calls of the Stripe API. *)
Definition stripe_calls : list effect -> nat := tally is_stripe_call.

Definition is_console_error (e : effect) : bool :=
  match e with Console Run.LogError _ _ => true | _ => false end.

(** The error with which Stripe answered the call [c], where the outer
    [catch] sees it: a rejected [customers.retrieve] is caught before. *)
Definition portal_rejected_by (d : deps) (c : effect) : option exn :=
  match c with
  | CustomersList p => match customers_list d p with Throw e => Some e | Ret _ => None end
  | SessionsCreate p => match sessions_create d p with Throw e => Some e | Ret _ => None end
  | _ => None
  end.

End PortalSpec.

Module PortalScenario.
Import JS Portal Scenario.

(** A request for the portal by email, one by customer id (with an email
    that is then not looked at), one that names nobody. *)
Definition by_email : request :=
  Request "POST" ∅ (obj [("customer_email", VStr "student@example.com")]).


Definition nameless : request :=
  Request "POST" ∅ (obj [("return_url", VStr "https://www.gammapace.com/account")]).

Definition session_1 : portal_session :=
  PortalSession "bps_1" "https://billing.stripe.com/p/session/test_1".

(** A Stripe account that lists [customers] for every email, knows every
    customer id and answers the creation of a portal session with
    [answer]. *)
Definition portal_answering (customers : list PaymentIntent.customer)
    (retrieved : outcome PaymentIntent.customer) (answer : outcome portal_session) : deps :=
  Deps (fun _ => Ret customers) (fun _ => retrieved) (fun _ => answer) demo_runtime.

Definition no_such_customer : exn :=
  Exn "Error" "No such customer: 'cus_1'" (VStr "StripeInvalidRequestError")
      (VStr "resource_missing").

Definition rate_limited : exn :=
  Exn "Error" "Too many requests" (VStr "StripeRateLimitError") (VStr "rate_limit").

(** The error Stripe raises while the portal is not configured in the
    dashboard. *)
Definition portal_inactive : exn :=
  Exn "Error" "No configuration provided" (VStr "StripeInvalidRequestError")
      (VStr "customer_portal_inactive").

End PortalScenario.

Module StatusSpec.
Import JS Run Status.

(** [!!process.env.NAME]: the variable is set and not empty. *)
Definition configured (o : option string) : bool :=
  match o with
  | Some s => negb (String.eqb s "")
  | None => false
  end.

Definition status_headers : list (string * string) :=
  [("Access-Control-Allow-Origin", "*");
   ("Access-Control-Allow-Methods", "GET, OPTIONS");
   ("Access-Control-Allow-Headers", "Content-Type")].

(** The status report, as a function of what it shows. *)
Definition report (timestamp version : string) (stripe webhook : bool) : value :=
  obj [("status", VStr "OK");
       ("message", VStr "IELTS Stripe Backend API is running");
       ("timestamp", VStr timestamp);
       ("version", VStr "1.0.0");
       ("endpoints",
         obj [("payment", VStr "/api/stripe/create-payment-intent");
              ("webhook", VStr "/api/stripe/webhook");
              ("portal", VStr "/api/stripe/customer-portal")]);
       ("environment",
         obj [("node_version", VStr version);
              ("stripe_configured", VBool stripe);
              ("webhook_configured", VBool webhook)])].

(** A deployment with both secrets set, one with none. *)
Definition live : deps :=
  Deps (Some "sk_live_51Nabc") (Some "whsec_test") "v18.17.0" Scenario.demo_runtime.

Definition rotated : deps :=
  Deps (Some "sk_live_51Nxyz") (Some "whsec_other") "v18.17.0" Scenario.demo_runtime.

End StatusSpec.

(* ===================================================================== *)
(** * The runtime of the scenarios, tried on a few values *)
(* ===================================================================== *)

Module ScenarioFacts.
Import JS Run Scenario.

Example to_string_values :
  to_string (VNum 999) = "999" /\
  to_string (VNum (-40)) = "-40" /\
  to_string (VNum 0) = "0" /\
  to_string (VArr [VNum 1; VNull; VStr "a"]) = "1,,a" /\
  to_string (VArr []) = "" /\
  to_string (obj [("id", VStr "ch_1")]) = "[object Object]".
Proof. repeat split; vm_compute; reflexivity. Qed.

Example parse_int_values :
  parse_int "999" = Some 999 /\
  parse_int "  -12px" = Some (-12) /\
  parse_int "12.7" = Some 12 /\
  parse_int "0x1f" = Some 31 /\
  parse_int "usd" = None /\
  parse_int "" = None.
Proof. repeat split; vm_compute; reflexivity. Qed.

Example whole_number_values :
  whole_number "1706695200" = Some 1706695200 /\
  whole_number " 42 " = Some 42 /\
  whole_number "-1" = Some (-1) /\
  whole_number "" = Some 0 /\
  whole_number "soon" = None /\
  whole_number "4 2" = None.
Proof. repeat split; vm_compute; reflexivity. Qed.

(** The amount of a checkout as a number and as a string, and a Unix time
    that arrives as a string. *)
Example demo_runtime_values :
  parseInt demo_runtime (VNum 999) = Ret (VNum 999) /\
  parseInt demo_runtime (VStr "999") = Ret (VNum 999) /\
  ToString demo_runtime (VNum 999) = Ret "999" /\
  seconds_iso demo_runtime (VStr "1706695200") = Ret "2024-01-31T10:00:00.000Z" /\
  seconds_iso demo_runtime (VStr "soon") = Throw (RangeError "Invalid time value").
Proof. repeat split; vm_compute; reflexivity. Qed.

End ScenarioFacts.

(* ===================================================================== *)
(** * Facts about the Date built-ins *)
(* ===================================================================== *)

Module JSDateFacts.
Import JSDate.

Lemma DayFromYear_succ y : DayFromYear (y + 1) = DayFromYear y + DaysInYear y.
Proof.
  unfold DayFromYear, DaysInYear.
  repeat match goal with
         | |- context [?a =? ?b] => destruct (Z.eqb_spec a b); simpl
         end;
    Z.div_mod_to_equations; lia.
Qed.

Lemma DaysInYear_cases y : DaysInYear y = 365 \/ DaysInYear y = 366.
Proof.
  unfold DaysInYear.
  repeat match goal with
         | |- context [?a =? ?b] => destruct (Z.eqb_spec a b); simpl
         end; auto.
Qed.

Lemma DayFromYear_mono y y' : y <= y' -> DayFromYear y <= DayFromYear y'.
Proof. unfold DayFromYear. intros. Z.div_mod_to_equations. lia. Qed.

(** [YearFromTime t] is a year whose days contain [t] ... *)
Lemma YearFromTime_bounds t :
  DayFromYear (YearFromTime t) <= Day t < DayFromYear (YearFromTime t + 1).
Proof.
  unfold YearFromTime. generalize (Day t) as d. intros d. cbv zeta.
  set (y := 1970 + d * 400 / 146097).
  assert (Hy : 146097 * (y - 1970) <= d * 400 < 146097 * (y - 1970) + 146097).
  { subst y. Z.div_mod_to_equations. lia. }
  clearbody y.
  destruct (Z.ltb_spec d (DayFromYear y)) as [H1|H1].
  - replace (y - 1 + 1) with y by lia. split; [|lia].
    revert H1. unfold DayFromYear. Z.div_mod_to_equations. lia.
  - destruct (Z.leb_spec (DayFromYear (y + 1)) d) as [H2|H2].
    + split; [lia|]. revert H2. unfold DayFromYear. Z.div_mod_to_equations. lia.
    + lia.
Qed.

(** ... and the largest year that starts no later than [t], as ECMAScript
    defines it. *)
Lemma YearFromTime_largest t y :
  TimeFromYear y <= t -> y <= YearFromTime t.
Proof.
  intros H.
  assert (Hd : DayFromYear y <= Day t).
  { unfold TimeFromYear, Day, msPerDay in *. Z.div_mod_to_equations. lia. }
  destruct (Z.le_gt_cases y (YearFromTime t)) as [|Hgt]; [assumption|].
  pose proof (YearFromTime_bounds t) as [_ Hb].
  pose proof (DayFromYear_mono (YearFromTime t + 1) y ltac:(lia)). lia.
Qed.

Lemma TimeFromYear_YearFromTime t : TimeFromYear (YearFromTime t) <= t.
Proof.
  pose proof (YearFromTime_bounds t) as [Hb _].
  unfold TimeFromYear, Day, msPerDay in *. Z.div_mod_to_equations. lia.
Qed.

Lemma DayWithinYear_bounds t :
  0 <= DayWithinYear t < DaysInYear (YearFromTime t).
Proof.
  unfold DayWithinYear. pose proof (YearFromTime_bounds t) as Hb.
  rewrite DayFromYear_succ in Hb. lia.
Qed.

Lemma InLeapYear_DaysInYear t : DaysInYear (YearFromTime t) = 365 + InLeapYear t.
Proof.
  unfold InLeapYear. destruct (DaysInYear_cases (YearFromTime t)) as [H|H];
    rewrite H; reflexivity.
Qed.

Ltac month_cases :=
  unfold MonthFromTime; cbv zeta;
  repeat match goal with
         | |- context [?a <? ?b] => destruct (Z.ltb_spec a b)
         end.

Lemma MonthFromTime_bounds t : 0 <= MonthFromTime t <= 11.
Proof. month_cases; lia. Qed.

(** The table of [DateFromTime] is the offset from the month's first day. *)
Lemma DateFromTime_monthStart t :
  DateFromTime t = DayWithinYear t - monthStart (MonthFromTime t) (InLeapYear t) + 1.
Proof. unfold DateFromTime. month_cases; simpl; lia. Qed.

Lemma DateFromTime_bounds t : 1 <= DateFromTime t <= 31.
Proof.
  pose proof (DayWithinYear_bounds t) as Hd.
  rewrite InLeapYear_DaysInYear in Hd.
  assert (Hl : InLeapYear t = 0 \/ InLeapYear t = 1).
  { unfold InLeapYear. destruct (_ =? _); auto. }
  revert Hd. unfold DateFromTime. month_cases; simpl; lia.
Qed.

(** [MakeDay] of the fields of [t], with the date moved by [n], is the day
    of [t] moved by [n]. *)
Lemma MakeDay_fields t n :
  MakeDay (YearFromTime t) (MonthFromTime t) (DateFromTime t + n) = Day t + n.
Proof.
  pose proof (MonthFromTime_bounds t) as Hm.
  unfold MakeDay. cbv zeta.
  rewrite Z.div_small, Z.mod_small, Z.add_0_r by lia.
  rewrite DateFromTime_monthStart. fold (InLeapYear t).
  unfold DayWithinYear. lia.
Qed.

Lemma MakeDate_fields t n :
  MakeDate (Day t + n) (TimeWithinDay t) = t + n * msPerDay.
Proof.
  unfold MakeDate, Day, TimeWithinDay, msPerDay. Z.div_mod_to_equations. lia.
Qed.

Lemma YearFromTime_unique t y :
  DayFromYear y <= Day t < DayFromYear (y + 1) -> YearFromTime t = y.
Proof.
  intros [H1 H2]. pose proof (YearFromTime_bounds t) as [H3 H4].
  destruct (Z.lt_trichotomy (YearFromTime t) y) as [Hlt|[Heq|Hgt]]; [|assumption|].
  - pose proof (DayFromYear_mono (YearFromTime t + 1) y ltac:(lia)). lia.
  - pose proof (DayFromYear_mono (y + 1) (YearFromTime t) ltac:(lia)). lia.
Qed.

Lemma Day_of_days d : Day (d * msPerDay) = d.
Proof. unfold Day, msPerDay. Z.div_mod_to_equations. lia. Qed.

(** [MakeDay] finds the day ECMAScript asks for: the first of month [m] of
    year [y]. *)
Lemma MakeDay_first y m :
  0 <= m <= 11 ->
  let t := MakeDay y m 1 * msPerDay in
  YearFromTime t = y /\ MonthFromTime t = m /\ DateFromTime t = 1.
Proof.
  intros Hm t.
  assert (Hday : Day t = DayFromYear y + monthStart m (if DaysInYear y =? 366 then 1 else 0)).
  { subst t. rewrite Day_of_days. unfold MakeDay. cbv zeta.
    rewrite Z.div_small, Z.mod_small, Z.add_0_r by lia. lia. }
  assert (Hl : DaysInYear y = 365 + (if DaysInYear y =? 366 then 1 else 0)).
  { destruct (DaysInYear_cases y) as [H|H]; rewrite H; reflexivity. }
  assert (Hms : 0 <= monthStart m (if DaysInYear y =? 366 then 1 else 0) < DaysInYear y).
  { destruct (DaysInYear y =? 366);
    assert (m = 0 \/ m = 1 \/ m = 2 \/ m = 3 \/ m = 4 \/ m = 5 \/ m = 6 \/ m = 7 \/
            m = 8 \/ m = 9 \/ m = 10 \/ m = 11) as Hc by lia;
    repeat (destruct Hc as [->|Hc]); try subst m; simpl; lia. }
  assert (Hy : YearFromTime t = y).
  { apply YearFromTime_unique. rewrite DayFromYear_succ. lia. }
  assert (Hmonth : MonthFromTime t = m).
  { unfold MonthFromTime, DayWithinYear, InLeapYear. rewrite Hy, Hday. cbv zeta.
    destruct (DaysInYear y =? 366);
    assert (m = 0 \/ m = 1 \/ m = 2 \/ m = 3 \/ m = 4 \/ m = 5 \/ m = 6 \/ m = 7 \/
            m = 8 \/ m = 9 \/ m = 10 \/ m = 11) as Hc by lia;
    repeat (destruct Hc as [->|Hc]); try subst m; simpl;
    repeat match goal with
         | |- context [?a <? ?b] => destruct (Z.ltb_spec a b); try lia
         end. }
  split; [assumption|]. split; [assumption|].
  rewrite DateFromTime_monthStart, Hmonth. unfold DayWithinYear, InLeapYear.
  rewrite Hy, Hday. lia.
Qed.

Lemma TimeClip_valid t : valid_time t -> TimeClip t = Some t.
Proof. unfold valid_time, TimeClip. intros. destruct (Z.ltb_spec maxTime (Z.abs t)); [lia|done]. Qed.

Section Zone.
Variable LocalTZA : Z -> bool -> Z.

(** [d.setDate(d.getDate() + n)] moves the local time by [n] days. *)
Lemma setDate_getDate t n :
  setDate LocalTZA (Some t) ((fun x => x + n) <$> getDate LocalTZA (Some t))
  = TimeClip (UTC LocalTZA (LocalTime LocalTZA t + n * msPerDay)).
Proof.
  simpl. rewrite MakeDay_fields, MakeDate_fields. reflexivity.
Qed.

Lemma constant_zone z t n :
  (forall u b, LocalTZA u b = z) ->
  UTC LocalTZA (LocalTime LocalTZA t + n * msPerDay) = t + n * msPerDay.
Proof. intros Hz. unfold UTC, LocalTime. rewrite !Hz. lia. Qed.
End Zone.

(** ** The model against known dates *)

Example ex_iso_epoch : iso_string 0 = "1970-01-01T00:00:00.000Z".
Proof. vm_compute. reflexivity. Qed.
Example ex_iso_2024 : iso_string 1709210096789 = "2024-02-29T12:34:56.789Z".
Proof. vm_compute. reflexivity. Qed.
Example ex_iso_neg : iso_string (-1) = "1969-12-31T23:59:59.999Z".
Proof. vm_compute. reflexivity. Qed.
Example ex_iso_max : iso_string 8640000000000000 = "+275760-09-13T00:00:00.000Z".
Proof. vm_compute. reflexivity. Qed.
Example ex_iso_min : iso_string (-8640000000000000) = "-271821-04-20T00:00:00.000Z".
Proof. vm_compute. reflexivity. Qed.
Example ex_iso_y2k : iso_string 951782400000 = "2000-02-29T00:00:00.000Z".
Proof. vm_compute. reflexivity. Qed.
Example ex_iso_dec31 : iso_string 1704067199999 = "2023-12-31T23:59:59.999Z".
Proof. vm_compute. reflexivity. Qed.
Example ex_weekly_end : iso_string (1706695200000 + 7 * msPerDay) = "2024-02-07T10:00:00.000Z".
Proof. vm_compute. reflexivity. Qed.
Example ex_monthly_end : iso_string (1706695200000 + 30 * msPerDay) = "2024-03-01T10:00:00.000Z".
Proof. vm_compute. reflexivity. Qed.
Example ex_quarterly_end : iso_string (1706695200000 + 90 * msPerDay) = "2024-04-30T10:00:00.000Z".
Proof. vm_compute. reflexivity. Qed.

End JSDateFacts.

(* ===================================================================== *)
(** * Facts about values and the monad *)
(* ===================================================================== *)

Module RunFacts.
Import JS Run Trace.

Lemma get_prop_defined v k x k' : get_prop v k = Ret x -> exists y, get_prop v k' = Ret y.
Proof. destruct v; simpl; intros; try discriminate; eauto. Qed.

Lemma get_opt_total v k : exists x, get_opt v k = Ret x.
Proof. destruct v; simpl; eauto. Qed.

Section Appends.
Context (P : effect -> Prop).

Lemma appends_ret {A} (a : A) : appends P (ret a).
Proof. intros s. exists []. simpl. rewrite app_nil_r. auto. Qed.

Lemma appends_lift {A} (o : outcome A) : appends P (lift o).
Proof. intros s. exists []. simpl. rewrite app_nil_r. auto. Qed.

Lemma appends_emit e : P e -> appends P (emit e).
Proof. intros He s. exists [e]. simpl. auto. Qed.

Lemma appends_update_res f : appends P (update_res f).
Proof. intros s. exists []. simpl. rewrite app_nil_r. auto. Qed.

Lemma appends_bind {A B} (m : M A) (k : A -> M B) :
  appends P m -> (forall a, appends P (k a)) -> appends P (bind m k).
Proof.
  intros Hm Hk s. unfold bind. destruct (Hm s) as (t1 & E1 & F1).
  destruct (m s) as [s1 [a|e]]; simpl in *.
  - destruct (Hk a s1) as (t2 & E2 & F2). exists (t1 ++ t2).
    rewrite E2, E1, app_assoc. split; [done|]. apply Forall_app; auto.
  - eauto.
Qed.

Lemma appends_try_catch {A} (m : M A) (h : exn -> M A) :
  appends P m -> (forall e, appends P (h e)) -> appends P (try_catch m h).
Proof.
  intros Hm Hh s. unfold try_catch. destruct (Hm s) as (t1 & E1 & F1).
  destruct (m s) as [s1 [a|e]]; simpl in *.
  - eauto.
  - destruct (Hh e s1) as (t2 & E2 & F2). exists (t1 ++ t2).
    rewrite E2, E1, app_assoc. split; [done|]. apply Forall_app; auto.
Qed.

Lemma appends_if {A} (b : bool) (m1 m2 : M A) :
  appends P m1 -> appends P m2 -> appends P (if b then m1 else m2).
Proof. destruct b; auto. Qed.

(** What [m] leaves in the trace and does not satisfy [P] was there
    before. *)
Lemma appends_elem_of {A} (m : M A) s c :
  appends P m -> c ∈ trace (fst (m s)) -> ~ P c -> c ∈ trace s.
Proof.
  intros Hm Hc Hn. destruct (Hm s) as (t & E & F). rewrite E in Hc.
  apply elem_of_app in Hc as [Hc|Hc]; [exact Hc|].
  rewrite Forall_forall in F. destruct (Hn (F c Hc)).
Qed.

End Appends.

(** One step through a handler's syntax. *)
Ltac appends_step :=
  first
    [ apply appends_ret | apply appends_lift | apply appends_update_res
    | apply appends_emit
    | apply appends_bind; [|intros]
    | apply appends_try_catch; [|intros]
    | apply appends_if
    | match goal with |- appends _ (match ?x with _ => _ end) => destruct x end ].

(** ** Walking through a [try] block *)

Lemma try_bind_emit {B} e (k : unit -> M B) h s :
  try_catch (bind (emit e) k) h s = try_catch (k tt) h (add s e).
Proof. reflexivity. Qed.

Lemma try_bind_lift {A B} (o : outcome A) (k : A -> M B) h s :
  try_catch (bind (lift o) k) h s
  = match o with Ret a => try_catch (k a) h s | Throw e => h e s end.
Proof. destruct o; reflexivity. Qed.

Lemma try_bind_assoc {A B C} (m : M A) (k1 : A -> M B) (k2 : B -> M C) h s :
  try_catch (bind (bind m k1) k2) h s
  = try_catch (bind m (fun a => bind (k1 a) k2)) h s.
Proof. unfold try_catch, bind. destruct (m s) as [s1 [a|e]]; reflexivity. Qed.

Lemma try_bind_ret {A B} (a : A) (k : A -> M B) h s :
  try_catch (bind (ret a) k) h s = try_catch (k a) h s.
Proof. reflexivity. Qed.

Lemma try_bind_update {B} f (k : unit -> M B) h s :
  try_catch (bind (update_res f) k) h s
  = try_catch (k tt) h (State (trace s) (f (res s)) (heap s) (ticks s)).
Proof. reflexivity. Qed.

Ltac walk :=
  repeat first
    [ rewrite try_bind_assoc
    | rewrite try_bind_emit
    | rewrite try_bind_ret
    | rewrite try_bind_update ].

(** Case analysis on every completion and condition in the goal. *)
Ltac run_cases :=
  repeat match goal with
         | |- context [match ?o with Ret _ => _ | Throw _ => _ end] => destruct o; simpl
         | |- context [if ?b then _ else _] => destruct b; simpl
         end.

(** Membership in an explicit list, one element at a time. *)
Ltac inv_mem H :=
  repeat (apply elem_of_cons in H; destruct H as [H|H];
          [try discriminate H|]);
  try (apply elem_of_nil in H; destruct H).

(** ** Traces *)

Lemma count_none (P : effect -> Prop) p t :
  (forall e, P e -> p e = false) -> Forall P t -> count p t = 0%nat.
Proof.
  intros Hp. induction 1 as [|e t He _ IH]; simpl; [reflexivity|].
  rewrite (Hp e He), IH. reflexivity.
Qed.

Lemma interleave_Forall {A} (P : A -> Prop) l1 l2 l :
  interleave l1 l2 l -> Forall P l1 -> Forall P l2 -> Forall P l.
Proof.
  induction 1; intros F1 F2; [constructor| |].
  - inversion F1; subst. constructor; auto.
  - inversion F2; subst. constructor; auto.
Qed.

Lemma interleave_entered t1 t2 t :
  interleave t1 t2 t -> interleave (entered t1) (entered t2) (entered t).
Proof.
  induction 1 as [|e l1 l2 l _ IH|e l1 l2 l _ IH]; [constructor| |];
    unfold entered in *; simpl; destruct e; simpl; try exact IH; constructor; exact IH.
Qed.

Lemma interleave_nil_l {A} (l2 l : list A) : interleave [] l2 l -> l = l2.
Proof.
  remember [] as l1 eqn:E. induction 1; [reflexivity|discriminate|].
  f_equal. auto.
Qed.

Lemma interleave_nil_r {A} (l1 l : list A) : interleave l1 [] l -> l = l1.
Proof.
  remember [] as l2 eqn:E. induction 1; [reflexivity| |discriminate].
  f_equal. auto.
Qed.

Lemma interleave_singletons {A} (x : A) l : interleave [x] [x] l -> l = [x; x].
Proof.
  inversion 1 as [|? ? ? ? H1|? ? ? ? H1]; subst.
  - apply interleave_nil_l in H1. subst. reflexivity.
  - apply interleave_nil_r in H1. subst. reflexivity.
Qed.

(** The two deliveries can run one after the other ... *)
Lemma interleave_app {A} (l1 l2 : list A) : interleave l1 l2 (l1 ++ l2).
Proof.
  induction l1 as [|x l1 IH]; simpl.
  - induction l2 as [|y l2 IH]; constructor; exact IH.
  - constructor. exact IH.
Qed.

(** ... and a merge keeps every step of both. *)
Lemma interleave_length {A} (l1 l2 l : list A) :
  interleave l1 l2 l -> length l = (length l1 + length l2)%nat.
Proof. induction 1; simpl; lia. Qed.

Lemma entered_app t1 t2 : entered (t1 ++ t2) = entered t1 ++ entered t2.
Proof. apply omap_app. Qed.

Lemma entered_info pre : Forall is_info pre -> entered pre = [].
Proof.
  induction 1 as [|e t He _ IH]; [reflexivity|].
  destruct e as [[] ? ?| | | | | | | | |]; try destruct He. exact IH.
Qed.

End RunFacts.

(* ===================================================================== *)
(** * Facts about webhook.js *)
(* ===================================================================== *)

Module WebhookFacts.
Import JS Run Trace RunFacts Webhook WebhookSpec Scenario.

Ltac webhook_appends :=
  repeat (appends_step; try exact I).

Lemma handler_appends d req : appends webhook_effect (handler d req).
Proof.
  unfold handler, verify, dispatch, data_object, buffer, stripe_webhooks_constructEvent,
    handlePaymentSuccess, handlePaymentFailed, handleSubscriptionCreated,
    handleSubscriptionUpdated, handleSubscriptionCancelled, handleInvoicePayment,
    handleInvoicePaymentFailed, console_log, console_error,
    res_status, res_send, res_json, res_end.
  webhook_appends.
Qed.

(** ** The per-type functions *)

Ltac close_run :=
  unfold with_trace; simpl; rewrite <- ?app_assoc; simpl;
  eexists; split; [reflexivity|]; unfold closing; simpl; eauto.

(** Whatever the payload, a per-type function returns normally, leaves the
    response alone and logs how it ended. *)
Lemma run_handler_total d h payload s :
  exists last,
    run_handler d h payload s
    = (with_trace s [Enter h payload; Console LogInfo (intro_line h) []; last], Ret tt)
    /\ closing h last.
Proof.
  destruct h; simpl;
    unfold handlePaymentSuccess, handlePaymentFailed, handleSubscriptionCreated,
      handleSubscriptionUpdated, handleSubscriptionCancelled, handleInvoicePayment,
      handleInvoicePaymentFailed, bind, try_catch, lift, ret, console_log, console_error,
      emit; simpl; run_cases; close_run.
Qed.

(** ** Verified events *)

Lemma dispatch_recognized d event type object h s :
  envelope event type object ->
  classify type = Some h ->
  exists pre last,
    dispatch d event (VStr type) s
    = (with_trace s (pre ++ [Enter h (VObj object); Console LogInfo (intro_line h) []; last]),
       Ret tt)
    /\ Forall is_info pre /\ closing h last.
Proof.
  intros (Htype & data & Hdata & Hobject) Hclass.
  unfold dispatch, classify, is_str in *.
  repeat match type of Hclass with
         | (if ?b then _ else _) = _ => destruct b
         end; try discriminate Hclass; injection Hclass as <-;
    unfold data_object, bind, lift, console_log, emit; rewrite Hdata, Hobject; simpl;
    repeat match goal with
           | |- context [get_opt ?v ?k] =>
               let x := fresh "x" in
               let E := fresh "E" in
               destruct (get_opt_total v k) as [x E]; rewrite E; clear E; simpl
           end;
    match goal with
    | |- exists pre last, ?f ?p ?s0 = (with_trace _ (_ ++ Enter ?h _ :: _), _) /\ _ =>
        let last := fresh "last" in
        let E := fresh "E" in
        let C := fresh "C" in
        destruct (run_handler_total d h p s0) as (last & E & C);
        cbn [run_handler] in E; unfold with_trace in E; simpl in E;
        rewrite <- ?app_assoc in E; simpl in E;
        match type of E with
        | _ = (State (trace s ++ ?l) _ _ _, _) =>
            let pre := eval simpl in (before_enter l) in
            exists pre, last;
            split; [unfold with_trace; simpl; rewrite <- ?app_assoc; simpl; exact E|];
            split; [repeat constructor | exact C]
        end
    end.
Qed.

Lemma dispatch_unrecognized d event type s :
  get_prop event "type" = Ret (VStr type) ->
  classify type = None ->
  dispatch d event (VStr type) s
  = (with_trace s [Console LogInfo ("ℹ️ Unhandled event type: " +:+ type) []], Ret tt).
Proof.
  intros Htype Hclass.
  unfold dispatch, classify, is_str in *.
  repeat match type of Hclass with
         | (if ?b then _ else _) = _ => destruct b
         end; try discriminate Hclass.
  unfold bind, lift. rewrite Htype. reflexivity.
Qed.

(** What [process] does to an event with a string type: two log lines,
    the [switch], the acknowledgement. *)
Lemma process_run d event type s :
  get_prop event "type" = Ret (VStr type) ->
  (classify type = None \/ exists object, envelope event type object) ->
  exists data t,
    get_prop event "data" = Ret data /\
    process d event s
    = (State (trace s ++
              [Console LogInfo "📨 Processing webhook event:" [VStr type];
               Console LogInfo "Event data:" [JSON_stringify (rt d) data]] ++ t)
         (Response (statusCode (res s)) (headers (res s)) (BodyJson (ack (VStr type))))
         (heap s) (ticks s), Ret tt) /\
    match classify type with
    | None => t = [Console LogInfo ("ℹ️ Unhandled event type: " +:+ type) []]
    | Some h =>
        forall object, envelope event type object ->
        exists pre last,
          t = pre ++ [Enter h (VObj object); Console LogInfo (intro_line h) []; last]
          /\ Forall is_info pre /\ closing h last
    end.
Proof.
  intros Htype Hcase.
  destruct (get_prop_defined _ _ _ "data" Htype) as [data Hdata].
  exists data.
  unfold process, bind, lift, console_log, emit, res_json, update_res.
  rewrite Htype, Hdata. simpl.
  destruct (classify type) as [h|] eqn:Hclass.
  - destruct Hcase as [?|[object Henv]]; [discriminate|].
    match goal with
    | |- context [dispatch d event (VStr type) ?s0] =>
        destruct (dispatch_recognized d event type object h s0 Henv Hclass)
          as (pre & last & E & Hpre & Hlast)
    end.
    rewrite E. unfold with_trace. simpl.
    exists (pre ++ [Enter h (VObj object); Console LogInfo (intro_line h) []; last]).
    split; [reflexivity|].
    split; [rewrite <- !app_assoc; reflexivity|].
    intros object' (_ & data' & Hdata' & Hobject').
    destruct Henv as (_ & data'' & Hdata'' & Hobject'').
    assert (data' = data'') by congruence. subst data''.
    assert (object' = object) by congruence. subst object'.
    eauto.
  - rewrite (dispatch_unrecognized d event type _ Htype Hclass).
    unfold with_trace. simpl. eexists. split; [reflexivity|].
    split; [|reflexivity].
    rewrite <- !app_assoc. reflexivity.
Qed.

(** The whole handler on a verified request. *)
Lemma handler_verified d req event type :
  verified d req event ->
  get_prop event "type" = Ret (VStr type) ->
  (classify type = None \/ exists object, envelope event type object) ->
  exists buf data t,
    raw_body req = Ret buf /\
    get_prop event "data" = Ret data /\
    run (handler d req)
    = (State ([Console LogInfo "🔗 Stripe Webhook called:" [VStr "POST"];
               Buffer;
               ConstructEvent buf (header req "stripe-signature")
                 (of_option (webhookSecret d));
               Console LogInfo "✅ Webhook signature verified:" [VStr type];
               Console LogInfo "📨 Processing webhook event:" [VStr type];
               Console LogInfo "Event data:" [JSON_stringify (rt d) data]] ++ t)
         (Response 200 [] (BodyJson (ack (VStr type)))) ∅ 0, Ret tt) /\
    match classify type with
    | None => t = [Console LogInfo ("ℹ️ Unhandled event type: " +:+ type) []]
    | Some h =>
        forall object, envelope event type object ->
        exists pre last,
          t = pre ++ [Enter h (VObj object); Console LogInfo (intro_line h) []; last]
          /\ Forall is_info pre /\ closing h last
    end.
Proof.
  intros (Hpost & buf & Hbody & Hsig & Hsecret & Hevent) Htype Hcase.
  exists buf.
  unfold run, handler, verify, buffer, stripe_webhooks_constructEvent.
  rewrite Hpost. simpl String.eqb. cbn [negb].
  unfold bind at 1. unfold console_log at 1, emit at 1. cbn [initial trace res heap ticks app].
  unfold try_catch at 1, bind at 1, bind at 1. unfold emit at 1, lift at 1.
  cbn [initial trace res heap ticks app]. rewrite Hbody, Hsig, Hsecret. cbn [negb].
  unfold bind at 1, try_catch at 1, bind at 1, bind at 1, emit at 1, lift at 1.
  cbn [initial trace res heap ticks app]. rewrite Hevent.
  unfold bind at 1, lift at 1. rewrite Htype.
  unfold bind at 1, console_log at 1, emit at 1, ret.
  cbn [initial trace res heap ticks app].
  match goal with
  | |- context [process d event ?s0] =>
      destruct (process_run d event type s0 Htype Hcase) as (data & t & Hdata & E & Ht)
  end.
  exists data, t. split; [reflexivity|]. split; [exact Hdata|].
  rewrite E. split; [reflexivity|exact Ht].
Qed.

(** ** Traces *)

Lemma handler_trace d req : Forall webhook_effect (trace_of (handler d req)).
Proof.
  destruct (handler_appends d req initial) as (t & E & F).
  unfold trace_of, run. rewrite E. exact F.
Qed.

Lemma webhook_no_persistence t :
  Forall webhook_effect t -> sink_calls t = 0%nat /\ store_lookups t = 0%nat.
Proof.
  intros F. split; apply (count_none webhook_effect); try exact F; intros [] H; try reflexivity;
    destruct H.
Qed.

(** ** The claims *)

Lemma verified_response d req event type :
  verified d req event ->
  get_prop event "type" = Ret (VStr type) ->
  (classify type = None \/ exists object, envelope event type object) ->
  acknowledged (response_of (handler d req)) (VStr type) /\
  snd (run (handler d req)) = Ret tt.
Proof.
  intros Hv Ht Hc.
  destruct (handler_verified d req event type Hv Ht Hc) as (buf & data & t & _ & _ & E & _).
  unfold response_of, acknowledged. rewrite E. simpl. auto.
Qed.

Lemma verified_entered d req event type :
  verified d req event ->
  get_prop event "type" = Ret (VStr type) ->
  (classify type = None \/ exists object, envelope event type object) ->
  entered (trace_of (handler d req))
  = match classify type with Some h => [h] | None => [] end.
Proof.
  intros Hv Ht Hc.
  destruct (handler_verified d req event type Hv Ht Hc) as (buf & data & t & _ & _ & E & Hshape).
  unfold trace_of. rewrite E. cbn [fst trace]. rewrite entered_app.
  destruct (classify type) as [h|].
  - destruct Hc as [?|[object Henv]]; [discriminate|].
    destruct (Hshape object Henv) as (pre & last & -> & Hpre & Hlast).
    rewrite entered_app, (entered_info pre Hpre).
    destruct Hlast as [[? ->]|[? ->]]; reflexivity.
  - subst t. reflexivity.
Qed.

(** C1 (counterexample): the handler enters [handlePaymentSuccess] for
    [evt_1] without any lookup in a processed-event store, on the first
    delivery as on the second. *)
Lemma no_store_consulted :
  ~ idempotent_delivery (accepting evt_1) signed_delivery signed_delivery.
Proof.
  intros (_ & _ & _ & Hstore & _).
  destruct (Hstore 9%nat HPaymentSuccess (VObj pi_1)) as (j & eventId & _ & Hj).
  { vm_compute. reflexivity. }
  pose proof (handler_trace (accepting evt_1) signed_delivery) as F.
  rewrite Forall_lookup in F. specialize (F j _ Hj). exact F.
Qed.

(** C1 (amended): every verified event is acknowledged with 200 on each
    of two deliveries, and however the two runs interleave they make no call
    to the persistence sink and no lookup in a processed-event store; an
    event of a recognized type has its per-type function run once per
    delivery, twice in all. *)
Theorem redelivery_acknowledged_not_deduplicated d req1 req2 event type object :
  verified d req1 event ->
  verified d req2 event ->
  envelope event type object ->
  acknowledged (response_of (handler d req1)) (VStr type) /\
  acknowledged (response_of (handler d req2)) (VStr type) /\
  forall t,
    interleave (trace_of (handler d req1)) (trace_of (handler d req2)) t ->
    sink_calls t = 0%nat /\
    store_lookups t = 0%nat /\
    entered t = match classify type with Some h => [h; h] | None => [] end.
Proof.
  intros Hv1 Hv2 Henv.
  assert (Htype : get_prop event "type" = Ret (VStr type)) by apply Henv.
  assert (Hcase : classify type = None \/ exists object, envelope event type object)
    by eauto.
  split; [apply (verified_response d req1 event type Hv1 Htype Hcase)|].
  split; [apply (verified_response d req2 event type Hv2 Htype Hcase)|].
  intros t Ht.
  pose proof (interleave_Forall _ _ _ _ Ht (handler_trace d req1) (handler_trace d req2))
    as F.
  destruct (webhook_no_persistence t F) as [Hsink Hstore].
  split; [exact Hsink|]. split; [exact Hstore|].
  apply interleave_entered in Ht.
  rewrite (verified_entered d req1 event type Hv1 Htype Hcase) in Ht.
  rewrite (verified_entered d req2 event type Hv2 Htype Hcase) in Ht.
  destruct (classify type) as [h|].
  - apply interleave_singletons. exact Ht.
  - apply interleave_nil_l in Ht. exact Ht.
Qed.

Lemma verified_signed event : verified (accepting event) signed_delivery event.
Proof. split; [reflexivity|]. exists "{}". repeat split; reflexivity. Qed.

Lemma redelivery_witness :
  verified (accepting evt_1) signed_delivery evt_1 /\
  envelope evt_1 "payment_intent.succeeded" pi_1 /\
  acknowledged (response_of (handler (accepting evt_1) signed_delivery))
    (VStr "payment_intent.succeeded") /\
  forall t,
    interleave (trace_of (handler (accepting evt_1) signed_delivery))
               (trace_of (handler (accepting evt_1) signed_delivery)) t ->
    entered t = [HPaymentSuccess; HPaymentSuccess].
Proof.
  assert (Hv : verified (accepting evt_1) signed_delivery evt_1)
    by apply verified_signed.
  assert (He : envelope evt_1 "payment_intent.succeeded" pi_1).
  { split; [reflexivity|]. eexists. split; reflexivity. }
  split; [exact Hv|]. split; [exact He|].
  destruct (redelivery_acknowledged_not_deduplicated _ _ _ _ _ _ Hv Hv He)
    as (Hack & _ & Hall).
  split; [exact Hack|]. intros t Ht. apply (Hall t Ht).
Defined.


(** C6: a verified event whose type is outside the recognized set is
    answered 200 with the acknowledgement body; the handler logs the type as
    unhandled, logs no error, enters no per-type function and makes no call
    to the persistence sink. *)
Theorem unrecognized_type_acknowledged d req event type :
  verified d req event ->
  get_prop event "type" = Ret (VStr type) ->
  classify type = None ->
  acknowledged (response_of (handler d req)) (VStr type) /\
  sink_calls (trace_of (handler d req)) = 0%nat /\
  entered (trace_of (handler d req)) = [] /\
  count is_error_log (trace_of (handler d req)) = 0%nat /\
  last (trace_of (handler d req))
  = Some (Console LogInfo ("ℹ️ Unhandled event type: " +:+ type) []).
Proof.
  intros Hv Htype Hclass.
  assert (Hcase : classify type = None \/ exists object, envelope event type object)
    by auto.
  destruct (handler_verified d req event type Hv Htype Hcase)
    as (buf & data & t & _ & _ & E & Hshape).
  rewrite Hclass in Hshape. subst t.
  unfold response_of, trace_of, acknowledged. rewrite E. cbn [fst res trace].
  repeat split; reflexivity.
Qed.

Lemma unrecognized_type_witness :
  verified (accepting evt_3) signed_delivery evt_3 /\
  get_prop evt_3 "type" = Ret (VStr "charge.refunded") /\
  classify "charge.refunded" = None /\
  acknowledged (response_of (handler (accepting evt_3) signed_delivery))
    (VStr "charge.refunded") /\
  sink_calls (trace_of (handler (accepting evt_3) signed_delivery)) = 0%nat.
Proof.
  assert (Hv : verified (accepting evt_3) signed_delivery evt_3)
    by apply verified_signed.
  assert (Ht : get_prop evt_3 "type" = Ret (VStr "charge.refunded")) by reflexivity.
  assert (Hc : classify "charge.refunded" = None) by reflexivity.
  split; [exact Hv|]. split; [exact Ht|]. split; [exact Hc|].
  destruct (unrecognized_type_acknowledged _ _ _ _ Hv Ht Hc) as (Hack & Hsink & _).
  split; [exact Hack|exact Hsink].
Defined.

(** C5: a request without the signature header is never answered 200,
    reaches neither signature verification nor a per-type function, and
    makes no call to the persistence sink; when it is a POST whose body
    arrived, the answer is 400 with the text [Missing Stripe signature]. *)
Theorem missing_signature_rejected d req :
  req_headers req !! "stripe-signature" = None ->
  statusCode (response_of (handler d req)) <> 200 /\
  sink_calls (trace_of (handler d req)) = 0%nat /\
  verifications (trace_of (handler d req)) = 0%nat /\
  entered (trace_of (handler d req)) = [] /\
  (method req = "POST" ->
   forall buf, raw_body req = Ret buf ->
     statusCode (response_of (handler d req)) = 400 /\
     sent (response_of (handler d req)) = BodyText "Missing Stripe signature").
Proof.
  intros Hsig.
  unfold response_of, trace_of, run, handler, buffer, header.
  rewrite Hsig.
  destruct (String.eqb_spec (method req) "POST") as [Hpost|Hother].
  - destruct (raw_body req) as [buf|e] eqn:Hbody; cbn.
    + repeat split; discriminate.
    + repeat split; discriminate.
  - cbn. repeat split; first [discriminate | contradiction].
Qed.

Lemma missing_signature_witness :
  req_headers unsigned_delivery !! "stripe-signature" = None /\
  statusCode (response_of (handler (accepting evt_1) unsigned_delivery)) = 400 /\
  sink_calls (trace_of (handler (accepting evt_1) unsigned_delivery)) = 0%nat.
Proof.
  assert (Hsig : req_headers unsigned_delivery !! "stripe-signature" = None)
    by reflexivity.
  split; [exact Hsig|].
  destruct (missing_signature_rejected (accepting evt_1) unsigned_delivery Hsig)
    as (_ & Hsink & _ & _ & Hpost).
  split; [|exact Hsink].
  apply (Hpost eq_refl "{}" eq_refl).
Defined.

(** C3 (counterexample): with no signing secret configured, a signed
    delivery is answered 500. *)
Lemma unconfigured_secret_is_500 :
  ~ authentication_failure (response_of (handler unconfigured signed_delivery)).
Proof.
  intros [[_ Hlt] _]. vm_compute in Hlt. discriminate Hlt.
Qed.

(** C3 (amended): when no signing secret is configured, a POST whose body
    arrived and that carries a signature header is answered 500 with the
    text [Webhook secret not configured]; without the header the answer is
    the 400 of the missing signature.  Either way verification is not
    attempted and the persistence sink is not called. *)
Theorem missing_secret_rejected d req buf :
  method req = "POST" ->
  raw_body req = Ret buf ->
  webhookSecret d = None ->
  verifications (trace_of (handler d req)) = 0%nat /\
  sink_calls (trace_of (handler d req)) = 0%nat /\
  sent (response_of (handler d req))
  = BodyText (if truthy (header req "stripe-signature")
              then "Webhook secret not configured" else "Missing Stripe signature") /\
  statusCode (response_of (handler d req))
  = (if truthy (header req "stripe-signature") then 500 else 400).
Proof.
  intros Hpost Hbody Hsecret.
  unfold response_of, trace_of, run, handler, buffer.
  rewrite Hpost, Hbody, Hsecret.
  destruct (truthy (header req "stripe-signature")); cbn; repeat split; reflexivity.
Qed.

Lemma missing_secret_witness :
  method signed_delivery = "POST" /\
  raw_body signed_delivery = Ret "{}" /\
  webhookSecret unconfigured = None /\
  statusCode (response_of (handler unconfigured signed_delivery)) = 500 /\
  sent (response_of (handler unconfigured signed_delivery))
  = BodyText "Webhook secret not configured".
Proof.
  split; [reflexivity|]. split; [reflexivity|]. split; [reflexivity|].
  destruct (missing_secret_rejected unconfigured signed_delivery "{}"
              eq_refl eq_refl eq_refl) as (_ & _ & Hsent & Hstatus).
  split; [exact Hstatus|exact Hsent].
Defined.

(** The whole trace of one delivery of [evt_1], to read against the
    handler's source. *)
Example evt_1_trace :
  trace_of (handler (accepting evt_1) signed_delivery)
  = [Console LogInfo "🔗 Stripe Webhook called:" [VStr "POST"];
     Buffer;
     ConstructEvent "{}" (VStr "t=1706695200,v1=5257a869") (VStr "whsec_test");
     Console LogInfo "✅ Webhook signature verified:" [VStr "payment_intent.succeeded"];
     Console LogInfo "📨 Processing webhook event:" [VStr "payment_intent.succeeded"];
     Console LogInfo "Event data:" [VStr "{...}"];
     Console LogInfo "🎉 Payment succeeded:" [VStr "pi_1"];
     Console LogInfo "Customer:" [VStr "cus_1"];
     Console LogInfo "Amount:" [VNum 999; VStr "usd"];
     Enter HPaymentSuccess (VObj pi_1);
     Console LogInfo "🎯 Processing successful payment..." [];
     Console LogInfo "📊 Payment success details:"
       [obj [("paymentIntentId", VStr "pi_1"); ("customerId", VStr "cus_1");
             ("amount", VNum 999); ("currency", VStr "usd");
             ("planType", VStr "monthly"); ("customerName", VStr "IELTS Student");
             ("userCountry", VStr "Unknown")]]].
Proof. vm_compute. reflexivity. Qed.

(** ** What the handler does with the verifier's verdict *)

(** A delivery that [constructEvent] refuses is answered 400 with the
    SDK's message; no per-type function runs. *)
Lemma verification_failure_rejected d req buf err :
  method req = "POST" ->
  raw_body req = Ret buf ->
  truthy (header req "stripe-signature") = true ->
  truthy (of_option (webhookSecret d)) = true ->
  constructEvent d buf (header req "stripe-signature") (of_option (webhookSecret d))
  = Throw err ->
  statusCode (response_of (handler d req)) = 400 /\
  sent (response_of (handler d req)) = BodyText ("Webhook Error: " +:+ exn_message err) /\
  entered (trace_of (handler d req)) = [] /\
  sink_calls (trace_of (handler d req)) = 0%nat.
Proof.
  intros Hpost Hbody Hsig Hsecret Hevent.
  unfold response_of, trace_of, run, handler, verify, buffer,
    stripe_webhooks_constructEvent.
  rewrite Hpost. cbn [String.eqb Ascii.eqb Bool.eqb negb].
  unfold try_catch, bind, lift, console_log, emit, ret, res_status, res_send, update_res.
  cbn [initial trace res heap ticks app fst snd].
  rewrite Hbody, Hsig, Hsecret. cbn [negb]. rewrite Hevent.
  repeat split; reflexivity.
Qed.

Example refused_delivery :
  statusCode (response_of (handler refusing signed_delivery)) = 400 /\
  sent (response_of (handler refusing signed_delivery))
  = BodyText "Webhook Error: No signatures found matching the expected signature for payload.".
Proof. split; vm_compute; reflexivity. Qed.

(** A payload signed with the endpoint's secret that is no event envelope
    ([data.object] is missing) ends in the outer [catch]. *)
Example malformed_payload :
  statusCode (response_of (handler (accepting evt_malformed) signed_delivery)) = 500 /\
  sent (response_of (handler (accepting evt_malformed) signed_delivery))
  = BodyText "Webhook processing failed".
Proof. split; vm_compute; reflexivity. Qed.

End WebhookFacts.



(* ===================================================================== *)
(** * Facts about create-payment-intent.js *)
(* ===================================================================== *)

Module PaymentIntentFacts.
Import JS Run Trace RunFacts PaymentIntent PaymentIntentSpec Scenario.

Lemma handler_entry d req :
  run (handler d req)
  = (if String.eqb (method req) "OPTIONS" then
       bind (console_log "✅ Handling OPTIONS preflight request" [])
            (fun _ => bind (res_status 200) (fun _ => res_end))
     else if negb (String.eqb (method req) "POST") then
       bind (console_log "❌ Method not allowed:" [VStr (method req)])
            (fun _ => bind (res_status 405)
               (fun _ => res_json (obj [("error", VStr "Method not allowed")])))
     else try_catch (process d req) on_error) (entry req).
Proof.
  unfold run, handler, cors, entry, cors_headers, header, includes.
  destruct (req_headers req !! "origin") as [origin|]; [|reflexivity].
  cbn [truthy].
  destruct (existsb (String.eqb origin) allowedOrigins); [reflexivity|].
  destruct (String.eqb origin ""); reflexivity.
Qed.

Lemma on_error_run e s :
  on_error e s
  = (State (trace s ++ [Console LogError "❌ Payment processing error:" [exn_value e]])
       (Response (error_status e) (headers (res s)) (BodyJson (error_body e)))
       (heap s) (ticks s), Ret tt).
Proof.
  unfold on_error, error_status, error_body, bind, console_error, emit, res_status,
    res_json, update_res.
  cbn [trace res heap ticks statusCode headers sent].
  destruct (is_str (exn_type e) "StripeCardError"); [reflexivity|].
  destruct (is_str (exn_type e) "StripeInvalidRequestError"); reflexivity.
Qed.

Lemma destructure_get v k x k' : get_prop v k = Ret x -> destructure v k' = get_prop v k'.
Proof. destruct v; simpl; intros; try discriminate; reflexivity. Qed.

(** X30: a POST whose body was parsed ([req.body] is neither undefined nor
    null) and lacks one of the required fields [amount], [currency],
    [payment_method_id], [customer_email] (or carries a falsy value for it:
    null, false, 0, the empty string) is answered 400 with the validation
    message, and no call to Stripe has been made. *)
Theorem missing_field_rejected d req k v :
  method req = "POST" ->
  k ∈ required_fields ->
  get_prop (req_body req) k = Ret v ->
  truthy v = false ->
  statusCode (response_of (handler d req)) = 400 /\
  sent (response_of (handler d req)) = BodyJson validation_error /\
  vendor_calls (trace_of (handler d req)) = 0%nat /\
  snd (run (handler d req)) = Ret tt.
Proof.
  intros Hpost Hk Hget Hfalsy.
  unfold response_of, trace_of. rewrite handler_entry, Hpost. cbn [String.eqb Ascii.eqb Bool.eqb negb].
  unfold try_catch, process, bind, lift, console_log, emit.
  rewrite !(destructure_get _ _ _ _ Hget).
  destruct (get_prop_defined _ _ _ "amount" Hget) as [amount Ha].
  destruct (get_prop_defined _ _ _ "currency" Hget) as [currency Hc].
  destruct (get_prop_defined _ _ _ "payment_method_id" Hget) as [payment_method_id Hp].
  destruct (get_prop_defined _ _ _ "customer_name" Hget) as [customer_name Hn].
  destruct (get_prop_defined _ _ _ "customer_email" Hget) as [customer_email He].
  destruct (get_prop_defined _ _ _ "plan_type" Hget) as [plan_type Hpt].
  destruct (get_prop_defined _ _ _ "user_country" Hget) as [user_country Hu].
  rewrite Ha, Hc, Hp, Hn, He, Hpt, Hu.
  assert (Hinvalid : negb (truthy amount) || negb (truthy currency)
                     || negb (truthy payment_method_id) || negb (truthy customer_email)
                     = true).
  { unfold required_fields in Hk.
    repeat (apply elem_of_cons in Hk; destruct Hk as [->|Hk]);
      [ assert (amount = v) by congruence
      | assert (currency = v) by congruence
      | assert (payment_method_id = v) by congruence
      | assert (customer_email = v) by congruence
      | apply elem_of_nil in Hk; destruct Hk ];
      subst v; rewrite Hfalsy; cbn [negb];
      rewrite ?orb_true_r, ?orb_true_l; reflexivity. }
  rewrite Hinvalid. cbn. repeat split; reflexivity.
Qed.

Lemma calculateEndDate_appends rt startDate planType :
  appends is_log (calculateEndDate rt startDate planType).
Proof.
  unfold calculateEndDate, Date_getDate, Date_setDate, console_log.
  apply appends_bind; [intros s; exists []; rewrite app_nil_r; unfold getTime;
                       destruct (heap s !! startDate); simpl; auto|].
  intros tv. apply appends_bind; [intros s; exists []; rewrite app_nil_r; simpl; auto|].
  intros endDate.
  assert (Hget : appends is_log (getTime endDate)).
  { intros s; exists []; rewrite app_nil_r; unfold getTime;
      destruct (heap s !! endDate); simpl; auto. }
  assert (Hset : forall tv', appends is_log (setTimeValue endDate tv')).
  { intros tv' s; exists []; rewrite app_nil_r; simpl; auto. }
  repeat (appends_step; try exact I; auto).
Qed.

(** What follows the call of [stripe.paymentIntents.create] only logs. *)
Lemma respond_appends d plan_type customer paymentIntent :
  appends is_log (respond d plan_type customer paymentIntent).
Proof.
  assert (Hget : forall r, appends is_log (getTime r)).
  { intros r s; exists []; rewrite app_nil_r; unfold getTime;
      destruct (heap s !! r); simpl; auto. }
  assert (Hnow : appends is_log (new_Date_now (rt d))).
  { intros s; exists []; rewrite app_nil_r; simpl; auto. }
  unfold respond, Date_toISOString, console_log, res_status, res_json.
  repeat (appends_step; try exact I; auto using calculateEndDate_appends).
Qed.

Lemma on_error_appends e : appends is_log (on_error e).
Proof.
  intros s. rewrite on_error_run. simpl. eexists. split; [reflexivity|].
  repeat constructor.
Qed.

Lemma respond_three_d_secure d plan_type customer pi s :
  pi_status pi = "requires_action" \/ pi_status pi = "requires_source_action" ->
  respond d plan_type customer pi s
  = (State (trace s ++ [Console LogInfo "🔐 Payment requires 3D Secure authentication" []])
       (Response 200 (headers (res s))
          (BodyJson
             (obj [("success", VBool false);
                   ("requires_action", VBool true);
                   ("payment_intent",
                     obj [("id", VStr (pi_id pi));
                          ("client_secret", pi_client_secret pi);
                          ("status", VStr (pi_status pi))]);
                   ("message", VStr "3D Secure authentication required")])))
       (heap s) (ticks s), Ret tt).
Proof.
  intros Hstatus. unfold respond.
  destruct Hstatus as [Hs|Hs]; rewrite Hs; reflexivity.
Qed.

Lemma tail_appends d plan_type customer (o : outcome payment_intent) :
  appends is_log
    (try_catch
       (bind (lift o)
          (fun paymentIntent =>
             bind (console_log "📊 Payment Intent created:"
                     [obj [("id", VStr (pi_id paymentIntent));
                           ("status", VStr (pi_status paymentIntent));
                           ("amount", pi_amount paymentIntent);
                           ("currency", pi_currency paymentIntent)]])
               (fun _ => respond d plan_type customer paymentIntent)))
       on_error).
Proof.
  apply appends_try_catch; [|apply on_error_appends].
  apply appends_bind; [apply appends_lift|]. intros pi.
  apply appends_bind; [apply appends_emit; exact I|]. intros _.
  apply respond_appends.
Qed.

(** A leaf of the walk: the run has ended in [on_error] or in a response,
    and the trace is explicit. *)
Ltac leaf H :=
  rewrite ?on_error_run in H; unfold try_catch, bind, emit, update_res, ret, add in H;
  cbn in H; inv_mem H.

(** The handler's run, seen from the call of [stripe.paymentIntents.create]:
    the SDK's answer decides the rest. *)
Lemma created_inversion d req p :
  PaymentIntentsCreate p ∈ trace_of (handler d req) ->
  exists s plan_type customer,
    headers (res s) = cors_headers req /\
    statusCode (res s) = 200 /\
    run (handler d req)
    = try_catch
        (bind (lift (paymentIntents_create d p))
           (fun paymentIntent =>
              bind (console_log "📊 Payment Intent created:"
                      [obj [("id", VStr (pi_id paymentIntent));
                            ("status", VStr (pi_status paymentIntent));
                            ("amount", pi_amount paymentIntent);
                            ("currency", pi_currency paymentIntent)]])
                (fun _ => respond d plan_type customer paymentIntent)))
        on_error s.
Proof.
  unfold trace_of. rewrite handler_entry.
  destruct (String.eqb (method req) "OPTIONS"); [intros H; cbn in H; inv_mem H|].
  destruct (String.eqb (method req) "POST"); [|intros H; cbn in H; inv_mem H].
  cbn [negb].
  unfold process, console_log, res_status, res_json, stripe_customers_list,
    stripe_customers_create, stripe_paymentIntents_create.
  walk.
  repeat (rewrite try_bind_lift;
          destruct (destructure (req_body req) _) as [?|?]; [|intros H; leaf H]).
  match goal with |- context [if ?b then _ else _] => destruct b end;
    [intros H; leaf H|].
  walk. rewrite try_bind_lift.
  destruct (customers_list d _) as [existingCustomers|?]; [|intros H; leaf H].
  destruct existingCustomers as [|found ?]; walk.
  - rewrite try_bind_lift.
    destruct (customers_create d _) as [created|?]; [|intros H; leaf H].
    walk. rewrite try_bind_lift.
    destruct (parseInt (rt d) _) as [amount'|?]; [|intros H; leaf H].
    rewrite try_bind_lift.
    destruct (call_toLowerCase (rt d) _) as [currency'|?]; [|intros H; leaf H].
    walk. intros H.
    eapply (appends_elem_of is_log) in H; [|apply tail_appends|intros []].
    unfold add in H. cbn in H. inv_mem H. injection H as ->.
    eexists _, _, _. split; [|split; [|reflexivity]]; reflexivity.
  - rewrite try_bind_lift.
    destruct (parseInt (rt d) _) as [amount'|?]; [|intros H; leaf H].
    rewrite try_bind_lift.
    destruct (call_toLowerCase (rt d) _) as [currency'|?]; [|intros H; leaf H].
    walk. intros H.
    eapply (appends_elem_of is_log) in H; [|apply tail_appends|intros []].
    unfold add in H. cbn in H. inv_mem H. injection H as ->.
    eexists _, _, _. split; [|split; [|reflexivity]]; reflexivity.
Qed.

(** C10: when Stripe creates the payment intent and leaves it in status
    [requires_action] or [requires_source_action], the handler answers 200
    with [success: false], [requires_action: true] and the intent's id,
    client secret and status. *)
Theorem three_d_secure_response d req p pi :
  PaymentIntentsCreate p ∈ trace_of (handler d req) ->
  paymentIntents_create d p = Ret pi ->
  pi_status pi = "requires_action" \/ pi_status pi = "requires_source_action" ->
  statusCode (response_of (handler d req)) = 200 /\
  sent (response_of (handler d req))
  = BodyJson
      (obj [("success", VBool false);
            ("requires_action", VBool true);
            ("payment_intent",
              obj [("id", VStr (pi_id pi));
                   ("client_secret", pi_client_secret pi);
                   ("status", VStr (pi_status pi))]);
            ("message", VStr "3D Secure authentication required")]) /\
  snd (run (handler d req)) = Ret tt.
Proof.
  intros Hcall Hcreated Hstatus.
  destruct (created_inversion d req p Hcall) as (s & plan_type & customer & _ & _ & E).
  unfold response_of. rewrite E, try_bind_lift, Hcreated.
  unfold console_log. rewrite try_bind_emit.
  unfold try_catch. rewrite (respond_three_d_secure _ _ _ _ _ Hstatus).
  repeat split; reflexivity.
Qed.

Lemma rejected_not_log d c e : rejected_by d c = Some e -> ~ is_log c.
Proof. destruct c; simpl; intros H; try discriminate H; intros []. Qed.

(** At a leaf of the walk: [H] lists the trace, [Hrej] says which call was
    rejected; every call but a rejected last one has an answer on record. *)
Ltac settle H Hrej :=
  rewrite ?on_error_run in H; unfold try_catch, bind, emit, update_res, ret, add in H;
  cbn in H;
  repeat (apply elem_of_cons in H; destruct H as [H|H];
          [ subst; cbn [rejected_by] in Hrej;
            repeat match goal with
                   | E : customers_list _ _ = _ |- _ => rewrite E in Hrej
                   | E : customers_create _ _ = _ |- _ => rewrite E in Hrej
                   | E : paymentIntents_create _ _ = _ |- _ => rewrite E in Hrej
                   end;
            first [ discriminate Hrej
                  | injection Hrej as <-; eexists; split; [|reflexivity]; reflexivity ]
          | ]);
  try (apply elem_of_nil in H; destruct H).

(** The run of a handler whose Stripe call [c] was rejected with [e] ends
    in the [catch] block with that error. *)
Lemma rejected_inversion d req c e :
  c ∈ trace_of (handler d req) ->
  rejected_by d c = Some e ->
  exists s, headers (res s) = cors_headers req /\ run (handler d req) = on_error e s.
Proof.
  unfold trace_of. rewrite handler_entry.
  destruct (String.eqb (method req) "OPTIONS"); [intros H Hrej; settle H Hrej|].
  destruct (String.eqb (method req) "POST"); [|intros H Hrej; settle H Hrej].
  cbn [negb].
  unfold process, console_log, res_status, res_json, stripe_customers_list,
    stripe_customers_create, stripe_paymentIntents_create.
  walk.
  repeat (rewrite try_bind_lift;
          destruct (destructure (req_body req) _) as [?|?];
          [|intros H Hrej; settle H Hrej]).
  match goal with |- context [if ?b then _ else _] => destruct b end;
    [intros H Hrej; settle H Hrej|].
  walk. rewrite try_bind_lift.
  destruct (customers_list d _) as [existingCustomers|?] eqn:El;
    [|intros H Hrej; settle H Hrej].
  destruct existingCustomers as [|found ?]; walk.
  - rewrite try_bind_lift.
    destruct (customers_create d _) as [created|?] eqn:Ec;
      [|intros H Hrej; settle H Hrej].
    walk. rewrite try_bind_lift.
    destruct (parseInt (rt d) _) as [amount'|?]; [|intros H Hrej; settle H Hrej].
    rewrite try_bind_lift.
    destruct (call_toLowerCase (rt d) _) as [currency'|?];
      [|intros H Hrej; settle H Hrej].
    walk. rewrite try_bind_lift.
    destruct (paymentIntents_create d _) as [paymentIntent|?] eqn:Ep;
      [|intros H Hrej; settle H Hrej].
    walk. intros H Hrej.
    eapply (appends_elem_of is_log) in H;
      [ | apply appends_try_catch; [apply respond_appends|apply on_error_appends]
        | exact (rejected_not_log _ _ _ Hrej) ].
    settle H Hrej.
  - rewrite try_bind_lift.
    destruct (parseInt (rt d) _) as [amount'|?]; [|intros H Hrej; settle H Hrej].
    rewrite try_bind_lift.
    destruct (call_toLowerCase (rt d) _) as [currency'|?];
      [|intros H Hrej; settle H Hrej].
    walk. rewrite try_bind_lift.
    destruct (paymentIntents_create d _) as [paymentIntent|?] eqn:Ep;
      [|intros H Hrej; settle H Hrej].
    walk. intros H Hrej.
    eapply (appends_elem_of is_log) in H;
      [ | apply appends_try_catch; [apply respond_appends|apply on_error_appends]
        | exact (rejected_not_log _ _ _ Hrej) ].
    settle H Hrej.
Qed.

(** C8 (amended): when Stripe rejects a call of the handler, the answer
    depends on the error's [type] alone.  A [StripeCardError] is answered 400
    with Stripe's own message and type [card_error]; a
    [StripeInvalidRequestError] is answered 400 with the fixed message
    [Invalid payment request] and type [invalid_request]; every other error
    is answered 500 with the fixed message [Payment processing failed] and
    type [server_error]. *)
Theorem vendor_rejection_classified d req c e :
  c ∈ trace_of (handler d req) ->
  rejected_by d c = Some e ->
  (exn_type e = VStr "StripeCardError" ->
   statusCode (response_of (handler d req)) = 400 /\
   sent (response_of (handler d req))
   = BodyJson (obj [("success", VBool false); ("error", VStr (exn_message e));
                    ("type", VStr "card_error")])) /\
  (exn_type e = VStr "StripeInvalidRequestError" ->
   statusCode (response_of (handler d req)) = 400 /\
   sent (response_of (handler d req))
   = BodyJson (obj [("success", VBool false); ("error", VStr "Invalid payment request");
                    ("type", VStr "invalid_request")])) /\
  (is_str (exn_type e) "StripeCardError" = false ->
   is_str (exn_type e) "StripeInvalidRequestError" = false ->
   statusCode (response_of (handler d req)) = 500 /\
   sent (response_of (handler d req))
   = BodyJson (obj [("success", VBool false); ("error", VStr "Payment processing failed");
                    ("type", VStr "server_error")])).
Proof.
  intros Hcall Hrej.
  destruct (rejected_inversion d req c e Hcall Hrej) as (s & _ & E).
  unfold response_of. rewrite E, on_error_run. cbn [fst res statusCode sent].
  unfold error_status, error_body.
  split; [intros ->; split; reflexivity|].
  split; [intros ->; split; reflexivity|].
  intros -> ->. split; reflexivity.
Qed.

(** ** Scenarios of the handler *)

Lemma checkout_then_3ds :
  PaymentIntentsCreate checkout_params
  ∈ trace_of (handler (stripe_answering (Ret pending_3ds)) (post checkout)).
Proof. apply (list_elem_of_lookup_2 _ 7%nat). vm_compute. reflexivity. Qed.

Lemma checkout_then_declined :
  PaymentIntentsCreate checkout_params
  ∈ trace_of (handler (stripe_answering (Throw card_declined)) (post checkout)).
Proof. apply (list_elem_of_lookup_2 _ 7%nat). vm_compute. reflexivity. Qed.

Lemma missing_field_witness :
  method (post checkout_without_email) = "POST" /\
  "customer_email" ∈ required_fields /\
  get_prop (req_body (post checkout_without_email)) "customer_email" = Ret VUndefined /\
  truthy VUndefined = false /\
  statusCode (response_of (handler (stripe_answering (Ret paid))
                             (post checkout_without_email))) = 400 /\
  vendor_calls (trace_of (handler (stripe_answering (Ret paid))
                            (post checkout_without_email))) = 0%nat.
Proof.
  assert (Hk : "customer_email" ∈ required_fields).
  { unfold required_fields. rewrite !elem_of_cons. auto. }
  split; [reflexivity|]. split; [exact Hk|]. split; [reflexivity|]. split; [reflexivity|].
  destruct (missing_field_rejected (stripe_answering (Ret paid))
              (post checkout_without_email) "customer_email" VUndefined
              eq_refl Hk eq_refl eq_refl) as (Hstatus & _ & Hcalls & _).
  split; [exact Hstatus|exact Hcalls].
Defined.

(** C7 (code bug): a POST that Vercel parsed no body for has [req.body]
    undefined and so lacks every required field, yet it is not answered
    with the validation error: the destructuring of [req.body] throws before
    the check of the required fields is reached, and the answer is the 500
    [server_error] of the [catch] block.  No call to Stripe is made. *)
Theorem bodyless_request_is_500 d :
  (forall k, k ∈ required_fields -> lacks (post VUndefined) k) /\
  statusCode (response_of (handler d (post VUndefined))) = 500 /\
  sent (response_of (handler d (post VUndefined)))
  = BodyJson (obj [("success", VBool false); ("error", VStr "Payment processing failed");
                   ("type", VStr "server_error")]) /\
  sent (response_of (handler d (post VUndefined))) <> BodyJson validation_error /\
  vendor_calls (trace_of (handler d (post VUndefined))) = 0%nat.
Proof.
  unfold response_of, trace_of. rewrite handler_entry.
  cbn [method post String.eqb Ascii.eqb Bool.eqb negb].
  unfold process, console_log. walk. rewrite try_bind_lift.
  cbn [req_body post destructure nullish]. rewrite on_error_run.
  cbn [fst res trace statusCode sent].
  split; [intros k _; exact I|].
  split; [reflexivity|]. split; [reflexivity|].
  split; [|reflexivity].
  intros H. vm_compute in H. discriminate H.
Qed.

Lemma three_d_secure_witness :
  PaymentIntentsCreate checkout_params
  ∈ trace_of (handler (stripe_answering (Ret pending_3ds)) (post checkout)) /\
  paymentIntents_create (stripe_answering (Ret pending_3ds)) checkout_params
  = Ret pending_3ds /\
  statusCode (response_of (handler (stripe_answering (Ret pending_3ds)) (post checkout)))
  = 200 /\
  sent (response_of (handler (stripe_answering (Ret pending_3ds)) (post checkout)))
  = BodyJson
      (obj [("success", VBool false);
            ("requires_action", VBool true);
            ("payment_intent",
              obj [("id", VStr "pi_1"); ("client_secret", VStr "pi_1_secret_x");
                   ("status", VStr "requires_action")]);
            ("message", VStr "3D Secure authentication required")]).
Proof.
  pose proof checkout_then_3ds as Hcall.
  split; [exact Hcall|]. split; [reflexivity|].
  destruct (three_d_secure_response (stripe_answering (Ret pending_3ds)) (post checkout)
              checkout_params pending_3ds Hcall eq_refl (or_introl eq_refl))
    as (Hstatus & Hsent & _).
  split; [exact Hstatus|exact Hsent].
Defined.

(** C8 (counterexample): Stripe rejects the payment method with its own
    message; the caller is told [Invalid payment request]. *)
Lemma invalid_request_not_verbatim :
  ~ surfaced_verbatim no_such_method
      (response_of (handler (stripe_answering (Throw no_such_method)) (post checkout))).
Proof.
  intros (fields & Hsent & Herror).
  vm_compute in Hsent. injection Hsent as <-.
  vm_compute in Herror. discriminate Herror.
Qed.

Lemma vendor_rejection_witness :
  PaymentIntentsCreate checkout_params
  ∈ trace_of (handler (stripe_answering (Throw card_declined)) (post checkout)) /\
  rejected_by (stripe_answering (Throw card_declined))
    (PaymentIntentsCreate checkout_params) = Some card_declined /\
  statusCode (response_of (handler (stripe_answering (Throw card_declined))
                             (post checkout))) = 400 /\
  sent (response_of (handler (stripe_answering (Throw card_declined)) (post checkout)))
  = BodyJson (obj [("success", VBool false); ("error", VStr "Your card was declined.");
                   ("type", VStr "card_error")]).
Proof.
  pose proof checkout_then_declined as Hcall.
  split; [exact Hcall|]. split; [reflexivity|].
  destruct (vendor_rejection_classified (stripe_answering (Throw card_declined))
              (post checkout) _ card_declined Hcall eq_refl) as (Hcard & _ & _).
  exact (Hcard eq_refl).
Defined.

(** A paid weekly plan, start to end. *)
Example paid_weekly_plan :
  sent (response_of (handler (stripe_answering (Ret paid)) (post checkout)))
  = BodyJson
      (obj [("success", VBool true);
            ("payment_intent",
              obj [("id", VStr "pi_1"); ("amount", VNum 999); ("currency", VStr "usd");
                   ("status", VStr "succeeded")]);
            ("customer",
              obj [("id", VStr "cus_1"); ("email", VStr "student@example.com");
                   ("name", VNull)]);
            ("subscription_data",
              obj [("plan_type", VStr "weekly");
                   ("start_date", VStr "2024-01-31T10:00:00.000Z");
                   ("end_date", VStr "2024-02-07T10:00:00.000Z")])]).
Proof. vm_compute. reflexivity. Qed.

(** ** calculateEndDate *)

Lemma fresh_ref_ne (h : gmap ref JSDate.time) (r : ref) (x : JSDate.time) :
  h !! r = Some x -> fresh (dom h) ≠ r.
Proof.
  intros Hr Heq. apply (is_fresh (dom h)). rewrite Heq.
  apply elem_of_dom. eauto.
Qed.

Lemma fresh_ref_None (h : gmap ref JSDate.time) : h !! fresh (dom h) = None.
Proof. apply not_elem_of_dom, is_fresh. Qed.

(** One arm of the [switch]: [endDate.setDate(endDate.getDate() + n)]. *)
Lemma add_days_run rt (endDate : ref) (t n : Z) (s : state) :
  heap s !! endDate = Some (Some t) ->
  bind (Date_getDate rt endDate) (fun date => Date_setDate rt endDate (plus date n)) s
  = (State (trace s) (res s)
       (<[endDate := JSDate.TimeClip
                       (JSDate.UTC (LocalTZA rt)
                          (JSDate.LocalTime (LocalTZA rt) t + n * JSDate.msPerDay))]>
          (heap s)) (ticks s), Ret tt).
Proof.
  intros Hh. unfold bind, Date_getDate, Date_setDate, bind, getTime, ret, setTimeValue.
  rewrite Hh. simpl. rewrite Hh. unfold plus.
  rewrite <- JSDateFacts.setDate_getDate. reflexivity.
Qed.

(** C9: [calculateEndDate] returns a new Date object and leaves the one it
    was given as it is.  The new object holds the start time moved by
    [plan_days planType] days of local time: 7 for [weekly], 30 for
    [monthly], 90 for [quarterly], 30 for any other value, [undefined]
    included.  Where the zone offset is constant (UTC on Vercel) that is the
    start time plus so many times 86400000 ms; a result outside the range
    of Date is the invalid date. *)
Theorem calculateEndDate_spec rt (s : state) (startDate : ref) (t : Z) (planType : value) :
  heap s !! startDate = Some (Some t) ->
  JSDate.valid_time t ->
  exists (endDate : ref) (s' : state),
    calculateEndDate rt startDate planType s = (s', Ret endDate) /\
    endDate ≠ startDate /\
    heap s !! endDate = None /\
    heap s' !! startDate = Some (Some t) /\
    heap s' !! endDate
    = Some (JSDate.TimeClip
              (JSDate.UTC (LocalTZA rt)
                 (JSDate.LocalTime (LocalTZA rt) t + plan_days planType * JSDate.msPerDay))) /\
    (forall z, (forall u b, LocalTZA rt u b = z) ->
               heap s' !! endDate
               = Some (JSDate.TimeClip (t + plan_days planType * JSDate.msPerDay))) /\
    (forall r, r ≠ endDate -> heap s' !! r = heap s !! r) /\
    res s' = res s.
Proof.
  intros Hstart Hvalid.
  set (endDate := fresh (dom (heap s))).
  assert (Hne : endDate ≠ startDate) by (eapply fresh_ref_ne; eauto).
  assert (Hrun : forall n msg,
    bind (bind (Date_getDate rt endDate)
            (fun date => bind (Date_setDate rt endDate (plus date n))
                           (fun _ => console_log msg [])))
         (fun _ => ret endDate)
         (State (trace s) (res s) (<[endDate := Some t]> (heap s)) (ticks s))
    = (State (trace s ++ [Console LogInfo msg []]) (res s)
         (<[endDate := JSDate.TimeClip
                         (JSDate.UTC (LocalTZA rt)
                            (JSDate.LocalTime (LocalTZA rt) t + n * JSDate.msPerDay))]>
            (heap s)) (ticks s), Ret endDate)).
  { intros n msg.
    pose proof (add_days_run rt endDate t n
                  (State (trace s) (res s) (<[endDate := Some t]> (heap s)) (ticks s))
                  (lookup_insert_eq _ _ _)) as Hadd.
    unfold bind in *.
    destruct (Date_getDate rt endDate _) as [s1 [date|e]] eqn:Hget.
    - rewrite Hadd. simpl. rewrite insert_insert_eq. reflexivity.
    - discriminate Hadd. }
  assert (Hcalc : exists msg,
    calculateEndDate rt startDate planType s
    = (State (trace s ++ [Console LogInfo msg []]) (res s)
         (<[endDate := JSDate.TimeClip
                         (JSDate.UTC (LocalTZA rt)
                            (JSDate.LocalTime (LocalTZA rt) t
                             + plan_days planType * JSDate.msPerDay))]> (heap s))
         (ticks s), Ret endDate)).
  { unfold calculateEndDate, plan_days.
    unfold bind at 1. unfold getTime at 1. rewrite Hstart.
    unfold bind at 1. unfold new_Date at 1. cbv zeta. fold endDate.
    simpl mbind. rewrite (JSDateFacts.TimeClip_valid t Hvalid).
    destruct (is_str planType "weekly"); [eexists; apply Hrun|].
    destruct (is_str planType "monthly"); [eexists; apply Hrun|].
    destruct (is_str planType "quarterly"); eexists; apply Hrun. }
  destruct Hcalc as [msg Hcalc].
  eexists endDate, _.
  split; [exact Hcalc|]. split; [exact Hne|].
  split; [apply fresh_ref_None|]. cbn [heap res].
  split; [rewrite lookup_insert_ne by done; exact Hstart|].
  split; [apply lookup_insert_eq|].
  split; [intros z Hz;
          rewrite lookup_insert_eq, (JSDateFacts.constant_zone _ z) by exact Hz;
          reflexivity|].
  split; [intros r Hr; apply lookup_insert_ne; congruence|reflexivity].
Qed.

Lemma calculateEndDate_witness :
  heap one_date !! 1%positive = Some (Some jan31) /\
  JSDate.valid_time jan31 /\
  exists (endDate : ref) (s' : state),
    calculateEndDate demo_runtime 1%positive (VStr "weekly") one_date = (s', Ret endDate) /\
    heap s' !! 1%positive = Some (Some jan31) /\
    heap s' !! endDate = Some (Some (jan31 + 7 * 86400000)).
Proof.
  assert (Hstart : heap one_date !! 1%positive = Some (Some jan31)) by reflexivity.
  assert (Hvalid : JSDate.valid_time jan31)
    by (unfold JSDate.valid_time, jan31, JSDate.maxTime; lia).
  split; [exact Hstart|]. split; [exact Hvalid|].
  destruct (calculateEndDate_spec demo_runtime one_date 1%positive jan31 (VStr "weekly")
              Hstart Hvalid)
    as (endDate & s' & Hrun & _ & _ & Hkept & _ & Hconst & _).
  exists endDate, s'. split; [exact Hrun|]. split; [exact Hkept|].
  rewrite (Hconst 0 (fun _ _ => eq_refl)). reflexivity.
Defined.

(** The days each plan type stands for. *)
Lemma plan_days_cases planType :
  plan_days (VStr "weekly") = 7 /\
  plan_days (VStr "monthly") = 30 /\
  plan_days (VStr "quarterly") = 90 /\
  plan_days VUndefined = 30 /\
  (is_str planType "weekly" = false -> is_str planType "quarterly" = false ->
   plan_days planType = 30).
Proof.
  repeat split; try reflexivity.
  intros Hw Hq. unfold plan_days. rewrite Hw, Hq.
  destruct (is_str planType "monthly"); reflexivity.
Qed.

End PaymentIntentFacts.

(* ===================================================================== *)
(** * More facts about traces *)
(* ===================================================================== *)

Module TraceFacts.
Import JS Run Trace.

(** Membership in an explicit list. *)
Ltac in_list := repeat first [apply list_elem_of_here | apply list_elem_of_further].

Lemma count_app p t1 t2 : count p (t1 ++ t2) = (count p t1 + count p t2)%nat.
Proof. induction t1 as [|e t1 IH]; simpl; [reflexivity|]. rewrite IH. lia. Qed.

End TraceFacts.

(* ===================================================================== *)
(** * The paths of webhook.js *)
(* ===================================================================== *)

Module WebhookCoverage.
Import JS Run Trace RunFacts TraceFacts Webhook WebhookSpec WebhookFacts WebhookPaths
  Scenario Deliveries.

Lemma get_prop_nullish v k : nullish v = false -> exists x, get_prop v k = Ret x.
Proof. destruct v; simpl; intros; try discriminate; eauto. Qed.

(** One recognized case of the [switch]: the reads before the call
    succeed on a payload that is not nullish ... *)
Ltac read_payload :=
  repeat match goal with
         | Hnull : nullish ?p = false |- context [get_prop ?p ?k] =>
             let x := fresh "x" in
             let E := fresh "E" in
             destruct (get_prop_nullish p k Hnull) as [x E]; rewrite E; clear E
         end;
  repeat match goal with
         | |- context [get_opt ?v ?k] =>
             let x := fresh "x" in
             let E := fresh "E" in
             destruct (get_opt_total v k) as [x E]; rewrite E; clear E
         end;
  cbn [trace res heap ticks].

(** ... and the per-type function returns. *)
Ltac enter_case d s :=
  match goal with
  | Hclass : classify ?type = Some ?h,
    Hdata : get_prop _ "data" = Ret ?data,
    Hobject : get_prop ?data "object" = Ret ?p,
    Hnull : nullish ?p = false
    |- dispatched _ ?event _ _ (?f ?p ?s0) =>
      let last := fresh "last" in
      let E := fresh "E" in
      let C := fresh "C" in
      destruct (run_handler_total d h p s0) as (last & E & C);
      cbn [run_handler] in E; rewrite E; clear E;
      unfold with_trace; cbn [trace res heap ticks]; rewrite <- ?app_assoc;
      cbn [app];
      match goal with
      | |- dispatched _ _ _ _ (State (trace s ++ ?l) _ _ _, _) =>
          let pre := eval simpl in (before_enter l) in
          apply (dispatched_handled d event _ s type h data p pre last
                   eq_refl Hclass Hdata Hobject Hnull);
          [repeat constructor|exact C]
      end
  end.

Lemma dispatch_other d event ty s :
  (forall type, ty = VStr type -> classify type = None) ->
  dispatch d event ty s
  = bind (lift (get_prop event "type"))
      (fun type' => bind (lift (ToString (rt d) type'))
         (fun shown => console_log ("ℹ️ Unhandled event type: " +:+ shown) [])) s.
Proof.
  intros Hnone. unfold dispatch.
  destruct ty as [| | | |type| |]; try reflexivity.
  specialize (Hnone type eq_refl). unfold classify in Hnone. unfold is_str.
  repeat match type of Hnone with
         | (if ?b then _ else _) = _ => destruct b
         end; try discriminate Hnone. reflexivity.
Qed.

Lemma dispatch_cases d event ty s : dispatched d event ty s (dispatch d event ty s).
Proof.
  assert (Hfail : forall e, unprocessable d event ty -> dispatched d event ty s (s, Throw e)).
  { intros e Hwhy. destruct s as [t r h k].
    pose proof (dispatched_failed d event ty (State t r h k) [] e (Forall_nil_2 _) Hwhy) as H.
    unfold with_trace in H. cbn in H. rewrite app_nil_r in H. exact H. }
  assert (Hother : (forall type, ty = VStr type -> classify type = None) ->
            dispatched d event ty s (dispatch d event ty s)).
  { intros Hnone. rewrite (dispatch_other d event ty s Hnone).
    unfold bind, lift, console_log, emit.
    destruct (get_prop event "type") as [ty'|e] eqn:Htype.
    2: { apply Hfail. right. split; [exact Hnone|]. intros ?. rewrite Htype. intros [=]. }
    destruct (ToString (rt d) ty') as [shown|e] eqn:Hshown.
    2: { apply Hfail. right. split; [exact Hnone|]. intros ?. rewrite Htype.
         intros [= <-]. eauto. }
    apply (dispatched_unhandled d event ty s [_]); [repeat constructor|exact Hnone]. }
  destruct ty as [| | | |type| |]; try (apply Hother; intros; discriminate).
  destruct (classify type) as [h|] eqn:Hclass;
    [|apply Hother; intros ? [= <-]; exact Hclass].
  clear Hother. pose proof Hclass as Hclass'.
  assert (Hmissing : forall e,
            without_object event -> dispatched d event (VStr type) s (s, Throw e)).
  { intros e Hno. apply Hfail. left. exists type, h. auto. }
  clear Hfail.
  unfold dispatch, is_str. unfold classify in Hclass.
  repeat match type of Hclass with
         | (if ?b then _ else _) = _ => destruct b
         end; try discriminate Hclass; injection Hclass as <-;
    unfold data_object, bind, lift, console_log, emit;
    (destruct (get_prop event "data") as [data|e] eqn:Hdata;
     [|apply Hmissing; unfold without_object; intros ? ?; rewrite Hdata; intros [=]]);
    (destruct (get_prop data "object") as [payload|e] eqn:Hobject;
     [|apply Hmissing; unfold without_object; intros ? ?; rewrite Hdata;
       intros [= <-]; rewrite Hobject; intros [=]]);
    (destruct (nullish payload) eqn:Hnull;
     [ destruct payload; try discriminate Hnull; apply Hmissing;
       unfold without_object; intros ? ?; rewrite Hdata; intros [= <-];
       rewrite Hobject; intros [= <-]; reflexivity | ]).
  all: clear Hmissing; read_payload; enter_case d s.
Qed.

(** [process] after the event's type was read. *)
Lemma process_paths d req buf event ty :
  verified d req event ->
  raw_body req = Ret buf ->
  get_prop event "type" = Ret ty ->
  exists s,
    try_catch (process d event)
      (fun error =>
         bind (console_error "❌ Webhook processing error:" [exn_value error])
           (fun _ => bind (res_status 500) (fun _ => res_send "Webhook processing failed")))
      (answer (verified_prefix d req buf ty) 200 Unsent)
    = (s, Ret tt) /\ path d req s.
Proof.
  intros Hv Hbody Htype.
  destruct (get_prop_defined _ _ _ "data" Htype) as [data Hdata].
  unfold try_catch, process, bind, lift, console_log, console_error, emit, res_json,
    res_status, res_send, update_res.
  rewrite Htype, Hdata. cbn [answer trace res heap ticks statusCode headers sent].
  match goal with
  | |- context [dispatch d event ty ?s0] =>
      pose proof (dispatch_cases d event ty s0) as Hd;
      destruct (dispatch d event ty s0) as [s1 o]
  end.
  inversion Hd as [t e Ht Hwhy| t Ht Hnone | type h data' payload pre last -> Hclass Hdata'
                                          Hobject Hnull Hpre Hlast]; subst;
    unfold with_trace; cbn [trace res heap ticks statusCode headers sent];
    eexists; (split; [reflexivity|]).
  - rewrite <- ?app_assoc; cbn [app].
    apply (path_failed d req buf event ty (_ :: _ :: t) e Hv Hbody Htype); [|exact Hwhy].
    repeat (constructor; [exact I|]). exact Ht.
  - rewrite <- ?app_assoc; cbn [app].
    apply (path_unhandled d req buf event ty (_ :: _ :: t) Hv Hbody Htype Hnone).
    repeat (constructor; [exact I|]). exact Ht.
  - rewrite <- ?app_assoc; cbn [app].
    apply (path_handled d req buf event type h data' payload (_ :: _ :: pre) last
             Hv Hbody Htype Hclass Hdata' Hobject Hnull); [|exact Hlast].
    repeat (constructor; [exact I|]). exact Hpre.
Qed.

(** Every run of the handler returns, along one of the paths. *)
Lemma handler_path d req :
  exists s, run (handler d req) = (s, Ret tt) /\ path d req s.
Proof.
  unfold run, handler, verify, buffer, stripe_webhooks_constructEvent.
  destruct (String.eqb_spec (method req) "POST") as [Hpost|Hother]; cbn [negb].
  2: { eexists. split; [reflexivity|]. apply path_method. exact Hother. }
  unfold bind at 1. unfold console_log at 1, emit at 1.
  cbn [initial trace res heap ticks app].
  unfold try_catch at 1, bind at 1, bind at 1. unfold emit at 1, lift at 1.
  cbn [initial trace res heap ticks app].
  destruct (raw_body req) as [buf|e] eqn:Hbody.
  2: { eexists. split; [reflexivity|]. apply path_unreadable; assumption. }
  destruct (truthy (header req "stripe-signature")) eqn:Hsig; cbn [negb].
  2: { eexists. split; [reflexivity|]. eapply path_unsigned; eassumption. }
  destruct (truthy (of_option (webhookSecret d))) eqn:Hsecret; cbn [negb].
  2: { eexists. split; [reflexivity|]. eapply path_unconfigured; eassumption. }
  unfold bind at 1, try_catch at 1, bind at 1, bind at 1, emit at 1, lift at 1.
  cbn [initial trace res heap ticks app].
  destruct (constructEvent d buf _ _) as [event|err] eqn:Hevent.
  2: { eexists. split; [reflexivity|]. eapply path_refused; eassumption. }
  assert (Hv : verified d req event).
  { split; [exact Hpost|]. exists buf. auto. }
  unfold bind at 1, lift at 1.
  destruct (get_prop event "type") as [ty|err] eqn:Htype.
  2: { eexists. split; [reflexivity|]. eapply path_untyped; eassumption. }
  unfold bind at 1, console_log at 1, emit at 1, ret.
  cbn [initial trace res heap ticks app].
  destruct (process_paths d req buf event ty Hv Hbody Htype) as (s & E & Hpath).
  exists s. split; [|exact Hpath].
  unfold try_catch in E |- *. unfold answer, verified_prefix, called, fresh_response in *.
  exact E.
Qed.


Lemma closing_not_entered h last : closing h last -> entered [last] = [].
Proof. intros [[details ->]|[error ->]]; reflexivity. Qed.

Lemma handled_entered d req buf ty pre h payload last :
  Forall is_info pre ->
  closing h last ->
  entered (verified_prefix d req buf ty ++ pre
           ++ [Enter h payload; Console LogInfo (intro_line h) []; last]) = [h].
Proof.
  intros Hpre Hlast. rewrite !entered_app, (entered_info pre Hpre).
  change (entered [Enter h payload; Console LogInfo (intro_line h) []; last])
    with (h :: entered [last]).
  rewrite (closing_not_entered h last Hlast). reflexivity.
Qed.

Lemma info_entered d req buf ty t tl :
  Forall is_info t -> entered tl = [] ->
  entered (verified_prefix d req buf ty ++ t ++ tl) = [].
Proof.
  intros Ht Htl. rewrite !entered_app, (entered_info t Ht), Htl. reflexivity.
Qed.

Lemma info_not_enter t h payload : Forall is_info t -> Enter h payload ∈ t -> False.
Proof.
  intros Ht Hin. rewrite Forall_forall in Ht. exact (Ht _ Hin).
Qed.

(** The event a request verifies to is the one [constructEvent] returned. *)
Lemma verified_unique d req event event' :
  verified d req event -> verified d req event' -> event' = event.
Proof.
  intros (_ & buf & Hb & _ & _ & He) (_ & buf' & Hb' & _ & _ & He').
  rewrite Hb in Hb'. injection Hb' as <-. rewrite He in He'. injection He' as <-.
  reflexivity.
Qed.

Lemma info_no_verification t : Forall is_info t -> verifications t = 0%nat.
Proof.
  apply count_none. intros [[] ? ?| | | | | | | | |] H; try destruct H; reflexivity.
Qed.

Lemma closing_no_verification h last : closing h last -> verifications [last] = 0%nat.
Proof. intros [[details ->]|[error ->]]; reflexivity. Qed.

Lemma verified_prefix_once d req buf ty t :
  verifications t = 0%nat -> verifications (verified_prefix d req buf ty ++ t) = 1%nat.
Proof. intros Ht. unfold verifications in *. rewrite count_app, Ht. reflexivity. Qed.

(** Case analysis on the path a run took. *)
Ltac on_path d req :=
  let s := fresh "s" in
  let E := fresh "E" in
  let Hpath := fresh "Hpath" in
  destruct (handler_path d req) as (s & E & Hpath);
  unfold response_of, trace_of; rewrite E; cbn [fst snd]; clear E;
  destruct Hpath as
     [ Hmethod'
     | e' Hpost' Hbody'
     | buf' Hpost' Hbody' Hsig'
     | buf' Hpost' Hbody' Hsig' Hsecret'
     | buf' err' Hpost' Hbody' Hsig' Hsecret' Hevent'
     | buf' event' err' Hv' Hbody' Htype'
     | buf' event' ty' t' e' Hv' Hbody' Htype' Ht' Hwhy'
     | buf' event' ty' t' Hv' Hbody' Htype' Hnone' Ht'
     | buf' event' type' h' data' payload' pre' last' Hv' Hbody' Htype' Hclass' Hdata'
         Hobject' Hnull' Hpre' Hlast' ];
  cbn [answer res trace statusCode sent].

Lemma info_then_error_verifications t e :
  Forall is_info t -> verifications (t ++ [processing_error e]) = 0%nat.
Proof.
  intros Ht. unfold verifications. rewrite count_app. fold verifications.
  rewrite info_no_verification by assumption. reflexivity.
Qed.

Lemma handled_verifications pre h payload last :
  Forall is_info pre -> closing h last ->
  verifications (pre ++ [Enter h payload; Console LogInfo (intro_line h) []; last]) = 0%nat.
Proof.
  intros Hpre Hlast. unfold verifications. rewrite count_app. fold verifications.
  rewrite info_no_verification by assumption.
  change (verifications [Enter h payload; Console LogInfo (intro_line h) []; last])
    with (verifications [last]).
  apply (closing_no_verification h). assumption.
Qed.

(** X1: whatever the request and whatever the SDK does, the webhook
    handler returns without throwing, has sent a response, and the status
    is one of 200, 400, 405 and 500; it verifies at most once and calls at
    most one per-type function. *)
Theorem handler_always_answers d req :
  snd (run (handler d req)) = Ret tt /\
  sent (response_of (handler d req)) <> Unsent /\
  statusCode (response_of (handler d req)) ∈ [200; 400; 405; 500] /\
  (verifications (trace_of (handler d req)) <= 1)%nat /\
  (length (entered (trace_of (handler d req))) <= 1)%nat.
Proof.
  on_path d req; (split; [reflexivity|]).
  1-6: (split; [discriminate|]); (split; [in_list|]); cbn; lia.
  - split; [discriminate|]. split; [in_list|].
    rewrite (info_entered d req buf' ty' t' [processing_error e']) by (auto; reflexivity).
    rewrite verified_prefix_once; [cbn; lia|].
    apply info_then_error_verifications; assumption.
  - split; [discriminate|]. split; [in_list|].
    rewrite <- (app_nil_r t') at 2.
    rewrite (info_entered d req buf' ty' t' []) by (auto; reflexivity).
    rewrite verified_prefix_once; [cbn; lia|]. apply info_no_verification; assumption.
  - split; [discriminate|]. split; [in_list|].
    rewrite handled_entered by assumption.
    rewrite verified_prefix_once; [cbn; lia|].
    apply (handled_verifications pre' h' payload' last'); assumption.
Qed.

(** X2: the webhook handler answers 200 only when signature verification
    succeeded: a 200 means the request was a POST with a readable body, a
    signature header and a configured secret, [constructEvent] returned an
    event, and the body sent is the acknowledgement carrying that event's
    type. *)
Theorem ok_only_after_verification d req :
  statusCode (response_of (handler d req)) = 200 ->
  exists event ty,
    verified d req event /\
    get_prop event "type" = Ret ty /\
    acknowledged (response_of (handler d req)) ty /\
    verifications (trace_of (handler d req)) = 1%nat.
Proof.
  on_path d req; intros Hok; try discriminate Hok.
  - exists event', ty'.
    split; [assumption|]. split; [assumption|]. split; [split; reflexivity|].
    apply verified_prefix_once, info_no_verification. assumption.
  - exists event', (VStr type').
    split; [assumption|]. split; [assumption|]. split; [split; reflexivity|].
    apply verified_prefix_once.
    apply (handled_verifications pre' h' payload' last'); assumption.
Qed.

Lemma ok_only_after_verification_witness :
  statusCode (response_of (handler (accepting evt_3) signed_delivery)) = 200 /\
  exists event ty,
    verified (accepting evt_3) signed_delivery event /\
    get_prop event "type" = Ret ty /\
    acknowledged (response_of (handler (accepting evt_3) signed_delivery)) ty /\
    verifications (trace_of (handler (accepting evt_3) signed_delivery)) = 1%nat.
Proof.
  assert (Hok : statusCode (response_of (handler (accepting evt_3) signed_delivery)) = 200)
    by (vm_compute; reflexivity).
  split; [exact Hok|]. exact (ok_only_after_verification _ _ Hok).
Defined.

(** X3: a per-type function is called only for a verified event of a
    recognized type, with that event's [data.object] (which is neither
    null nor undefined) as its argument; it is the only per-type function
    called for the request, and the request is acknowledged with 200
    whatever happened inside it. *)
Theorem per_type_function_only_after_verification d req h payload :
  Enter h payload ∈ trace_of (handler d req) ->
  exists event type data,
    verified d req event /\
    get_prop event "type" = Ret (VStr type) /\
    classify type = Some h /\
    get_prop event "data" = Ret data /\
    get_prop data "object" = Ret payload /\
    nullish payload = false /\
    entered (trace_of (handler d req)) = [h] /\
    acknowledged (response_of (handler d req)) (VStr type).
Proof.
  on_path d req; intros Hin.
  1-6: inv_mem Hin.
  - apply elem_of_app in Hin as [Hin|Hin]; [inv_mem Hin|].
    apply elem_of_app in Hin as [Hin|Hin]; [|inv_mem Hin].
    destruct (info_not_enter _ _ _ Ht' Hin).
  - apply elem_of_app in Hin as [Hin|Hin]; [inv_mem Hin|].
    destruct (info_not_enter _ _ _ Ht' Hin).
  - apply elem_of_app in Hin as [Hin|Hin]; [inv_mem Hin|].
    apply elem_of_app in Hin as [Hin|Hin]; [destruct (info_not_enter _ _ _ Hpre' Hin)|].
    assert (Hne : Enter h payload <> last').
    { destruct Hlast' as [[details ->]|[error ->]]; discriminate. }
    apply elem_of_cons in Hin as [Hin|Hin].
    + injection Hin as <- <-.
      exists event', type', data'.
      repeat (split; [assumption|]).
      split; [apply handled_entered; assumption|]. split; reflexivity.
    + inv_mem Hin. destruct (Hne Hin).
Qed.

Lemma per_type_function_only_after_verification_witness :
  Enter HPaymentSuccess (VObj pi_1) ∈ trace_of (handler (accepting evt_1) signed_delivery) /\
  exists event type data,
    verified (accepting evt_1) signed_delivery event /\
    get_prop event "type" = Ret (VStr type) /\
    classify type = Some HPaymentSuccess /\
    get_prop event "data" = Ret data /\
    get_prop data "object" = Ret (VObj pi_1) /\
    nullish (VObj pi_1) = false /\
    entered (trace_of (handler (accepting evt_1) signed_delivery)) = [HPaymentSuccess] /\
    acknowledged (response_of (handler (accepting evt_1) signed_delivery)) (VStr type).
Proof.
  assert (Hin : Enter HPaymentSuccess (VObj pi_1)
                ∈ trace_of (handler (accepting evt_1) signed_delivery)).
  { apply (list_elem_of_lookup_2 _ 9%nat). vm_compute. reflexivity. }
  split; [exact Hin|]. exact (per_type_function_only_after_verification _ _ _ _ Hin).
Defined.

(** X4: a request with any method other than POST is answered 405 with
    an empty body; its body is not read, no signature is verified and no
    per-type function runs, whatever headers it carries. *)
Theorem method_guard d req :
  method req <> "POST" ->
  statusCode (response_of (handler d req)) = 405 /\
  sent (response_of (handler d req)) = BodyEmpty /\
  (Buffer ∉ trace_of (handler d req)) /\
  verifications (trace_of (handler d req)) = 0%nat /\
  entered (trace_of (handler d req)) = [].
Proof.
  intros Hmethod. on_path d req;
    try contradiction;
    try (destruct Hv' as [Hpost' _]; contradiction).
  repeat split; try reflexivity.
  intros Hin. inv_mem Hin.
Qed.

Lemma method_guard_witness :
  method probe <> "POST" /\
  statusCode (response_of (handler (accepting evt_1) probe)) = 405 /\
  sent (response_of (handler (accepting evt_1) probe)) = BodyEmpty.
Proof.
  assert (Hmethod : method probe <> "POST") by discriminate.
  split; [exact Hmethod|].
  destruct (method_guard (accepting evt_1) probe Hmethod) as (Hstatus & Hsent & _).
  split; [exact Hstatus|exact Hsent].
Defined.

(** X5: when the raw body of a POST cannot be read ([buffer] rejects),
    the handler answers 500 with the text [Webhook processing failed] and
    logs the error through [console.error]; the signature is not verified
    and no per-type function runs, even if the header and the secret are
    there. *)
Theorem unreadable_body_is_500 d req e :
  method req = "POST" ->
  raw_body req = Throw e ->
  statusCode (response_of (handler d req)) = 500 /\
  sent (response_of (handler d req)) = BodyText "Webhook processing failed" /\
  last (trace_of (handler d req)) = Some (processing_error e) /\
  verifications (trace_of (handler d req)) = 0%nat /\
  entered (trace_of (handler d req)) = [].
Proof.
  intros Hpost Hbody. on_path d req; try contradiction; try congruence.
  assert (e' = e) as -> by congruence.
  repeat split; reflexivity.
Qed.

Lemma unreadable_body_witness :
  method oversized_delivery = "POST" /\
  raw_body oversized_delivery = Throw payload_too_large /\
  statusCode (response_of (handler (accepting evt_1) oversized_delivery)) = 500 /\
  sent (response_of (handler (accepting evt_1) oversized_delivery))
  = BodyText "Webhook processing failed".
Proof.
  assert (Hpost : method oversized_delivery = "POST") by reflexivity.
  assert (Hbody : raw_body oversized_delivery = Throw payload_too_large) by reflexivity.
  split; [exact Hpost|]. split; [exact Hbody|].
  destruct (unreadable_body_is_500 (accepting evt_1) _ _ Hpost Hbody) as (Hs & Hb & _).
  split; [exact Hs|exact Hb].
Defined.


(** X6: when the SDK's [constructEvent] throws, whatever the error, the
    handler answers 400 with the text [Webhook Error: ] followed by the
    error's own message; the run consists of the body read, the one
    verification on the raw body, and a [console.log] line: the outer
    [catch] with its 500 is not involved and no per-type function runs. *)
Theorem refused_signature_is_400 d req buf err :
  method req = "POST" ->
  raw_body req = Ret buf ->
  truthy (header req "stripe-signature") = true ->
  truthy (of_option (webhookSecret d)) = true ->
  constructEvent d buf (header req "stripe-signature") (of_option (webhookSecret d))
  = Throw err ->
  statusCode (response_of (handler d req)) = 400 /\
  sent (response_of (handler d req)) = BodyText ("Webhook Error: " +:+ exn_message err) /\
  trace_of (handler d req)
  = [called req; Buffer;
     ConstructEvent buf (header req "stripe-signature") (of_option (webhookSecret d));
     Console LogInfo "❌ Webhook signature verification failed:" [VStr (exn_message err)]].
Proof.
  intros Hpost Hbody Hsig Hsecret Hevent.
  on_path d req; try contradiction; try congruence;
    try (destruct Hv' as (_ & buf0 & Hbody0 & _ & _ & Hevent0); congruence).
  assert (buf' = buf) as -> by congruence.
  assert (err' = err) as -> by congruence.
  repeat split; reflexivity.
Qed.

Lemma refused_signature_witness :
  method signed_delivery = "POST" /\
  raw_body signed_delivery = Ret "{}" /\
  statusCode (response_of (handler refusing signed_delivery)) = 400 /\
  sent (response_of (handler refusing signed_delivery))
  = BodyText "Webhook Error: No signatures found matching the expected signature for payload.".
Proof.
  assert (Hpost : method signed_delivery = "POST") by reflexivity.
  assert (Hbody : raw_body signed_delivery = Ret "{}") by reflexivity.
  split; [exact Hpost|]. split; [exact Hbody|].
  destruct (refused_signature_is_400 refusing signed_delivery "{}" signature_mismatch
              Hpost Hbody eq_refl eq_refl eq_refl) as (Hstatus & Hsent & _).
  split; [exact Hstatus|exact Hsent].
Defined.



(** X7: for a verified event of a recognized type the answer depends on
    [event.data.object] alone.  If it is there (any value but null and
    undefined) the request is acknowledged with 200 and the per-type
    function is called with it; if [data] or [object] is missing or null
    the request is answered 500 [Webhook processing failed], the error goes
    to [console.error] and no per-type function is called. *)
Theorem recognized_event_needs_object d req event type h :
  verified d req event ->
  get_prop event "type" = Ret (VStr type) ->
  classify type = Some h ->
  (forall data payload,
     get_prop event "data" = Ret data -> get_prop data "object" = Ret payload ->
     nullish payload = false ->
     acknowledged (response_of (handler d req)) (VStr type) /\
     Enter h payload ∈ trace_of (handler d req)) /\
  (without_object event ->
   statusCode (response_of (handler d req)) = 500 /\
   sent (response_of (handler d req)) = BodyText "Webhook processing failed" /\
   entered (trace_of (handler d req)) = [] /\
   exists e, last (trace_of (handler d req)) = Some (processing_error e)).
Proof.
  intros Hv Htype Hclass.
  assert (Hpost : method req = "POST") by apply Hv.
  on_path d req; try contradiction;
    try (destruct Hv as (_ & buf0 & Hbody0 & Hsig0 & Hsecret0 & Hevent0); congruence);
    assert (event' = event) as -> by (apply (verified_unique d req); assumption);
    try congruence.
  - (* the switch threw *)
    assert (ty' = VStr type) as -> by congruence.
    destruct Hwhy' as [(type0 & h0 & [= <-] & _ & Hno)|[Hnone _]];
      [|rewrite (Hnone type eq_refl) in Hclass; discriminate Hclass].
    split.
    + intros data payload Hdata Hobject Hnull.
      rewrite (Hno data payload Hdata Hobject) in Hnull. discriminate Hnull.
    + intros _. split; [reflexivity|]. split; [reflexivity|].
      split; [apply info_entered; [assumption|reflexivity]|].
      exists e'. rewrite !app_assoc. apply last_snoc.
  - (* no case of the switch *)
    assert (ty' = VStr type) as -> by congruence.
    rewrite (Hnone' type eq_refl) in Hclass. discriminate Hclass.
  - (* a per-type function ran *)
    assert (type' = type) as -> by congruence.
    assert (h' = h) as -> by congruence.
    split.
    + intros data payload Hdata Hobject Hnull.
      assert (data' = data) as -> by congruence.
      assert (payload' = payload) as -> by congruence.
      split; [split; reflexivity|].
      apply elem_of_app. right. apply elem_of_app. right. apply elem_of_cons. left.
      reflexivity.
    + intros Hno. rewrite (Hno data' payload' Hdata' Hobject') in Hnull'.
      discriminate Hnull'.
Qed.

Lemma recognized_event_needs_object_witness :
  verified (accepting evt_malformed) signed_delivery evt_malformed /\
  get_prop evt_malformed "type" = Ret (VStr "payment_intent.succeeded") /\
  classify "payment_intent.succeeded" = Some HPaymentSuccess /\
  without_object evt_malformed /\
  statusCode (response_of (handler (accepting evt_malformed) signed_delivery)) = 500 /\
  entered (trace_of (handler (accepting evt_malformed) signed_delivery)) = [].
Proof.
  assert (Hv : verified (accepting evt_malformed) signed_delivery evt_malformed)
    by apply verified_signed.
  assert (Ht : get_prop evt_malformed "type" = Ret (VStr "payment_intent.succeeded"))
    by reflexivity.
  assert (Hc : classify "payment_intent.succeeded" = Some HPaymentSuccess) by reflexivity.
  assert (Hno : without_object evt_malformed).
  { intros data payload [= <-] [= <-]. reflexivity. }
  split; [exact Hv|]. split; [exact Ht|]. split; [exact Hc|]. split; [exact Hno|].
  destruct (recognized_event_needs_object _ _ _ _ _ Hv Ht Hc) as [_ Hmissing].
  destruct (Hmissing Hno) as (Hstatus & _ & Hentered & _).
  split; [exact Hstatus|exact Hentered].
Defined.

(** X8: each of the seven per-type functions contains its own errors:
    for every argument it returns without throwing and leaves the response
    and the Date heap as they were; it logs its opening line and then
    either its details line or, through [console.error], the error it
    caught, which is what happens when the argument is null or
    undefined. *)
Theorem per_type_functions_contain_errors d h payload s :
  snd (run_handler d h payload s) = Ret tt /\
  res (fst (run_handler d h payload s)) = res s /\
  heap (fst (run_handler d h payload s)) = heap s /\
  (exists line,
     trace (fst (run_handler d h payload s))
     = trace s ++ [Enter h payload; Console LogInfo (intro_line h) []; line]
     /\ closing h line) /\
  (nullish payload = true ->
   exists error,
     last (trace (fst (run_handler d h payload s)))
     = Some (Console LogError (failure_line h) [exn_value error])).
Proof.
  assert (Hnullish : nullish payload = true ->
            exists error,
              last (trace (fst (run_handler d h payload s)))
              = Some (Console LogError (failure_line h) [exn_value error])).
  { intros Hnull.
    destruct payload; try discriminate Hnull; destruct h;
      (eexists; unfold run_handler, handlePaymentSuccess, handlePaymentFailed,
         handleSubscriptionCreated, handleSubscriptionUpdated, handleSubscriptionCancelled,
         handleInvoicePayment, handleInvoicePaymentFailed, try_catch, bind, lift,
         console_log, console_error, emit;
       cbn [get_prop fst trace]; apply last_snoc). }
  destruct (run_handler_total d h payload s) as (line & E & Hline).
  rewrite E in Hnullish |- *. cbn [fst snd with_trace res heap trace] in Hnullish |- *.
  split; [reflexivity|]. split; [reflexivity|]. split; [reflexivity|].
  split; [exists line; split; [reflexivity|exact Hline]|]. exact Hnullish.
Qed.

(** X9: a subscription that carries no [current_period_start] never has
    its creation details logged, and one that carries no [canceled_at]
    never has its cancellation details logged: [toISOString] throws on the
    invalid date, and the function logs [RangeError: Invalid time value]
    through [console.error] instead. *)
Theorem missing_timestamp_is_caught d h subscription s :
  (h = HSubscriptionCreated /\
   get_prop subscription "current_period_start" = Ret VUndefined) \/
  (h = HSubscriptionCancelled /\
   get_prop subscription "canceled_at" = Ret VUndefined) ->
  run_handler d h subscription s
  = (with_trace s [Enter h subscription; Console LogInfo (intro_line h) [];
                   Console LogError (failure_line h)
                     [exn_value (RangeError "Invalid time value")]],
     Ret tt).
Proof.
  intros [[-> Hstart]|[-> Hcancelled]].
  - destruct (get_prop_defined _ _ _ "id" Hstart) as [id Hid].
    destruct (get_prop_defined _ _ _ "customer" Hstart) as [customer Hcustomer].
    destruct (get_prop_defined _ _ _ "status" Hstart) as [status Hstatus].
    unfold run_handler, handleSubscriptionCreated, try_catch, bind, lift,
      console_log, console_error, emit.
    cbn [trace res heap ticks]. rewrite Hid, Hcustomer, Hstatus, Hstart.
    unfold with_trace. cbn. rewrite <- !app_assoc. reflexivity.
  - destruct (get_prop_defined _ _ _ "id" Hcancelled) as [id Hid].
    destruct (get_prop_defined _ _ _ "customer" Hcancelled) as [customer Hcustomer].
    unfold run_handler, handleSubscriptionCancelled, try_catch, bind, lift,
      console_log, console_error, emit.
    cbn [trace res heap ticks]. rewrite Hid, Hcustomer, Hcancelled.
    unfold with_trace. cbn. rewrite <- !app_assoc. reflexivity.
Qed.

Lemma missing_timestamp_witness :
  get_prop sub_2 "canceled_at" = Ret VUndefined /\
  run_handler (accepting evt_1) HSubscriptionCancelled sub_2 initial
  = (with_trace initial
       [Enter HSubscriptionCancelled sub_2;
        Console LogInfo "🗑️ Processing subscription cancellation..." [];
        Console LogError "❌ Error handling subscription cancellation:"
          [exn_value (RangeError "Invalid time value")]],
     Ret tt).
Proof.
  assert (Hcancelled : get_prop sub_2 "canceled_at" = Ret VUndefined) by reflexivity.
  split; [exact Hcancelled|].
  exact (missing_timestamp_is_caught (accepting evt_1) HSubscriptionCancelled sub_2 initial
           (or_intror (conj eq_refl Hcancelled))).
Defined.

End WebhookCoverage.

(* ===================================================================== *)
(** * The paths of create-payment-intent.js *)
(* ===================================================================== *)

Module PaymentIntentCoverage.
Import JS Run Trace RunFacts TraceFacts PaymentIntent PaymentIntentSpec PaymentIntentFacts
  PaymentIntentPaths Scenario Checkouts.

Lemma destructure_field req k :
  nullish (req_body req) = false -> destructure (req_body req) k = Ret (field req k).
Proof.
  unfold destructure, field. intros Hnull.
  destruct (req_body req); try discriminate Hnull; reflexivity.
Qed.

Lemma add_with_trace s e : add s e = with_trace s [e].
Proof. reflexivity. Qed.

Lemma with_trace_app s t1 t2 : with_trace (with_trace s t1) t2 = with_trace s (t1 ++ t2).
Proof. unfold with_trace. cbn. rewrite <- app_assoc. reflexivity. Qed.

(** ** [calculateEndDate] on any Date object *)

Lemma calculateEndDate_run rt s startDate tv planType :
  heap s !! startDate = Some tv ->
  exists msg,
    calculateEndDate rt startDate planType s
    = (State (trace s ++ [Console LogInfo msg []]) (res s)
         (<[fresh (dom (heap s)) := end_time rt tv planType]> (heap s)) (ticks s),
       Ret (fresh (dom (heap s)))).
Proof.
  intros Hstart. set (endDate := fresh (dom (heap s))).
  assert (Hrun : forall n msg,
    bind (bind (Date_getDate rt endDate)
            (fun date => bind (Date_setDate rt endDate (plus date n))
                           (fun _ => console_log msg [])))
         (fun _ => ret endDate)
         (State (trace s) (res s) (<[endDate := tv ≫= JSDate.TimeClip]> (heap s)) (ticks s))
    = (State (trace s ++ [Console LogInfo msg []]) (res s)
         (<[endDate := match tv ≫= JSDate.TimeClip with
                       | Some t =>
                           JSDate.TimeClip
                             (JSDate.UTC (LocalTZA rt)
                                (JSDate.LocalTime (LocalTZA rt) t + n * JSDate.msPerDay))
                       | None => None
                       end]> (heap s)) (ticks s), Ret endDate)).
  { intros n msg.
    unfold bind, Date_getDate, Date_setDate, bind, getTime, ret, setTimeValue, console_log,
      emit.
    cbn [heap trace res ticks].
    repeat (rewrite lookup_insert_eq; cbn [heap trace res ticks]).
    rewrite insert_insert_eq.
    destruct (tv ≫= JSDate.TimeClip) as [t|]; [|reflexivity].
    unfold plus. rewrite JSDateFacts.setDate_getDate. reflexivity. }
  unfold calculateEndDate, end_time, plan_days.
  unfold bind at 1. unfold getTime at 1. rewrite Hstart.
  unfold bind at 1. unfold new_Date at 1. cbv zeta. fold endDate.
  destruct (is_str planType "weekly"); [eexists; apply Hrun|].
  destruct (is_str planType "monthly"); [eexists; apply Hrun|].
  destruct (is_str planType "quarterly"); eexists; apply Hrun.
Qed.

(** ** What follows the creation of the payment intent *)

Lemma respond_other d plan_type c pi s :
  pi_status pi <> "requires_action" ->
  pi_status pi <> "requires_source_action" ->
  pi_status pi <> "succeeded" ->
  respond d plan_type c pi s
  = (State (trace s ++ [Console LogInfo "❌ Payment failed:" [VStr (pi_status pi)]])
       (Response 400 (headers (res s)) (BodyJson (failure_body pi))) (heap s) (ticks s),
     Ret tt).
Proof.
  intros H1 H2 H3. unfold respond.
  destruct (String.eqb_spec (pi_status pi) "requires_action"); [contradiction|].
  destruct (String.eqb_spec (pi_status pi) "requires_source_action"); [contradiction|].
  destruct (String.eqb_spec (pi_status pi) "succeeded"); [contradiction|].
  reflexivity.
Qed.

Lemma respond_succeeded d plan_type c pi s :
  pi_status pi = "succeeded" ->
  clock_in_range (rt d) (ticks s) (or_else plan_type (VStr "monthly")) ->
  exists s' msg,
    respond d plan_type c pi s = (s', Ret tt) /\
    trace s' = trace s ++ [Console LogInfo "🎉 Payment succeeded!" [];
                           Console LogInfo msg []] /\
    res s'
    = Response 200 (headers (res s))
        (BodyJson
           (success_body plan_type c pi
              (JSDate.iso_string (Date_now (rt d) (ticks s)))
              (JSDate.iso_string
                 (JSDate.UTC (LocalTZA (rt d))
                    (JSDate.LocalTime (LocalTZA (rt d)) (Date_now (rt d) (S (ticks s)))
                     + plan_days (or_else plan_type (VStr "monthly"))
                       * JSDate.msPerDay))))).
Proof.
  intros Hstatus (Hnow1 & Hnow2 & Hend). unfold respond. rewrite Hstatus.
  cbn [String.eqb Ascii.eqb Bool.eqb orb].
  unfold bind at 1. unfold console_log at 1, emit at 1.
  unfold bind at 1. unfold new_Date_now at 1, new_Date at 1.
  cbn [trace res heap ticks mbind option_bind].
  rewrite (JSDateFacts.TimeClip_valid _ Hnow1).
  unfold bind at 1. unfold Date_toISOString at 1, bind at 1, getTime at 1.
  cbn [trace res heap ticks]. rewrite lookup_insert_eq. unfold lift at 1.
  cbn [JSDate.toISOString].
  unfold bind at 1. unfold new_Date_now at 1, new_Date at 1.
  cbn [trace res heap ticks mbind option_bind].
  rewrite (JSDateFacts.TimeClip_valid _ Hnow2).
  unfold bind at 1.
  match goal with
  | |- context [calculateEndDate ?rt' ?r ?p ?s0] =>
      destruct (calculateEndDate_run rt' s0 r (Some (Date_now (rt d) (S (ticks s)))) p
                  (lookup_insert_eq _ _ _)) as [msg Hcalc];
      rewrite Hcalc
  end.
  unfold end_time. cbn [mbind option_bind].
  rewrite (JSDateFacts.TimeClip_valid _ Hnow2), (JSDateFacts.TimeClip_valid _ Hend).
  unfold bind at 1. unfold Date_toISOString at 1, bind at 1, getTime at 1.
  cbn [trace res heap ticks]. rewrite lookup_insert_eq. unfold lift at 1.
  cbn [JSDate.toISOString].
  unfold bind, res_status, res_json, update_res. cbn [trace res heap ticks statusCode headers].
  eexists _, msg. split; [reflexivity|]. cbn [trace res].
  split; [rewrite <- app_assoc; reflexivity|].
  unfold success_body. rewrite Hstatus. reflexivity.
Qed.

Lemma keeps_res_bind {A B} (m : M A) (k : A -> M B) :
  keeps_res m -> (forall a, keeps_res (k a)) -> keeps_res (bind m k).
Proof.
  intros Hm Hk s. unfold bind. specialize (Hm s).
  destruct (m s) as [s1 [a|e]]; cbn [fst] in *; [rewrite Hk|]; exact Hm.
Qed.

Lemma keeps_res_getTime r : keeps_res (getTime r).
Proof. intros s. unfold getTime. destruct (heap s !! r); reflexivity. Qed.

Lemma calculateEndDate_keeps_res rt startDate planType :
  keeps_res (calculateEndDate rt startDate planType).
Proof.
  unfold calculateEndDate, Date_getDate, Date_setDate.
  repeat first
    [ apply keeps_res_bind; [|intros]
    | apply keeps_res_getTime
    | match goal with |- keeps_res (if ?b then _ else _) => destruct b end
    | intros ?; reflexivity ].
Qed.

Lemma Date_toISOString_state r s : fst (Date_toISOString r s) = s.
Proof.
  unfold Date_toISOString, bind, getTime, lift.
  destruct (heap s !! r) as [[t|]|]; reflexivity.
Qed.

(** Whatever Stripe's payment intent looks like and whatever the clock
    says, the rest of the handler answers. *)
Lemma respond_answers d plan_type c pi s :
  exists s',
    try_catch (respond d plan_type c pi) on_error s = (s', Ret tt) /\
    headers (res s') = headers (res s) /\
    sent (res s') <> Unsent /\
    (statusCode (res s') = 200 \/ statusCode (res s') = 400 \/ statusCode (res s') = 500) /\
    (statusCode (res s') = 200 ->
     pi_status pi = "requires_action" \/ pi_status pi = "requires_source_action" \/
     pi_status pi = "succeeded").
Proof.
  assert (Herr : forall e s1, headers (res s1) = headers (res s) ->
            exists s', on_error e s1 = (s', Ret tt) /\
              headers (res s') = headers (res s) /\
              sent (res s') <> Unsent /\
              (statusCode (res s') = 200 \/ statusCode (res s') = 400
               \/ statusCode (res s') = 500) /\
              (statusCode (res s') = 200 ->
               pi_status pi = "requires_action" \/ pi_status pi = "requires_source_action"
               \/ pi_status pi = "succeeded")).
  { intros e s1 Hh. rewrite on_error_run. eexists. split; [reflexivity|].
    cbn [res headers sent statusCode]. split; [exact Hh|]. split; [discriminate|].
    unfold error_status.
    destruct (is_str (exn_type e) "StripeCardError");
      [|destruct (is_str (exn_type e) "StripeInvalidRequestError")];
      (split; [auto|intros [=]]). }
  unfold try_catch, respond.
  destruct (String.eqb_spec (pi_status pi) "requires_action") as [H1|H1].
  { cbn [orb]. eexists. split; [reflexivity|]. cbn.
    (split; [reflexivity|]); (split; [discriminate|]); (split; [auto|]); intros Hok; first [discriminate Hok|auto]. }
  destruct (String.eqb_spec (pi_status pi) "requires_source_action") as [H2|H2].
  { cbn [orb]. eexists. split; [reflexivity|]. cbn.
    (split; [reflexivity|]); (split; [discriminate|]); (split; [auto|]); intros Hok; first [discriminate Hok|auto]. }
  cbn [orb].
  destruct (String.eqb_spec (pi_status pi) "succeeded") as [H3|H3].
  2: { eexists. split; [reflexivity|]. cbn.
       (split; [reflexivity|]); (split; [discriminate|]); (split; [auto|]); intros Hok; first [discriminate Hok|auto]. }
  unfold bind at 1. unfold console_log at 1, emit at 1.
  unfold bind at 1. unfold new_Date_now at 1, new_Date at 1. cbv zeta.
  unfold bind at 1.
  match goal with
  | |- context [Date_toISOString ?r ?s0] =>
      pose proof (Date_toISOString_state r s0) as Hiso;
      destruct (Date_toISOString r s0) as [s1 [start_date|e]]; cbn [fst] in Hiso; subst s1
  end.
  2: { apply Herr. reflexivity. }
  unfold bind at 1. unfold new_Date_now at 1, new_Date at 1. cbv zeta.
  cbn [trace res heap ticks].
  unfold bind at 1.
  match goal with
  | |- context [calculateEndDate ?rt' ?r ?p ?s0] =>
      pose proof (calculateEndDate_keeps_res rt' r p s0) as Hcalc;
      destruct (calculateEndDate rt' r p s0) as [s2 [endDate|e]]; cbn [fst res] in Hcalc
  end.
  2: { apply Herr. rewrite Hcalc. reflexivity. }
  unfold bind at 1.
  match goal with
  | |- context [Date_toISOString ?r ?s0] =>
      pose proof (Date_toISOString_state r s0) as Hiso;
      destruct (Date_toISOString r s0) as [s3 [end_date|e]]; cbn [fst] in Hiso; subst s3
  end.
  2: { apply Herr. rewrite Hcalc. reflexivity. }
  unfold bind, res_status, res_json, update_res. eexists. split; [reflexivity|].
  cbn [res headers sent statusCode]. rewrite Hcalc.
  (split; [reflexivity|]); (split; [discriminate|]); (split; [auto|]); intros Hok; first [discriminate Hok|auto].
Qed.

(** The handler runs as [staged] says. *)
Lemma handler_staged d req : run (handler d req) = staged d req.
Proof.
  rewrite handler_entry. unfold staged.
  destruct (String.eqb (method req) "OPTIONS"); [reflexivity|].
  destruct (String.eqb (method req) "POST"); [|reflexivity].
  cbn [negb].
  unfold process, console_log, res_status, res_json, stripe_customers_list,
    stripe_customers_create, stripe_paymentIntents_create.
  walk.
  destruct (nullish (req_body req)) eqn:Hnull.
  { rewrite try_bind_lift. unfold destructure. rewrite Hnull. reflexivity. }
  repeat (rewrite try_bind_lift, (destructure_field req _ Hnull)).
  fold (incomplete req).
  destruct (incomplete req).
  { walk. reflexivity. }
  walk. rewrite try_bind_lift.
  unfold customer_step, intent_step, validated, created_line.
  rewrite !add_with_trace, !with_trace_app. cbn [app].
  destruct (customers_list d _) as [[|found rest]|e]; [| |reflexivity].
  - walk. rewrite try_bind_lift.
    destruct (customers_create d _) as [created|e]; [|reflexivity].
    walk. rewrite try_bind_lift.
    destruct (parseInt (rt d) _) as [amount'|e];
      [|rewrite !add_with_trace, !with_trace_app; reflexivity].
    rewrite try_bind_lift.
    destruct (call_toLowerCase (rt d) _) as [currency'|e];
      [|rewrite !add_with_trace, !with_trace_app; reflexivity].
    walk. rewrite try_bind_lift.
    destruct (paymentIntents_create d _) as [pi|e];
      [|rewrite !add_with_trace, !with_trace_app; reflexivity].
    walk. rewrite !add_with_trace, !with_trace_app. reflexivity.
  - walk. rewrite try_bind_lift.
    destruct (parseInt (rt d) _) as [amount'|e];
      [|rewrite !add_with_trace, !with_trace_app; reflexivity].
    rewrite try_bind_lift.
    destruct (call_toLowerCase (rt d) _) as [currency'|e];
      [|rewrite !add_with_trace, !with_trace_app; reflexivity].
    walk. rewrite try_bind_lift.
    destruct (paymentIntents_create d _) as [pi|e];
      [|rewrite !add_with_trace, !with_trace_app; reflexivity].
    walk. rewrite !add_with_trace, !with_trace_app. reflexivity.
Qed.


(** ** The trace of a run *)

Lemma logs_not_vendor t : Forall is_log t -> vendor_calls t = 0%nat.
Proof.
  apply count_none. intros [| | | | | | | | |] H; try destruct H; reflexivity.
Qed.

Lemma logs_not_intent t : Forall is_log t -> count is_intent_call t = 0%nat.
Proof.
  apply count_none. intros [| | | | | | | | |] H; try destruct H; reflexivity.
Qed.

Lemma tail_logs d plan_type c pi s :
  exists logs,
    trace (fst (try_catch (respond d plan_type c pi) on_error s)) = trace s ++ logs /\
    Forall is_log logs.
Proof.
  apply (appends_try_catch is_log); [apply respond_appends|apply on_error_appends].
Qed.

(** A request that is no POST, has no body or lacks a required field
    only logs. *)
Lemma early_trace d req :
  method req <> "POST" \/ nullish (req_body req) = true \/ incomplete req = true ->
  Forall is_log (trace_of (handler d req)).
Proof.
  intros Hearly. unfold trace_of. rewrite handler_staged. unfold staged.
  destruct (String.eqb (method req) "OPTIONS"); [repeat constructor|].
  destruct (String.eqb_spec (method req) "POST") as [Hpost|Hpost]; cbn [negb];
    [|repeat constructor].
  destruct (nullish (req_body req)) eqn:Hnull.
  { rewrite on_error_run. repeat constructor. }
  destruct (incomplete req); [repeat constructor|].
  destruct Hearly as [H|[H|H]]; [contradiction|discriminate H|discriminate H].
Qed.

(** A complete POST: the opening lines, the calls to Stripe, and lines
    logged after them. *)
Lemma complete_trace d req :
  method req = "POST" -> nullish (req_body req) = false -> incomplete req = false ->
  exists logs,
    trace_of (handler d req) = trace (validated d req) ++ stripe_trace d req ++ logs /\
    Forall is_log logs.
Proof.
  intros Hpost Hnull Hcomplete. unfold trace_of. rewrite handler_staged. unfold staged.
  rewrite Hpost, Hnull, Hcomplete. cbn [String.eqb Ascii.eqb Bool.eqb negb].
  unfold stripe_trace.
  destruct (customer_step d req) as [t [c|e]].
  2: { rewrite on_error_run. cbn [fst trace with_trace]. rewrite <- app_assoc.
       eexists. split; [reflexivity|]. repeat constructor. }
  destruct (intent_step d req c) as [t' [pi|e]].
  2: { rewrite on_error_run. cbn [fst trace with_trace]. eexists.
       rewrite <- !app_assoc. split; [reflexivity|]. repeat constructor. }
  destruct (tail_logs d (field req "plan_type") c pi
              (with_trace (validated d req) (t ++ t' ++ [created_line pi])))
    as (logs & -> & Hlogs).
  cbn [fst trace with_trace].
  exists (created_line pi :: logs). rewrite <- !app_assoc. split; [reflexivity|].
  constructor; [exact I|exact Hlogs].
Qed.


Lemma early_or_complete req :
  (method req <> "POST" \/ nullish (req_body req) = true \/ incomplete req = true) \/
  (method req = "POST" /\ nullish (req_body req) = false /\ incomplete req = false).
Proof.
  destruct (String.eqb_spec (method req) "POST"); [|auto].
  destruct (nullish (req_body req)); [auto|].
  destruct (incomplete req); auto.
Qed.

Lemma log_not_call t c : Forall is_log t -> c ∈ t -> is_log c.
Proof. intros Ht Hin. rewrite Forall_forall in Ht. exact (Ht _ Hin). Qed.

(** How the two stages end. *)
Lemma customer_step_cases d req :
  (exists e, customers_list d (list_params req) = Throw e /\
     customer_step d req = ([CustomersList (list_params req)], Throw e)) \/
  (exists found rest, customers_list d (list_params req) = Ret (found :: rest) /\
     customer_step d req
     = ([CustomersList (list_params req);
         Console LogInfo "✅ Found existing customer:" [VStr (cust_id found)]], Ret found)) \/
  (exists e, customers_list d (list_params req) = Ret [] /\
     customers_create d (create_params req) = Throw e /\
     customer_step d req
     = ([CustomersList (list_params req); CustomersCreate (create_params req)], Throw e)) \/
  (exists created, customers_list d (list_params req) = Ret [] /\
     customers_create d (create_params req) = Ret created /\
     customer_step d req
     = ([CustomersList (list_params req); CustomersCreate (create_params req);
         Console LogInfo "✅ Created new customer:" [VStr (cust_id created)]], Ret created)).
Proof.
  unfold customer_step.
  destruct (customers_list d (list_params req)) as [[|found rest]|e]; [| |eauto 10].
  - destruct (customers_create d (create_params req)) as [created|e]; eauto 10.
  - right. left. eauto.
Qed.

Lemma intent_step_cases d req c :
  (exists e, fst (intent_step d req c) = [Console LogInfo "💰 Creating payment intent..." []]
     /\ snd (intent_step d req c) = Throw e /\
     (parseInt (rt d) (field req "amount") = Throw e \/
      call_toLowerCase (rt d) (field req "currency") = Throw e)) \/
  (exists amount' currency',
     parseInt (rt d) (field req "amount") = Ret amount' /\
     call_toLowerCase (rt d) (field req "currency") = Ret currency' /\
     intent_step d req c
     = ([Console LogInfo "💰 Creating payment intent..." [];
         PaymentIntentsCreate (intent_params req amount' currency' c)],
        paymentIntents_create d (intent_params req amount' currency' c))).
Proof.
  unfold intent_step.
  destruct (parseInt (rt d) (field req "amount")) as [amount'|e]; [|left; eauto 10].
  destruct (call_toLowerCase (rt d) (field req "currency")) as [currency'|e];
    [|left; eauto 10].
  right. eauto 10.
Qed.

(** A call of [stripe.paymentIntents.create] seen in the trace: where the
    run stood when it was made. *)
Lemma intent_call_inversion d req p :
  PaymentIntentsCreate p ∈ trace_of (handler d req) ->
  method req = "POST" /\ nullish (req_body req) = false /\ incomplete req = false /\
  exists t c amount' currency',
    customer_step d req = (t, Ret c) /\
    parseInt (rt d) (field req "amount") = Ret amount' /\
    call_toLowerCase (rt d) (field req "currency") = Ret currency' /\
    p = intent_params req amount' currency' c /\
    intent_step d req c
    = ([Console LogInfo "💰 Creating payment intent..." []; PaymentIntentsCreate p],
       paymentIntents_create d p).
Proof.
  intros Hin.
  destruct (early_or_complete req) as [Hearly|(Hpost & Hnull & Hcomplete)].
  { destruct (log_not_call _ _ (early_trace d req Hearly) Hin). }
  split; [exact Hpost|]. split; [exact Hnull|]. split; [exact Hcomplete|].
  destruct (complete_trace d req Hpost Hnull Hcomplete) as (logs & E & Hlogs).
  rewrite E in Hin.
  apply elem_of_app in Hin as [Hin|Hin]; [cbn in Hin; inv_mem Hin|].
  apply elem_of_app in Hin as [Hin|Hin]; [|destruct (log_not_call _ _ Hlogs Hin)].
  unfold stripe_trace in Hin.
  assert (Hcustomer : forall t o, customer_step d req = (t, o) ->
            PaymentIntentsCreate p ∈ t -> False).
  { intros t o Ec Hp.
    destruct (customer_step_cases d req)
      as [(e & _ & E1)|[(found & rest & _ & E1)|[(e & _ & _ & E1)|(created & _ & _ & E1)]]];
      rewrite E1 in Ec; injection Ec as <- <-; inv_mem Hp. }
  destruct (customer_step d req) as [t [c|e]] eqn:Ec.
  2: { destruct (Hcustomer _ _ eq_refl Hin). }
  apply elem_of_app in Hin as [Hin|Hin]; [destruct (Hcustomer _ _ eq_refl Hin)|].
  destruct (intent_step_cases d req c)
    as [(e & Et & _)|(amount' & currency' & Ha & Hc & Ei)].
  { rewrite Et in Hin. inv_mem Hin. }
  rewrite Ei in Hin. cbn [fst] in Hin. inv_mem Hin. injection Hin as ->.
  exists t, c, amount', currency'. repeat split; try assumption; reflexivity.
Qed.

(** Every run ends with an answer. *)
Lemma handler_settles d req :
  exists s',
    run (handler d req) = (s', Ret tt) /\
    headers (res s') = cors_headers req /\
    sent (res s') <> Unsent /\
    statusCode (res s') ∈ [200; 400; 405; 500].
Proof.
  assert (Herr : forall e t,
            exists s', on_error e (with_trace (entry req) t) = (s', Ret tt) /\
              headers (res s') = cors_headers req /\
              sent (res s') <> Unsent /\
              statusCode (res s') ∈ [200; 400; 405; 500]).
  { intros e t. rewrite on_error_run. eexists. split; [reflexivity|].
    cbn [res headers sent statusCode with_trace entry].
    split; [reflexivity|]. split; [discriminate|]. unfold error_status.
    destruct (is_str (exn_type e) "StripeCardError");
      [|destruct (is_str (exn_type e) "StripeInvalidRequestError")]; in_list. }
  rewrite handler_staged. unfold staged.
  destruct (String.eqb (method req) "OPTIONS").
  { eexists. split; [reflexivity|]. cbn. split; [reflexivity|].
    split; [discriminate|in_list]. }
  destruct (String.eqb (method req) "POST"); cbn [negb].
  2: { eexists. split; [reflexivity|]. cbn. split; [reflexivity|].
       split; [discriminate|in_list]. }
  destruct (nullish (req_body req)); [apply Herr|].
  destruct (incomplete req).
  { eexists. split; [reflexivity|]. cbn. split; [reflexivity|].
    split; [discriminate|in_list]. }
  unfold validated.
  destruct (customer_step d req) as [t [c|e]];
    [|rewrite with_trace_app; apply Herr].
  destruct (intent_step d req c) as [t' [pi|e]];
    [|rewrite with_trace_app; apply Herr].
  destruct (respond_answers d (field req "plan_type") c pi
              (with_trace
                 (with_trace (entry req)
                    [Console LogInfo "📋 Processing payment request..." [];
                     Console LogInfo "Request body:"
                       [JSON_stringify (rt d) (req_body req)];
                     Console LogInfo "💳 Creating/retrieving Stripe customer..." []])
                 (t ++ t' ++ [created_line pi])))
    as (s' & E & Hh & Hsent & Hstatus & _).
  exists s'. split; [exact E|]. split; [exact Hh|]. split; [exact Hsent|].
  destruct Hstatus as [-> | [-> | ->]]; in_list.
Qed.


(** X10: a request that is not a POST never reaches Stripe and its body
    is never looked at: OPTIONS is answered 200 with an empty body, every
    other method 405 with [{ error: 'Method not allowed' }].  The run logs
    two lines that name the method and nothing else, and it is the same
    run whatever the body is and whatever the Stripe client would do. *)
Theorem non_post_never_reaches_stripe d req :
  method req <> "POST" ->
  statusCode (response_of (handler d req))
  = (if String.eqb (method req) "OPTIONS" then 200 else 405) /\
  sent (response_of (handler d req))
  = (if String.eqb (method req) "OPTIONS" then BodyEmpty
     else BodyJson (obj [("error", VStr "Method not allowed")])) /\
  trace_of (handler d req)
  = [Console LogInfo "🚀 Payment Intent API called:" [VStr (method req)];
     if String.eqb (method req) "OPTIONS"
     then Console LogInfo "✅ Handling OPTIONS preflight request" []
     else Console LogInfo "❌ Method not allowed:" [VStr (method req)]] /\
  vendor_calls (trace_of (handler d req)) = 0%nat /\
  (forall d' body,
     run (handler d' (Request (method req) (req_headers req) body))
     = run (handler d req)) /\
  snd (run (handler d req)) = Ret tt.
Proof.
  intros Hmethod. unfold response_of, trace_of.
  assert (Hsame : forall d' body,
            run (handler d' (Request (method req) (req_headers req) body))
            = run (handler d req)).
  { intros d' body. rewrite !handler_staged. unfold staged, entry, cors_headers, header.
    cbn [method req_headers].
    destruct (String.eqb (method req) "OPTIONS"); [reflexivity|].
    destruct (String.eqb_spec (method req) "POST"); [contradiction|reflexivity]. }
  split; [|split; [|split; [|split; [|split; [exact Hsame|]]]]].
  all: rewrite handler_staged; unfold staged;
    destruct (String.eqb (method req) "OPTIONS"); [reflexivity|];
    destruct (String.eqb_spec (method req) "POST"); [contradiction|reflexivity].
Qed.

Lemma non_post_witness :
  method preflight <> "POST" /\
  statusCode (response_of (handler (stripe_answering (Ret paid)) preflight)) = 200 /\
  sent (response_of (handler (stripe_answering (Ret paid)) preflight)) = BodyEmpty /\
  run (handler (stripe_answering (Throw card_declined))
         (Request "OPTIONS" (req_headers preflight) checkout))
  = run (handler (stripe_answering (Ret paid)) preflight).
Proof.
  assert (Hmethod : method preflight <> "POST") by discriminate.
  split; [exact Hmethod|].
  destruct (non_post_never_reaches_stripe (stripe_answering (Ret paid)) preflight Hmethod)
    as (Hstatus & Hsent & _ & _ & Hsame & _).
  split; [exact Hstatus|]. split; [exact Hsent|].
  exact (Hsame (stripe_answering (Throw card_declined)) checkout).
Defined.

Lemma allowed_origin s : existsb (String.eqb s) allowedOrigins = true <-> s ∈ allowedOrigins.
Proof.
  unfold allowedOrigins. cbn [existsb].
  destruct (String.eqb_spec s "https://www.gammapace.com");
    destruct (String.eqb_spec s "https://gurukullam.github.io");
    destruct (String.eqb_spec s "null"); cbn [orb]; split; intros H;
    first [ reflexivity | discriminate H | solve [subst; in_list]
          | solve [inv_mem H; contradiction] ].
Qed.

(** X11: every answer of the payment handler, errors included, carries
    the CORS headers set at the start.  [Access-Control-Allow-Origin]
    echoes the request's origin exactly when it is one of the three allowed
    origins, is [*] exactly when the request has no origin (or an empty
    one), and is absent for any other origin. *)
Theorem cors_headers_on_every_answer d req :
  headers (response_of (handler d req)) = cors_headers req /\
  ("Access-Control-Allow-Methods", "POST, OPTIONS") ∈ headers (response_of (handler d req)) /\
  ("Access-Control-Allow-Headers", "Content-Type, Authorization")
    ∈ headers (response_of (handler d req)) /\
  forall o,
    ("Access-Control-Allow-Origin", o) ∈ headers (response_of (handler d req)) <->
    (header req "origin" = VStr o /\ o ∈ allowedOrigins) \/
    (o = "*" /\ truthy (header req "origin") = false).
Proof.
  destruct (handler_settles d req) as (s' & E & Hh & _).
  unfold response_of. rewrite E. cbn [fst]. rewrite Hh. clear E Hh s'.
  split; [reflexivity|].
  unfold cors_headers, header.
  destruct (req_headers req !! "origin") as [origin|].
  2: { cbn [truthy app]. split; [in_list|]. split; [in_list|]. intros o.
       split; [intros Hin; inv_mem Hin; injection Hin as ->; auto|].
       intros [[[=] _]|[-> _]]. in_list. }
  destruct (existsb (String.eqb origin) allowedOrigins) eqn:Hallowed.
  - apply allowed_origin in Hallowed.
    cbn [app truthy]. split; [in_list|]. split; [in_list|]. intros o.
    split.
    + intros Hin. inv_mem Hin. injection Hin as ->. left. auto.
    + intros [[[= ->] _]|[-> Hempty]]; [in_list|].
      apply negb_false_iff, String.eqb_eq in Hempty. subst origin.
      unfold allowedOrigins in Hallowed. inv_mem Hallowed.
  - assert (Hnot : origin ∉ allowedOrigins).
    { intros Hin. apply allowed_origin in Hin. congruence. }
    cbn [truthy]. destruct (String.eqb_spec origin "") as [->|Hne]; cbn [negb app].
    + split; [in_list|]. split; [in_list|]. intros o.
      split; [intros Hin; inv_mem Hin; injection Hin as ->; auto|].
      intros [[[= <-] Hin]|[-> _]]; [contradiction|in_list].
    + split; [in_list|]. split; [in_list|]. intros o.
      split; [intros Hin; inv_mem Hin|].
      intros [[[= <-] Hin]|[_ [=]]]. contradiction.
Qed.

Lemma stripe_trace_intents d req : (count is_intent_call (stripe_trace d req) <= 1)%nat.
Proof.
  unfold stripe_trace.
  destruct (customer_step_cases d req)
    as [(e & _ & E1)|[(found & rest & _ & E1)|[(e & _ & _ & E1)|(created & _ & _ & E1)]]];
    rewrite E1; try (cbn; lia);
    match goal with
    | |- context [intent_step d req ?c] =>
        destruct (intent_step_cases d req c) as [(e & Et & _)|(a & cur & _ & _ & Ei)];
        [rewrite Et|rewrite Ei]; cbn; lia
    end.
Qed.

(** X12: whatever the request and whatever Stripe answers, the payment
    handler returns without throwing, has sent a response with status 200,
    400, 405 or 500, and has asked Stripe for at most one payment
    intent. *)
Theorem payment_handler_always_answers d req :
  snd (run (handler d req)) = Ret tt /\
  sent (response_of (handler d req)) <> Unsent /\
  statusCode (response_of (handler d req)) ∈ [200; 400; 405; 500] /\
  (count is_intent_call (trace_of (handler d req)) <= 1)%nat.
Proof.
  destruct (handler_settles d req) as (s' & E & _ & Hsent & Hstatus).
  unfold response_of. rewrite E. cbn [fst snd].
  split; [reflexivity|]. split; [exact Hsent|]. split; [exact Hstatus|].
  clear E Hsent Hstatus s'.
  destruct (early_or_complete req) as [Hearly|(Hpost & Hnull & Hcomplete)].
  { rewrite (logs_not_intent _ (early_trace d req Hearly)). lia. }
  destruct (complete_trace d req Hpost Hnull Hcomplete) as (logs & -> & Hlogs).
  rewrite !count_app, (logs_not_intent _ Hlogs).
  pose proof (stripe_trace_intents d req). cbn. lia.
Qed.

(** The [catch] block never answers 200. *)
Lemma on_error_not_ok e s : statusCode (res (fst (on_error e s))) <> 200.
Proof.
  rewrite on_error_run. cbn. unfold error_status.
  destruct (is_str (exn_type e) "StripeCardError");
    [|destruct (is_str (exn_type e) "StripeInvalidRequestError")]; discriminate.
Qed.

(** X13: a POST is answered 200 only if Stripe was asked for a payment
    intent, returned one, and its status is [requires_action],
    [requires_source_action] or [succeeded]. *)
Theorem ok_needs_payment_intent d req :
  method req = "POST" ->
  statusCode (response_of (handler d req)) = 200 ->
  exists p pi,
    PaymentIntentsCreate p ∈ trace_of (handler d req) /\
    paymentIntents_create d p = Ret pi /\
    (pi_status pi = "requires_action" \/ pi_status pi = "requires_source_action" \/
     pi_status pi = "succeeded").
Proof.
  intros Hpost.
  pose proof on_error_not_ok as Herr.
  destruct (early_or_complete req) as [[H|[Hnull|Hincomplete]]|(_ & Hnull & Hcomplete)];
    [contradiction| | |].
  - unfold response_of. rewrite handler_staged. unfold staged. rewrite Hpost, Hnull.
    cbn [String.eqb Ascii.eqb Bool.eqb negb]. intros Hok. destruct (Herr _ _ Hok).
  - unfold response_of. rewrite handler_staged. unfold staged. rewrite Hpost, Hincomplete.
    cbn [String.eqb Ascii.eqb Bool.eqb negb].
    destruct (nullish (req_body req)); [intros Hok; destruct (Herr _ _ Hok)|].
    cbn. discriminate.
  - destruct (complete_trace d req Hpost Hnull Hcomplete) as (logs & Etrace & _).
    rewrite Etrace. unfold response_of. rewrite handler_staged. unfold staged, stripe_trace.
    rewrite Hpost, Hnull, Hcomplete. cbn [String.eqb Ascii.eqb Bool.eqb negb].
    destruct (customer_step d req) as [t [c|e]]; [|intros Hok; destruct (Herr _ _ Hok)].
    destruct (intent_step_cases d req c) as [(e & Et & Eo & _)|(a & cur & _ & _ & Ei)].
    { destruct (intent_step d req c) as [t' o]. cbn [fst snd] in Et, Eo. subst t' o.
      intros Hok. destruct (Herr _ _ Hok). }
    rewrite Ei.
    destruct (paymentIntents_create d (intent_params req a cur c)) as [pi|e] eqn:Ep;
      [|intros Hok; destruct (Herr _ _ Hok)].
    match goal with
    | |- context [try_catch (respond d ?plan c pi) on_error ?s0] =>
        destruct (respond_answers d plan c pi s0) as (s' & E & _ & _ & _ & Hstatus);
        rewrite E
    end.
    cbn [fst]. intros Hok.
    exists (intent_params req a cur c), pi. split; [|split; [exact Ep|exact (Hstatus Hok)]].
    cbn [fst]. apply elem_of_app. right. apply elem_of_app. left.
    apply elem_of_app. right. in_list.
Qed.

Lemma ok_needs_payment_intent_witness :
  method (post checkout) = "POST" /\
  statusCode (response_of (handler (stripe_answering (Ret paid)) (post checkout))) = 200 /\
  exists p pi,
    PaymentIntentsCreate p ∈ trace_of (handler (stripe_answering (Ret paid)) (post checkout)) /\
    paymentIntents_create (stripe_answering (Ret paid)) p = Ret pi /\
    (pi_status pi = "requires_action" \/ pi_status pi = "requires_source_action" \/
     pi_status pi = "succeeded").
Proof.
  assert (Hpost : method (post checkout) = "POST") by reflexivity.
  assert (Hok : statusCode (response_of (handler (stripe_answering (Ret paid))
                                           (post checkout))) = 200)
    by (vm_compute; reflexivity).
  split; [exact Hpost|]. split; [exact Hok|].
  exact (ok_needs_payment_intent _ _ Hpost Hok).
Defined.


(** The run from the call of [stripe.paymentIntents.create] on. *)
Lemma intent_call_run d req p :
  PaymentIntentsCreate p ∈ trace_of (handler d req) ->
  exists t c amount' currency',
    p = intent_params req amount' currency' c /\
    customer_step d req = (t, Ret c) /\
    run (handler d req)
    = match paymentIntents_create d p with
      | Throw e =>
          on_error e
            (with_trace (validated d req)
               (t ++ [Console LogInfo "💰 Creating payment intent..." [];
                      PaymentIntentsCreate p]))
      | Ret pi =>
          try_catch (respond d (field req "plan_type") c pi) on_error
            (with_trace (validated d req)
               (t ++ [Console LogInfo "💰 Creating payment intent..." [];
                      PaymentIntentsCreate p] ++ [created_line pi]))
      end.
Proof.
  intros Hin.
  destruct (intent_call_inversion d req p Hin)
    as (Hpost & Hnull & Hcomplete & t & c & a & cur & Ec & _ & _ & -> & Ei).
  exists t, c, a, cur. split; [reflexivity|]. split; [exact Ec|].
  rewrite handler_staged. unfold staged.
  rewrite Hpost, Hnull, Hcomplete, Ec, Ei. cbn [String.eqb Ascii.eqb Bool.eqb negb].
  destruct (paymentIntents_create d _); reflexivity.
Qed.

(** X14: a payment intent that Stripe returns in any status other than
    [requires_action], [requires_source_action] and [succeeded] (for
    instance [processing] or [requires_payment_method]) is reported as a
    failure: 400 with [error: 'Payment failed'] and the intent's id, status
    and [last_payment_error]. *)
Theorem other_status_is_payment_failed d req p pi :
  PaymentIntentsCreate p ∈ trace_of (handler d req) ->
  paymentIntents_create d p = Ret pi ->
  pi_status pi <> "requires_action" ->
  pi_status pi <> "requires_source_action" ->
  pi_status pi <> "succeeded" ->
  statusCode (response_of (handler d req)) = 400 /\
  sent (response_of (handler d req)) = BodyJson (failure_body pi) /\
  last (trace_of (handler d req))
  = Some (Console LogInfo "❌ Payment failed:" [VStr (pi_status pi)]) /\
  snd (run (handler d req)) = Ret tt.
Proof.
  intros Hin Hcreated H1 H2 H3.
  destruct (intent_call_run d req p Hin) as (t & c & a & cur & _ & _ & E).
  unfold response_of, trace_of. rewrite E, Hcreated. unfold try_catch.
  rewrite (respond_other _ _ _ _ _ H1 H2 H3). cbn [fst snd res trace statusCode sent].
  split; [reflexivity|]. split; [reflexivity|]. split; [apply last_snoc|reflexivity].
Qed.

Lemma other_status_witness :
  PaymentIntentsCreate checkout_params
  ∈ trace_of (handler (stripe_answering (Ret processing)) (post checkout)) /\
  paymentIntents_create (stripe_answering (Ret processing)) checkout_params = Ret processing /\
  statusCode (response_of (handler (stripe_answering (Ret processing)) (post checkout)))
  = 400 /\
  sent (response_of (handler (stripe_answering (Ret processing)) (post checkout)))
  = BodyJson (failure_body processing).
Proof.
  assert (Hin : PaymentIntentsCreate checkout_params
                ∈ trace_of (handler (stripe_answering (Ret processing)) (post checkout))).
  { apply (list_elem_of_lookup_2 _ 7%nat). vm_compute. reflexivity. }
  assert (Hcreated : paymentIntents_create (stripe_answering (Ret processing))
                       checkout_params = Ret processing) by reflexivity.
  assert (H1 : pi_status processing <> "requires_action") by discriminate.
  assert (H2 : pi_status processing <> "requires_source_action") by discriminate.
  assert (H3 : pi_status processing <> "succeeded") by discriminate.
  split; [exact Hin|]. split; [exact Hcreated|].
  destruct (other_status_is_payment_failed _ _ _ _ Hin Hcreated H1 H2 H3)
    as (Hstatus & Hsent & _).
  split; [exact Hstatus|exact Hsent].
Defined.

(** X15: when Stripe reports the payment intent as [succeeded], the
    handler answers 200 with [success: true], the intent's id, amount,
    currency and status, the id, email and name of the customer that was
    charged, and the subscription data: the plan type ([monthly] when the
    request names none), [start_date] from one reading of the clock, and
    [end_date] from a second reading, moved by the plan's number of days.
    The customer is the one Stripe answered with: the first that the lookup
    by email found or, when it found none, the one it created; id, email
    and name are those of Stripe's record, not those of the request. *)
Theorem succeeded_payment_response d req p pi :
  PaymentIntentsCreate p ∈ trace_of (handler d req) ->
  paymentIntents_create d p = Ret pi ->
  pi_status pi = "succeeded" ->
  clock_in_range (rt d) 0 (or_else (field req "plan_type") (VStr "monthly")) ->
  exists c amount' currency',
    p = intent_params req amount' currency' c /\
    ((exists rest, customers_list d (list_params req) = Ret (c :: rest)) \/
     (customers_list d (list_params req) = Ret [] /\
      customers_create d (create_params req) = Ret c)) /\
    statusCode (response_of (handler d req)) = 200 /\
    sent (response_of (handler d req))
    = BodyJson
        (success_body (field req "plan_type") c pi
           (JSDate.iso_string (Date_now (rt d) 0))
           (JSDate.iso_string
              (JSDate.UTC (LocalTZA (rt d))
                 (JSDate.LocalTime (LocalTZA (rt d)) (Date_now (rt d) 1)
                  + plan_days (or_else (field req "plan_type") (VStr "monthly"))
                    * JSDate.msPerDay)))) /\
    snd (run (handler d req)) = Ret tt.
Proof.
  intros Hin Hcreated Hstatus Hclock.
  destruct (intent_call_run d req p Hin) as (t & c & a & cur & Hp & Ec & E).
  exists c, a, cur. split; [exact Hp|].
  split.
  { destruct (customer_step_cases d req)
      as [(e & El & E1)|[(found & rest & El & E1)|[(e & El & _ & E1)
                                                  |(created & El & Hc & E1)]]];
      rewrite E1 in Ec; try discriminate Ec; injection Ec as <- <-; eauto. }
  unfold response_of. rewrite E, Hcreated. unfold try_catch.
  match goal with
  | |- context [respond d ?plan c pi ?s0] =>
      destruct (respond_succeeded d plan c pi s0 Hstatus Hclock)
        as (s' & msg & -> & _ & Hres)
  end.
  cbn [fst snd]. rewrite Hres. cbn [statusCode sent].
  split; [reflexivity|]. split; reflexivity.
Qed.

Lemma succeeded_payment_witness :
  PaymentIntentsCreate checkout_params
  ∈ trace_of (handler (stripe_answering (Ret paid)) (post checkout)) /\
  paymentIntents_create (stripe_answering (Ret paid)) checkout_params = Ret paid /\
  pi_status paid = "succeeded" /\
  clock_in_range demo_runtime 0 (VStr "weekly") /\
  statusCode (response_of (handler (stripe_answering (Ret paid)) (post checkout))) = 200.
Proof.
  assert (Hin : PaymentIntentsCreate checkout_params
                ∈ trace_of (handler (stripe_answering (Ret paid)) (post checkout))).
  { apply (list_elem_of_lookup_2 _ 7%nat). vm_compute. reflexivity. }
  assert (Hclock : clock_in_range demo_runtime 0 (VStr "weekly")).
  { unfold clock_in_range, JSDate.valid_time. vm_compute. repeat split; discriminate. }
  assert (Hcreated : paymentIntents_create (stripe_answering (Ret paid)) checkout_params
                     = Ret paid) by reflexivity.
  assert (Hstatus : pi_status paid = "succeeded") by reflexivity.
  split; [exact Hin|]. split; [exact Hcreated|]. split; [exact Hstatus|].
  split; [exact Hclock|].
  assert (Hplan : or_else (field (post checkout) "plan_type") (VStr "monthly")
                  = VStr "weekly") by (vm_compute; reflexivity).
  rewrite <- Hplan in Hclock.
  destruct (succeeded_payment_response _ _ _ _ Hin Hcreated Hstatus Hclock)
    as (c & a & cur & _ & _ & Hok & _).
  exact Hok.
Defined.

(** X16: [stripe.customers.create] is called only when the lookup by
    email came back empty, and then with the request's email, the name
    ([IELTS Student] when none is given) and the metadata; a complete POST
    whose lookup comes back empty does make that call. *)
Theorem customer_created_only_if_unknown d req :
  (forall p,
     CustomersCreate p ∈ trace_of (handler d req) ->
     p = create_params req /\ customers_list d (list_params req) = Ret []) /\
  (method req = "POST" -> nullish (req_body req) = false -> incomplete req = false ->
   customers_list d (list_params req) = Ret [] ->
   CustomersCreate (create_params req) ∈ trace_of (handler d req)).
Proof.
  split.
  - intros p Hin.
    destruct (early_or_complete req) as [Hearly|(Hpost & Hnull & Hcomplete)].
    { destruct (log_not_call _ _ (early_trace d req Hearly) Hin). }
    destruct (complete_trace d req Hpost Hnull Hcomplete) as (logs & E & Hlogs).
    rewrite E in Hin.
    apply elem_of_app in Hin as [Hin|Hin]; [cbn in Hin; inv_mem Hin|].
    apply elem_of_app in Hin as [Hin|Hin]; [|destruct (log_not_call _ _ Hlogs Hin)].
    unfold stripe_trace in Hin.
    assert (Hintent : forall c, CustomersCreate p ∈ fst (intent_step d req c) -> False).
    { intros c Hc.
      destruct (intent_step_cases d req c) as [(e & Et & _)|(a & cur & _ & _ & Ei)];
        [rewrite Et in Hc|rewrite Ei in Hc]; cbn [fst] in Hc; inv_mem Hc. }
    destruct (customer_step_cases d req)
      as [(e & El & E1)|[(found & rest & El & E1)|[(e & El & _ & E1)|(created & El & _ & E1)]]];
      rewrite E1 in Hin;
      try (apply elem_of_app in Hin as [Hin|Hin]; [|destruct (Hintent _ Hin)]);
      inv_mem Hin; injection Hin as ->; auto.
  - intros Hpost Hnull Hcomplete Hlist.
    destruct (complete_trace d req Hpost Hnull Hcomplete) as (logs & -> & _).
    apply elem_of_app. right. apply elem_of_app. left.
    unfold stripe_trace, customer_step. rewrite Hlist.
    destruct (customers_create d (create_params req)) as [created|e];
      [apply elem_of_app; left|]; in_list.
Qed.

(** X17: a payment intent is created for the customer the lookup found
    first, or else for the one just created; its amount is what [parseInt]
    made of the request's amount, its currency the request's currency in
    lower case, and it is the only payment intent asked for in the run. *)
Theorem payment_intent_for_found_or_created_customer d req p :
  PaymentIntentsCreate p ∈ trace_of (handler d req) ->
  exists c amount' currency',
    p = intent_params req amount' currency' c /\
    parseInt (rt d) (field req "amount") = Ret amount' /\
    call_toLowerCase (rt d) (field req "currency") = Ret currency' /\
    ((exists rest, customers_list d (list_params req) = Ret (c :: rest)) \/
     (customers_list d (list_params req) = Ret [] /\
      customers_create d (create_params req) = Ret c)) /\
    count is_intent_call (trace_of (handler d req)) = 1%nat.
Proof.
  intros Hin.
  destruct (intent_call_inversion d req p Hin)
    as (Hpost & Hnull & Hcomplete & t & c & a & cur & Ec & Ha & Hcur & -> & Ei).
  exists c, a, cur. split; [reflexivity|]. split; [exact Ha|]. split; [exact Hcur|].
  split.
  - destruct (customer_step_cases d req)
      as [(e & El & E1)|[(found & rest & El & E1)|[(e & El & _ & E1)
                                                  |(created & El & Hc & E1)]]];
      rewrite E1 in Ec; try discriminate Ec; injection Ec as <- <-; eauto.
  - destruct (complete_trace d req Hpost Hnull Hcomplete) as (logs & -> & Hlogs).
    rewrite !count_app, (logs_not_intent _ Hlogs).
    unfold stripe_trace. rewrite Ec, Ei. cbn [fst]. rewrite count_app.
    assert (Ht : count is_intent_call t = 0%nat).
    { destruct (customer_step_cases d req)
        as [(e & _ & E1)|[(found & rest & _ & E1)|[(e & _ & _ & E1)|(created & _ & _ & E1)]]];
        rewrite E1 in Ec; injection Ec as <- _; reflexivity. }
    rewrite Ht. reflexivity.
Qed.

Lemma payment_intent_customer_witness :
  PaymentIntentsCreate checkout_params
  ∈ trace_of (handler (stripe_without_customer (Ret paid)) (post checkout)) /\
  exists c amount' currency',
    checkout_params = intent_params (post checkout) amount' currency' c /\
    parseInt demo_runtime (field (post checkout) "amount") = Ret amount' /\
    call_toLowerCase demo_runtime (field (post checkout) "currency") = Ret currency' /\
    ((exists rest,
        customers_list (stripe_without_customer (Ret paid)) (list_params (post checkout))
        = Ret (c :: rest)) \/
     (customers_list (stripe_without_customer (Ret paid)) (list_params (post checkout))
      = Ret [] /\
      customers_create (stripe_without_customer (Ret paid)) (create_params (post checkout))
      = Ret c)) /\
    count is_intent_call
      (trace_of (handler (stripe_without_customer (Ret paid)) (post checkout))) = 1%nat.
Proof.
  assert (Hin : PaymentIntentsCreate checkout_params
                ∈ trace_of (handler (stripe_without_customer (Ret paid)) (post checkout))).
  { apply (list_elem_of_lookup_2 _ 8%nat). vm_compute. reflexivity. }
  split; [exact Hin|].
  exact (payment_intent_for_found_or_created_customer _ _ _ Hin).
Defined.

(** X18: a POST whose body did not parse to anything ([req.body] is
    undefined or null) is not answered with the validation error: the
    destructuring throws, and the answer is 500 with type [server_error];
    Stripe is not called. *)
Theorem bodyless_post_is_500 d req :
  method req = "POST" ->
  nullish (req_body req) = true ->
  statusCode (response_of (handler d req)) = 500 /\
  sent (response_of (handler d req))
  = BodyJson (obj [("success", VBool false); ("error", VStr "Payment processing failed");
                   ("type", VStr "server_error")]) /\
  sent (response_of (handler d req)) <> BodyJson validation_error /\
  vendor_calls (trace_of (handler d req)) = 0%nat.
Proof.
  intros Hpost Hnull.
  split; [|split; [|split]].
  4: { apply logs_not_vendor, early_trace. auto. }
  all: unfold response_of; rewrite handler_staged; unfold staged; rewrite Hpost, Hnull;
    cbn [String.eqb Ascii.eqb Bool.eqb negb];
    rewrite on_error_run; cbn [fst res statusCode sent]; try reflexivity.
  intros Hsame.
  apply (f_equal (fun b => match b with BodyJson v => get_prop v "type" | _ => Ret VNull end))
    in Hsame.
  vm_compute in Hsame. discriminate Hsame.
Qed.

Lemma bodyless_post_witness :
  method (post VNull) = "POST" /\
  nullish (req_body (post VNull)) = true /\
  statusCode (response_of (handler (stripe_answering (Ret paid)) (post VNull))) = 500.
Proof.
  split; [reflexivity|]. split; [reflexivity|].
  exact (proj1 (bodyless_post_is_500 (stripe_answering (Ret paid)) (post VNull)
                  eq_refl eq_refl)).
Defined.


(** X19: validation checks that [currency] is there, not that it is a
    string.  A complete POST whose currency is not a string gets as far as
    the customer lookup (and the creation of the customer, if the lookup
    finds none), then fails on [currency.toLowerCase()]: no payment intent
    is asked for and the answer is never 200; when the customer was found
    and the amount parsed, it is 500 with type [server_error]. *)
Theorem unusable_currency_fails_after_lookup d req :
  method req = "POST" ->
  nullish (req_body req) = false ->
  incomplete req = false ->
  (forall s, field req "currency" <> VStr s) ->
  CustomersList (list_params req) ∈ trace_of (handler d req) /\
  (forall p, PaymentIntentsCreate p ∉ trace_of (handler d req)) /\
  statusCode (response_of (handler d req)) <> 200 /\
  (forall found rest amount',
     customers_list d (list_params req) = Ret (found :: rest) ->
     parseInt (rt d) (field req "amount") = Ret amount' ->
     statusCode (response_of (handler d req)) = 500 /\
     sent (response_of (handler d req))
     = BodyJson (obj [("success", VBool false); ("error", VStr "Payment processing failed");
                      ("type", VStr "server_error")])).
Proof.
  intros Hpost Hnull Hcomplete Hcurrency.
  assert (Hlower : exists e, call_toLowerCase (rt d) (field req "currency") = Throw e /\
                     exn_type e = VUndefined).
  { destruct (field req "currency") as [| | | |s| |] eqn:Ec; cbn;
      try (eexists; split; reflexivity).
    destruct (Hcurrency s eq_refl). }
  destruct Hlower as (e0 & Hlower & Htype).
  assert (Hnone : forall p, PaymentIntentsCreate p ∉ trace_of (handler d req)).
  { intros p Hin.
    destruct (intent_call_inversion d req p Hin)
      as (_ & _ & _ & t & c & a & cur & _ & _ & Hcur & _).
    congruence. }
  split.
  { destruct (complete_trace d req Hpost Hnull Hcomplete) as (logs & -> & _).
    apply elem_of_app. right. apply elem_of_app. left. unfold stripe_trace.
    destruct (customer_step_cases d req)
      as [(e & _ & E1)|[(found & rest & _ & E1)|[(e & _ & _ & E1)|(created & _ & _ & E1)]]];
      rewrite E1; try (apply elem_of_app; left); in_list. }
  split; [exact Hnone|].
  split.
  { unfold response_of. rewrite handler_staged. unfold staged.
    rewrite Hpost, Hnull, Hcomplete. cbn [String.eqb Ascii.eqb Bool.eqb negb].
    destruct (customer_step d req) as [t [c|e]]; [|apply on_error_not_ok].
    unfold intent_step. rewrite Hlower.
    destruct (parseInt (rt d) (field req "amount")); apply on_error_not_ok. }
  intros found rest amount' Hlist Hamount.
  unfold response_of. rewrite handler_staged. unfold staged.
  rewrite Hpost, Hnull, Hcomplete. cbn [String.eqb Ascii.eqb Bool.eqb negb].
  unfold customer_step, intent_step. rewrite Hlist, Hamount, Hlower, on_error_run.
  cbn [fst res statusCode sent]. unfold error_status, error_body. rewrite Htype.
  split; reflexivity.
Qed.

Lemma unusable_currency_witness :
  method (post checkout_numeric_currency) = "POST" /\
  incomplete (post checkout_numeric_currency) = false /\
  statusCode (response_of (handler (stripe_answering (Ret paid))
                             (post checkout_numeric_currency))) = 500 /\
  CustomersList (list_params (post checkout_numeric_currency))
  ∈ trace_of (handler (stripe_answering (Ret paid)) (post checkout_numeric_currency)).
Proof.
  assert (Hpost : method (post checkout_numeric_currency) = "POST") by reflexivity.
  assert (Hnull : nullish (req_body (post checkout_numeric_currency)) = false)
    by reflexivity.
  assert (Hcomplete : incomplete (post checkout_numeric_currency) = false)
    by (vm_compute; reflexivity).
  assert (Hcurrency : forall s, field (post checkout_numeric_currency) "currency" <> VStr s).
  { intros s. vm_compute. discriminate. }
  split; [exact Hpost|]. split; [exact Hcomplete|].
  destruct (unusable_currency_fails_after_lookup (stripe_answering (Ret paid)) _
              Hpost Hnull Hcomplete Hcurrency) as (Hlookup & _ & _ & Hfound).
  split; [|exact Hlookup].
  exact (proj1 (Hfound cus_1 [] (field (post checkout_numeric_currency) "amount")
                  eq_refl eq_refl)).
Defined.

(** X20: [calculateEndDate] does not throw on an invalid start date: it
    returns a new Date object that is invalid too, leaves the start date
    as it was, and it is the later [toISOString] on the result that throws
    [RangeError: Invalid time value]. *)
Theorem calculateEndDate_invalid_start rt (s : state) (startDate : ref) (planType : value) :
  heap s !! startDate = Some None ->
  exists (endDate : ref) (s' : state),
    calculateEndDate rt startDate planType s = (s', Ret endDate) /\
    endDate ≠ startDate /\
    heap s' !! endDate = Some None /\
    heap s' !! startDate = Some None /\
    res s' = res s /\
    snd (Date_toISOString endDate s') = Throw (RangeError "Invalid time value").
Proof.
  intros Hstart.
  destruct (calculateEndDate_run rt s startDate None planType Hstart) as (msg & E).
  assert (Hne : fresh (dom (heap s)) ≠ startDate) by (eapply fresh_ref_ne; eauto).
  eexists _, _. split; [exact E|]. cbn [heap res].
  split; [exact Hne|]. split; [apply lookup_insert_eq|].
  split; [rewrite lookup_insert_ne by done; exact Hstart|]. split; [reflexivity|].
  unfold Date_toISOString, bind, getTime. cbn [heap]. rewrite lookup_insert_eq.
  reflexivity.
Qed.

Lemma calculateEndDate_invalid_witness :
  heap invalid_date !! 1%positive = Some None /\
  exists (endDate : ref) (s' : state),
    calculateEndDate demo_runtime 1%positive (VStr "monthly") invalid_date = (s', Ret endDate) /\
    heap s' !! endDate = Some None.
Proof.
  assert (Hstart : heap invalid_date !! 1%positive = Some None) by reflexivity.
  split; [exact Hstart|].
  destruct (calculateEndDate_invalid_start demo_runtime invalid_date 1%positive
              (VStr "monthly") Hstart) as (endDate & s' & E & _ & Hend & _).
  exists endDate, s'. split; [exact E|exact Hend].
Defined.

End PaymentIntentCoverage.

(* ===================================================================== *)
(** * Facts about customer-portal.js *)
(* ===================================================================== *)

Module PortalFacts.
Import JS RunFacts TraceFacts Portal PortalSpec PortalScenario Scenario.

Lemma portal_handler_entry d req :
  run (handler d req)
  = (if String.eqb (method req) "OPTIONS" then
       bind (console_log "✅ Handling OPTIONS preflight request" [])
            (fun _ => bind (res_status 200) (fun _ => res_end))
     else if negb (String.eqb (method req) "POST") then
       bind (console_log "❌ Method not allowed:" [VStr (method req)])
            (fun _ => bind (res_status 405)
               (fun _ => res_json (obj [("error", VStr "Method not allowed")])))
     else try_catch (process d req) on_error) (opening req).
Proof.
  unfold run, handler, cors, opening, portal_cors_headers, header, PaymentIntent.includes.
  destruct (req_headers req !! "origin") as [origin|]; [|reflexivity].
  cbn [truthy].
  destruct (existsb (String.eqb origin) allowedOrigins); [reflexivity|].
  destruct (String.eqb origin ""); reflexivity.
Qed.

Lemma portal_on_error_run e s : on_error e s = failed e s.
Proof.
  unfold on_error, failed, portal_error_status, portal_error_body, bind, console_error, emit, res_status,
    res_json, update_res.
  cbn [trace res Run.statusCode Run.headers Run.sent].
  destruct (is_str (exn_type e) "StripeInvalidRequestError"); [reflexivity|].
  destruct (is_str (exn_code e) "customer_portal_inactive"); reflexivity.
Qed.

Lemma open_session_run d req customerId s :
  try_catch (open_session d customerId (body_field req "return_url")) on_error s
  = session_stage d req customerId s.
Proof.
  unfold open_session, validate_customer, session_stage, stripe_customers_retrieve,
    stripe_billingPortal_sessions_create, console_log, res_status, res_json, answered,
    extend, try_catch, bind, lift, emit, ret, update_res.
  cbn [trace res].
  destruct (customers_retrieve d customerId) as [customer|e];
    cbn [trace res Run.statusCode Run.headers Run.sent].
  - fold (session_params req customerId).
    destruct (sessions_create d (session_params req customerId)) as [session|e].
    + cbn [trace res Run.statusCode Run.headers Run.sent].
      rewrite <- ?app_assoc; cbn [app]. reflexivity.
    + rewrite portal_on_error_run. unfold failed. cbn [trace res]. rewrite <- ?app_assoc; cbn [app].
      reflexivity.
  - rewrite <- ?app_assoc; cbn [app]. reflexivity.
Qed.

Lemma portal_destructure_field req k x :
  PaymentIntent.destructure (req_body req) "customer_id" = Ret x ->
  PaymentIntent.destructure (req_body req) k = Ret (body_field req k).
Proof.
  unfold PaymentIntent.destructure, body_field.
  destruct (req_body req); cbn; intros H; try discriminate H; reflexivity.
Qed.

(** Walking through the [try] block. *)
Lemma portal_try_bind_emit {B} e (k : unit -> M B) h s :
  try_catch (bind (emit e) k) h s = try_catch (k tt) h (extend s [e]).
Proof. reflexivity. Qed.

Lemma portal_try_bind_lift {A B} (o : outcome A) (k : A -> M B) h s :
  try_catch (bind (lift o) k) h s
  = match o with Ret a => try_catch (k a) h s | Throw e => h e s end.
Proof. destruct o; reflexivity. Qed.

Lemma portal_try_bind_assoc {A B C} (m : M A) (k1 : A -> M B) (k2 : B -> M C) h s :
  try_catch (bind (bind m k1) k2) h s
  = try_catch (bind m (fun a => bind (k1 a) k2)) h s.
Proof. unfold try_catch, bind. destruct (m s) as [s1 [a|e]]; reflexivity. Qed.

Lemma extend_app s t1 t2 : extend (extend s t1) t2 = extend s (t1 ++ t2).
Proof. unfold extend. cbn. rewrite <- app_assoc. reflexivity. Qed.

Lemma extend_nil s : extend s [] = s.
Proof. destruct s. unfold extend. cbn. rewrite app_nil_r. reflexivity. Qed.

Ltac portal_walk := repeat first [rewrite portal_try_bind_assoc | rewrite portal_try_bind_emit].

(** The handler runs as [portal_staged] says. *)
Lemma portal_handler_staged d req : run (handler d req) = portal_staged d req.
Proof.
  rewrite portal_handler_entry. unfold portal_staged.
  destruct (String.eqb (method req) "OPTIONS"); [reflexivity|].
  destruct (String.eqb (method req) "POST"); [|reflexivity].
  cbn [negb].
  unfold process, console_log, stripe_customers_list. portal_walk.
  rewrite extend_app. cbn [app]. fold (logged d req).
  rewrite portal_try_bind_lift.
  destruct (PaymentIntent.destructure (req_body req) "customer_id") as [x|e] eqn:Hid;
    [|apply portal_on_error_run].
  pose proof (portal_destructure_field req "customer_id" x Hid) as Hx.
  rewrite Hid in Hx. injection Hx as Hx.
  rewrite portal_try_bind_lift, (portal_destructure_field req "customer_email" x Hid).
  rewrite portal_try_bind_lift, (portal_destructure_field req "return_url" x Hid).
  subst x.
  destruct (truthy (body_field req "customer_id")) eqn:Hgiven; cbn [negb andb].
  { apply open_session_run. }
  destruct (truthy (body_field req "customer_email")) eqn:Hemail; cbn [negb].
  2: { reflexivity. }
  portal_walk. fold (lookup_params req). rewrite portal_try_bind_lift, !extend_app. cbn [app].
  destruct (customers_list d (lookup_params req)) as [[|found rest]|e].
  - unfold try_catch, bind, emit, res_status, res_json, update_res, answered, logged,
      extend.
    cbn [trace res Run.statusCode Run.headers Run.sent]. rewrite <- ?app_assoc.
    reflexivity.
  - portal_walk. rewrite extend_app. cbn [app]. apply open_session_run.
  - apply portal_on_error_run.
Qed.

Lemma destructure_body req k :
  nullish (req_body req) = false ->
  PaymentIntent.destructure (req_body req) k = Ret (body_field req k).
Proof.
  unfold PaymentIntent.destructure, body_field. intros Hnull.
  destruct (req_body req); try discriminate Hnull; reflexivity.
Qed.


(** A POST with a body, by what it names. *)
Lemma post_staged d req :
  method req = "POST" ->
  nullish (req_body req) = false ->
  portal_staged d req
  = if negb (truthy (body_field req "customer_id")) && negb (truthy (body_field req "customer_email"))
    then answered (logged d req) [Console Run.LogInfo "❌ Missing required fields" []]
           400 needs_customer
    else if negb (truthy (body_field req "customer_id")) then
      match customers_list d (lookup_params req) with
      | Throw e =>
          failed e
            (extend (logged d req)
               [Console Run.LogInfo "🔍 Finding customer by email:"
                  [body_field req "customer_email"];
                CustomersList (lookup_params req)])
      | Ret [] =>
          answered (logged d req)
            [Console Run.LogInfo "🔍 Finding customer by email:"
               [body_field req "customer_email"];
             CustomersList (lookup_params req);
             Console Run.LogInfo "❌ Customer not found:" [body_field req "customer_email"]]
            404 no_subscription
      | Ret (found :: _) =>
          session_stage d req (VStr (PaymentIntent.cust_id found))
            (extend (logged d req)
               [Console Run.LogInfo "🔍 Finding customer by email:"
                  [body_field req "customer_email"];
                CustomersList (lookup_params req);
                Console Run.LogInfo "✅ Found customer:"
                  [VStr (PaymentIntent.cust_id found)]])
      end
    else session_stage d req (body_field req "customer_id") (logged d req).
Proof.
  intros Hpost Hnull. unfold portal_staged.
  rewrite Hpost, (destructure_body req _ Hnull). reflexivity.
Qed.

Lemma destructure_nullish req k :
  nullish (req_body req) = true ->
  exists e,
    PaymentIntent.destructure (req_body req) k = Throw e /\
    exn_type e = VUndefined /\ exn_code e = VUndefined.
Proof.
  unfold PaymentIntent.destructure. intros ->. eexists. split; [reflexivity|].
  split; reflexivity.
Qed.

(** From the validation of the customer on. *)
Lemma session_stage_ended d req customerId pre :
  resolved d req customerId pre ->
  exists s,
    session_stage d req customerId (extend (logged d req) pre) = (s, Ret tt) /\
    ended d req s.
Proof.
  intros Hres. unfold session_stage, answered, failed, extend.
  destruct (customers_retrieve d customerId) as [customer|e] eqn:Hretrieve.
  2: { eexists. split; [reflexivity|].
       cbn [trace res Run.headers]. rewrite <- ?app_assoc.
       exact (ended_unretrievable d req customerId pre e Hres Hretrieve). }
  destruct (sessions_create d (session_params req customerId)) as [session|e] eqn:Hcreate.
  - eexists. split; [reflexivity|].
    cbn [trace res Run.headers]. rewrite <- ?app_assoc.
    exact (ended_session d req customerId pre customer session Hres Hretrieve Hcreate).
  - eexists. split; [reflexivity|].
    cbn [trace res Run.headers]. rewrite <- ?app_assoc.
    exact (ended_session_failed d req customerId pre customer e Hres Hretrieve Hcreate).
Qed.

(** Every run of the handler returns, along one of the paths. *)
Lemma handler_ended d req : exists s, run (handler d req) = (s, Ret tt) /\ ended d req s.
Proof.
  rewrite portal_handler_staged.
  destruct (String.eqb_spec (method req) "POST") as [Hpost|Hother].
  2: { unfold portal_staged.
       destruct (String.eqb_spec (method req) "OPTIONS") as [Hoptions|Hno].
       - eexists. split; [reflexivity|]. apply ended_preflight. exact Hoptions.
       - destruct (String.eqb_spec (method req) "POST"); [contradiction|]. cbn [negb].
         eexists. split; [reflexivity|]. apply ended_method; assumption. }
  destruct (nullish (req_body req)) eqn:Hnull.
  { destruct (destructure_nullish req "customer_id" Hnull) as (e & He & Htype & Hcode).
    unfold portal_staged. rewrite Hpost, He. cbn [String.eqb Ascii.eqb Bool.eqb negb].
    eexists. split; [reflexivity|]. apply ended_bodyless; assumption. }
  rewrite (post_staged d req Hpost Hnull).
  destruct (truthy (body_field req "customer_id")) eqn:Hid; cbn [negb andb].
  { assert (Hres : resolved d req (body_field req "customer_id") []).
    { split; [exact Hpost|]. split; [exact Hnull|]. left. auto. }
    pose proof (session_stage_ended d req _ _ Hres) as Hstage.
    rewrite extend_nil in Hstage. exact Hstage. }
  destruct (truthy (body_field req "customer_email")) eqn:Hemail; cbn [negb].
  2: { eexists. split; [reflexivity|]. apply ended_unnamed; assumption. }
  destruct (customers_list d (lookup_params req)) as [[|found rest]|e] eqn:Hlist.
  - eexists. split; [reflexivity|]. apply ended_unknown_email; assumption.
  - apply session_stage_ended. split; [exact Hpost|]. split; [exact Hnull|]. right.
    split; [exact Hid|]. split; [exact Hemail|]. exists found, rest. auto.
  - eexists. split; [reflexivity|]. apply ended_lookup_failed; assumption.
Qed.

(** Case analysis on the path a run took. *)
Ltac on_portal_path d req :=
  let s := fresh "s" in
  let E := fresh "E" in
  let Hpath := fresh "Hpath" in
  destruct (handler_ended d req) as (s & E & Hpath);
  unfold response_of, trace_of; rewrite E; cbn [fst snd]; clear E;
  destruct Hpath as
    [ Hoptions'
    | Hoptions' Hpost'
    | e' Hpost' Hnull' Htype' Hcode'
    | Hpost' Hnull' Hid' Hemail'
    | e' Hpost' Hnull' Hid' Hemail' Hlist'
    | Hpost' Hnull' Hid' Hemail' Hlist'
    | customerId' pre' e' Hres' Hretrieve'
    | customerId' pre' customer' e' Hres' Hretrieve' Hcreate'
    | customerId' pre' customer' session' Hres' Hretrieve' Hcreate' ];
  cbn [ending trace res Run.statusCode Run.headers Run.sent].

(** The two ways to a customer id, with the trace written out. *)
Ltac by_resolution :=
  match goal with
  | Hres : resolved _ _ _ _ |- _ =>
      destruct Hres as (Hpost' & Hnull' &
                        [(Hid' & -> & ->)
                        |(Hid' & Hemail' & found' & rest' & Hlist' & -> & ->)])
  end.

Ltac list_trace H := cbn [logged extend opening trace app] in H.

(** X21: a POST to the portal endpoint that names neither a customer id
    nor an email (or carries falsy values for both) never reaches Stripe.
    When its body was parsed, it is answered 400 with [Either customer_id or
    customer_email is required].  When there is no parsed body ([req.body]
    is undefined or null), the destructuring throws before that check and
    the answer is the 500 [server_error] of the [catch] block. *)
Theorem portal_needs_customer d req :
  method req = "POST" ->
  truthy (body_field req "customer_id") = false ->
  truthy (body_field req "customer_email") = false ->
  stripe_calls (trace_of (handler d req)) = 0%nat /\
  snd (run (handler d req)) = Ret tt /\
  (nullish (req_body req) = false ->
   Run.statusCode (response_of (handler d req)) = 400 /\
   Run.sent (response_of (handler d req)) = Run.BodyJson needs_customer) /\
  (nullish (req_body req) = true ->
   Run.statusCode (response_of (handler d req)) = 500 /\
   Run.sent (response_of (handler d req))
   = Run.BodyJson
       (obj [("success", VBool false);
             ("error", VStr "Unable to create customer portal session");
             ("type", VStr "server_error")])).
Proof.
  intros Hpost Hid Hemail.
  unfold response_of, trace_of. rewrite portal_handler_staged.
  destruct (nullish (req_body req)) eqn:Hnull.
  - destruct (destructure_nullish req "customer_id" Hnull) as (e & He & Htype & Hcode).
    unfold portal_staged. rewrite Hpost, He. cbn [String.eqb Ascii.eqb Bool.eqb negb].
    unfold failed, portal_error_status, portal_error_body. rewrite Htype, Hcode.
    cbn [is_str fst snd trace res Run.statusCode Run.sent].
    split; [reflexivity|]. split; [reflexivity|].
    split; [discriminate|]. intros _. split; reflexivity.
  - rewrite (post_staged d req Hpost Hnull), Hid, Hemail.
    split; [reflexivity|]. split; [reflexivity|].
    split; [|discriminate]. intros _. split; reflexivity.
Qed.

Lemma portal_needs_customer_witness :
  method nameless = "POST" /\
  truthy (body_field nameless "customer_id") = false /\
  truthy (body_field nameless "customer_email") = false /\
  Run.statusCode
    (response_of (handler (portal_answering [cus_1] (Ret cus_1) (Ret session_1)) nameless))
  = 400.
Proof.
  assert (Hpost : method nameless = "POST") by reflexivity.
  assert (Hid : truthy (body_field nameless "customer_id") = false) by reflexivity.
  assert (Hemail : truthy (body_field nameless "customer_email") = false) by reflexivity.
  split; [exact Hpost|]. split; [exact Hid|]. split; [exact Hemail|].
  destruct (portal_needs_customer
              (portal_answering [cus_1] (Ret cus_1) (Ret session_1)) nameless
              Hpost Hid Hemail) as (_ & _ & Hparsed & _).
  exact (proj1 (Hparsed eq_refl)).
Defined.


(** X22: when the request names a customer by email only and Stripe
    lists no customer for it, the answer is 404 with [Customer not found.
    Please ensure you have an active subscription.]; no customer is
    retrieved and no portal session is asked for. *)
Theorem unknown_email_is_404 d req p :
  CustomersList p ∈ trace_of (handler d req) ->
  customers_list d p = Ret [] ->
  p = lookup_params req /\
  Run.statusCode (response_of (handler d req)) = 404 /\
  Run.sent (response_of (handler d req)) = Run.BodyJson no_subscription /\
  stripe_calls (trace_of (handler d req)) = 1%nat.
Proof.
  on_portal_path d req; intros Hin Hempty; try by_resolution; list_trace Hin; inv_mem Hin;
    injection Hin as ->; try congruence.
  repeat split; reflexivity.
Qed.

Lemma unknown_email_witness :
  CustomersList (lookup_params by_email)
  ∈ trace_of (handler (portal_answering [] (Ret cus_1) (Ret session_1)) by_email) /\
  Run.statusCode
    (response_of (handler (portal_answering [] (Ret cus_1) (Ret session_1)) by_email))
  = 404.
Proof.
  assert (Hin : CustomersList (lookup_params by_email)
                ∈ trace_of (handler (portal_answering [] (Ret cus_1) (Ret session_1))
                              by_email)).
  { apply (list_elem_of_lookup_2 _ 4%nat). vm_compute. reflexivity. }
  assert (Hempty : customers_list (portal_answering [] (Ret cus_1) (Ret session_1))
                     (lookup_params by_email) = Ret []) by reflexivity.
  split; [exact Hin|].
  destruct (unknown_email_is_404 _ _ _ Hin Hempty) as (_ & Hstatus & _).
  exact Hstatus.
Defined.



(** X24: when [stripe.customers.retrieve] throws, whatever the error (an
    unknown id, but a rate limit or a network failure too), the answer is
    404 with [Customer not found. Please contact support.]; the inner
    [catch] logs through [console.log], the outer [catch] is not involved,
    and no portal session is asked for. *)
Theorem unretrievable_customer_is_404 d req customerId e :
  CustomersRetrieve customerId ∈ trace_of (handler d req) ->
  customers_retrieve d customerId = Throw e ->
  Run.statusCode (response_of (handler d req)) = 404 /\
  Run.sent (response_of (handler d req)) = Run.BodyJson unknown_customer /\
  (forall p, SessionsCreate p ∉ trace_of (handler d req)) /\
  tally is_console_error (trace_of (handler d req)) = 0%nat /\
  last (trace_of (handler d req))
  = Some (Console Run.LogInfo "❌ Invalid customer ID:" [customerId]).
Proof.
  on_portal_path d req; intros Hin Hthrow; try by_resolution; list_trace Hin; inv_mem Hin;
    injection Hin as ->; try congruence;
    (split; [reflexivity|]); (split; [reflexivity|]);
    (split; [intros p Hp; list_trace Hp; inv_mem Hp|]);
    split; reflexivity.
Qed.

Lemma unretrievable_customer_witness :
  CustomersRetrieve (VStr "cus_1")
  ∈ trace_of (handler (portal_answering [cus_1] (Throw rate_limited) (Ret session_1))
                by_email) /\
  Run.statusCode
    (response_of (handler (portal_answering [cus_1] (Throw rate_limited) (Ret session_1))
                    by_email)) = 404.
Proof.
  assert (Hin : CustomersRetrieve (VStr "cus_1")
                ∈ trace_of (handler (portal_answering [cus_1] (Throw rate_limited)
                                       (Ret session_1)) by_email)).
  { apply (list_elem_of_lookup_2 _ 6%nat). vm_compute. reflexivity. }
  assert (Hthrow : customers_retrieve
                     (portal_answering [cus_1] (Throw rate_limited) (Ret session_1))
                     (VStr "cus_1") = Throw rate_limited) by reflexivity.
  split; [exact Hin|].
  exact (proj1 (unretrievable_customer_is_404 _ _ _ _ Hin Hthrow)).
Defined.

(** X25: a portal session is asked for only for a customer that
    [stripe.customers.retrieve] has just returned, with [return_url] set to
    the request's or, when the request has none, to
    [https://www.gammapace.com]; when Stripe creates the session the
    answer is 200 with [success: true], the session's url and id, and the
    customer id. *)
Theorem portal_session_response d req p session :
  SessionsCreate p ∈ trace_of (handler d req) ->
  sessions_create d p = Ret session ->
  exists customerId customer,
    p = session_params req customerId /\
    customers_retrieve d customerId = Ret customer /\
    CustomersRetrieve customerId ∈ trace_of (handler d req) /\
    Run.statusCode (response_of (handler d req)) = 200 /\
    Run.sent (response_of (handler d req)) = Run.BodyJson (session_body customerId session) /\
    snd (run (handler d req)) = Ret tt.
Proof.
  on_portal_path d req; intros Hin Hcreated;
    try (by_resolution; list_trace Hin; inv_mem Hin; injection Hin as ->; congruence);
    try (list_trace Hin; inv_mem Hin).
  assert (p = session_params req customerId') as ->.
  { by_resolution; list_trace Hin; inv_mem Hin; injection Hin as ->; reflexivity. }
  assert (session' = session) as -> by congruence.
  exists customerId', customer'.
  split; [reflexivity|]. split; [exact Hretrieve'|].
  split; [|repeat split; reflexivity].
  apply elem_of_app. right. apply elem_of_app. right. in_list.
Qed.

Lemma portal_session_witness :
  SessionsCreate (session_params by_email (VStr "cus_1"))
  ∈ trace_of (handler (portal_answering [cus_1] (Ret cus_1) (Ret session_1)) by_email) /\
  Run.statusCode
    (response_of (handler (portal_answering [cus_1] (Ret cus_1) (Ret session_1)) by_email))
  = 200.
Proof.
  assert (Hin : SessionsCreate (session_params by_email (VStr "cus_1"))
                ∈ trace_of (handler (portal_answering [cus_1] (Ret cus_1) (Ret session_1))
                              by_email)).
  { apply (list_elem_of_lookup_2 _ 9%nat). vm_compute. reflexivity. }
  assert (Hcreated : sessions_create (portal_answering [cus_1] (Ret cus_1) (Ret session_1))
                       (session_params by_email (VStr "cus_1")) = Ret session_1)
    by reflexivity.
  split; [exact Hin|].
  destruct (portal_session_response _ _ _ _ Hin Hcreated)
    as (customerId & customer & _ & _ & _ & Hstatus & _).
  exact Hstatus.
Defined.

(** X26: when [stripe.customers.list] or
    [stripe.billingPortal.sessions.create] throws, the answer depends on
    the error's [type] first and its [code] second: type
    [StripeInvalidRequestError] gives 400 [invalid_request] whatever the
    code, so also for code [customer_portal_inactive]; any other type with
    that code gives 400 [portal_inactive]; everything else 500
    [server_error].  Stripe's own message is never sent. *)
Theorem portal_error_classified d req c e :
  c ∈ trace_of (handler d req) ->
  portal_rejected_by d c = Some e ->
  Run.statusCode (response_of (handler d req)) = portal_error_status e /\
  Run.sent (response_of (handler d req)) = Run.BodyJson (portal_error_body e) /\
  (exn_type e = VStr "StripeInvalidRequestError" ->
   Run.statusCode (response_of (handler d req)) = 400 /\
   Run.sent (response_of (handler d req))
   = Run.BodyJson
       (obj [("success", VBool false); ("error", VStr "Invalid customer information");
             ("type", VStr "invalid_request")])) /\
  (is_str (exn_type e) "StripeInvalidRequestError" = false ->
   exn_code e = VStr "customer_portal_inactive" ->
   Run.statusCode (response_of (handler d req)) = 400 /\
   Run.sent (response_of (handler d req))
   = Run.BodyJson
       (obj [("success", VBool false);
             ("error", VStr "Customer portal is not activated. Please contact support.");
             ("type", VStr "portal_inactive")])) /\
  (is_str (exn_type e) "StripeInvalidRequestError" = false ->
   is_str (exn_code e) "customer_portal_inactive" = false ->
   Run.statusCode (response_of (handler d req)) = 500 /\
   Run.sent (response_of (handler d req))
   = Run.BodyJson
       (obj [("success", VBool false);
             ("error", VStr "Unable to create customer portal session");
             ("type", VStr "server_error")])).
Proof.
  intros Hin Hrej.
  assert (Hanswer : Run.statusCode (response_of (handler d req)) = portal_error_status e /\
                    Run.sent (response_of (handler d req)) = Run.BodyJson (portal_error_body e)).
  { revert Hin Hrej.
    on_portal_path d req; intros Hin Hrej; try by_resolution; list_trace Hin; inv_mem Hin;
      subst c; cbn [portal_rejected_by] in Hrej;
      repeat match goal with
             | E : customers_list _ _ = _ |- _ => rewrite E in Hrej
             | E : sessions_create _ _ = _ |- _ => rewrite E in Hrej
             end;
      try discriminate Hrej; injection Hrej as <-; split; reflexivity. }
  destruct Hanswer as [-> ->]. split; [reflexivity|]. split; [reflexivity|].
  unfold portal_error_status, portal_error_body.
  split; [intros ->; split; reflexivity|].
  split; [intros -> ->; split; reflexivity|].
  intros -> ->. split; reflexivity.
Qed.

Lemma portal_error_witness :
  SessionsCreate (session_params by_email (VStr "cus_1"))
  ∈ trace_of (handler (portal_answering [cus_1] (Ret cus_1) (Throw portal_inactive))
                by_email) /\
  exn_code portal_inactive = VStr "customer_portal_inactive" /\
  Run.sent
    (response_of (handler (portal_answering [cus_1] (Ret cus_1) (Throw portal_inactive))
                    by_email))
  = Run.BodyJson
      (obj [("success", VBool false); ("error", VStr "Invalid customer information");
            ("type", VStr "invalid_request")]).
Proof.
  assert (Hin : SessionsCreate (session_params by_email (VStr "cus_1"))
                ∈ trace_of (handler (portal_answering [cus_1] (Ret cus_1)
                                       (Throw portal_inactive)) by_email)).
  { apply (list_elem_of_lookup_2 _ 9%nat). vm_compute. reflexivity. }
  assert (Hrej : portal_rejected_by (portal_answering [cus_1] (Ret cus_1) (Throw portal_inactive))
                   (SessionsCreate (session_params by_email (VStr "cus_1")))
                 = Some portal_inactive) by reflexivity.
  split; [exact Hin|]. split; [reflexivity|].
  destruct (portal_error_classified _ _ _ _ Hin Hrej) as (_ & _ & Hinvalid & _).
  exact (proj2 (Hinvalid eq_refl)).
Defined.

(** X27: whatever the request and whatever Stripe answers, the portal
    handler returns without throwing and has sent a response with the CORS
    headers and status 200, 400, 404, 405 or 500, after at most three calls
    to Stripe; a POST is answered 200 only if Stripe created a portal
    session. *)
Theorem portal_always_answers d req :
  snd (run (handler d req)) = Ret tt /\
  Run.sent (response_of (handler d req)) <> Run.Unsent /\
  Run.statusCode (response_of (handler d req)) ∈ [200; 400; 404; 405; 500] /\
  Run.headers (response_of (handler d req)) = portal_cors_headers req /\
  (stripe_calls (trace_of (handler d req)) <= 3)%nat /\
  (method req = "POST" ->
   Run.statusCode (response_of (handler d req)) = 200 ->
   exists p session,
     SessionsCreate p ∈ trace_of (handler d req) /\ sessions_create d p = Ret session).
Proof.
  assert (Herr : forall e, portal_error_status e ∈ [200; 400; 404; 405; 500] /\ portal_error_status e <> 200).
  { intros e. unfold portal_error_status.
    destruct (is_str (exn_type e) "StripeInvalidRequestError");
      [|destruct (is_str (exn_code e) "customer_portal_inactive")];
      (split; [in_list|discriminate]). }
  on_portal_path d req; (split; [reflexivity|]); (split; [discriminate|]);
    (split; [first [solve [in_list]|apply Herr]|]); (split; [reflexivity|]);
    (split; [try by_resolution; cbn; lia|]);
    intros Hpost Hok; try congruence; try discriminate Hok;
    try (destruct (proj2 (Herr e') Hok)).
  exists (session_params req customerId'), session'. split; [|exact Hcreate'].
  apply elem_of_app. right. apply elem_of_app. right. in_list.
Qed.

End PortalFacts.

(* ===================================================================== *)
(** * Facts about status.js *)
(* ===================================================================== *)

Module StatusFacts.
Import JS Run Status StatusSpec.

Lemma configured_env o : truthy (env o) = configured o.
Proof. destruct o; reflexivity. Qed.

Lemma handler_run d req :
  method req <> "OPTIONS" ->
  JSDate.valid_time (Date_now (rt d) 0) ->
  run (handler d req)
  = (State [] (Response 200 status_headers
                 (BodyJson (report (JSDate.iso_string (Date_now (rt d) 0)) (node_version d)
                              (configured (STRIPE_SECRET_KEY d))
                              (configured (STRIPE_WEBHOOK_SECRET d)))))
       {[ fresh (dom (∅ : gmap ref JSDate.time)) := Some (Date_now (rt d) 0) ]} 1, Ret tt).
Proof.
  intros Hmethod Hvalid. unfold run, handler.
  destruct (String.eqb_spec (method req) "OPTIONS"); [contradiction|].
  unfold res_setHeader, res_status, res_json, PaymentIntent.new_Date_now,
    PaymentIntent.new_Date, PaymentIntent.Date_toISOString, PaymentIntent.getTime,
    bind, update_res, lift.
  cbn [initial trace res heap ticks statusCode headers sent fresh_response app mbind
       option_bind].
  rewrite (JSDateFacts.TimeClip_valid _ Hvalid), lookup_insert_eq.
  cbn [JSDate.toISOString trace res heap ticks statusCode headers sent].
  rewrite !configured_env. reflexivity.
Qed.

(** X28: the status endpoint has no method guard: every request that is
    not an OPTIONS preflight, a POST or DELETE as well as a GET, is
    answered 200 with the report; the report shows the time, the Node
    version, and for each of the two secrets only whether it is set to a
    non-empty value. *)
Theorem status_answers_every_method d req :
  method req <> "OPTIONS" ->
  JSDate.valid_time (Date_now (rt d) 0) ->
  statusCode (response_of (handler d req)) = 200 /\
  sent (response_of (handler d req))
  = BodyJson (report (JSDate.iso_string (Date_now (rt d) 0)) (node_version d)
                (configured (STRIPE_SECRET_KEY d)) (configured (STRIPE_WEBHOOK_SECRET d))) /\
  headers (response_of (handler d req)) = status_headers /\
  trace_of (handler d req) = [] /\
  snd (run (handler d req)) = Ret tt.
Proof.
  intros Hmethod Hvalid. unfold response_of, trace_of.
  rewrite (handler_run d req Hmethod Hvalid). repeat split; reflexivity.
Qed.

Lemma status_answers_witness :
  method (Request "DELETE") <> "OPTIONS" /\
  JSDate.valid_time (Date_now (rt live) 0) /\
  statusCode (response_of (handler live (Request "DELETE"))) = 200 /\
  sent (response_of (handler live (Request "DELETE")))
  = BodyJson (report "2024-01-31T10:00:00.000Z" "v18.17.0" true true).
Proof.
  assert (Hmethod : method (Request "DELETE") <> "OPTIONS") by discriminate.
  assert (Hvalid : JSDate.valid_time (Date_now (rt live) 0)).
  { unfold JSDate.valid_time. vm_compute. discriminate. }
  split; [exact Hmethod|]. split; [exact Hvalid|].
  destruct (status_answers_every_method live (Request "DELETE") Hmethod Hvalid)
    as (Hstatus & Hsent & _).
  split; [exact Hstatus|]. rewrite Hsent. vm_compute. reflexivity.
Defined.

(** X29: the status endpoint does not disclose the secrets: two
    deployments that differ only in the values of [STRIPE_SECRET_KEY] and
    [STRIPE_WEBHOOK_SECRET], each being set or unset in both, answer every
    request identically. *)
Theorem status_hides_secrets d1 d2 req :
  node_version d1 = node_version d2 ->
  rt d1 = rt d2 ->
  configured (STRIPE_SECRET_KEY d1) = configured (STRIPE_SECRET_KEY d2) ->
  configured (STRIPE_WEBHOOK_SECRET d1) = configured (STRIPE_WEBHOOK_SECRET d2) ->
  run (handler d1 req) = run (handler d2 req).
Proof.
  intros Hversion Hrt Hkey Hwebhook. unfold run, handler.
  destruct (String.eqb (method req) "OPTIONS"); [reflexivity|].
  rewrite !configured_env, Hversion, Hrt, Hkey, Hwebhook. reflexivity.
Qed.

Lemma status_hides_secrets_witness :
  STRIPE_SECRET_KEY live <> STRIPE_SECRET_KEY rotated /\
  run (handler live (Request "GET")) = run (handler rotated (Request "GET")).
Proof.
  split; [discriminate|].
  exact (status_hides_secrets live rotated (Request "GET") eq_refl eq_refl eq_refl eq_refl).
Defined.

End StatusFacts.
